(** * iocage: listing of jails ([iocage_lib/ioc_list.py])

    A shallow embedding of [IOCList.list_all], [IOCList.list_all_quick],
    [IOCList.list_get_jid], [IOCList.list_datasets] and
    [IOCList.list_bases], and the properties of the listing that the
    specification states.

    Conventions of the embedding.
    - A Python [str] (and the [bytes] of a process output) is a [string] of
      8-bit characters; text is taken to be ASCII, so [decode()] is the
      identity and [lower()] acts on the letters A-Z.
    - A configuration ([conf], a Python dict of strings) is a
      [gmap string string]; [conf[k]] raises [KeyError] on a missing key,
      [conf.get(k, d)] does not.
    - Exceptions are values of [exn]; code that can raise lives in the monad
      [M], which also records the processes that the code of this file
      starts and the messages it logs.
    - Everything outside the file (the configuration loader, the dataset
      store, the process table, the plugin descriptor, the sort key) is a
      field of [Host]: the result or the exception of a call, without
      what the collaborator does inside. *)

From Stdlib Require Import Ascii ZArith Lia.
From stdpp Require Import gmap strings list fin_maps.

Local Open Scope Z_scope.

(* ===================================================================== *)
(** ** Python string primitives *)
(* ===================================================================== *)

Module PyStr.

(** [s.startswith(p)] *)
Fixpoint startswith (p s : string) : bool :=
  match p, s with
  | EmptyString, _ => true
  | String a p', String b s' => if Ascii.eqb a b then startswith p' s' else false
  | String _ _, EmptyString => false
  end.

(** [sub in s] *)
Fixpoint contains (sub s : string) : bool :=
  match s with
  | EmptyString => startswith sub EmptyString
  | String _ s' => startswith sub s || contains sub s'
  end.

(** [c in s] for a one-character [c] *)
Fixpoint mem (c : ascii) (s : string) : bool :=
  match s with
  | EmptyString => false
  | String a s' => Ascii.eqb c a || mem c s'
  end.

Fixpoint drop (n : nat) (s : string) : string :=
  match n, s with
  | O, _ => s
  | S n', String _ s' => drop n' s'
  | S _, EmptyString => EmptyString
  end.

(** [s[:n]] *)
Fixpoint take (n : nat) (s : string) : string :=
  match n, s with
  | S n', String a s' => String a (take n' s')
  | _, _ => EmptyString
  end.

Fixpoint map (f : ascii -> ascii) (s : string) : string :=
  match s with
  | EmptyString => EmptyString
  | String a s' => String (f a) (map f s')
  end.

(** [s.split(sep)] for a one-character separator: the fields between the
    occurrences of [sep]; always at least one field. *)
Fixpoint split (sep : ascii) (s : string) : list string :=
  match s with
  | EmptyString => [EmptyString]
  | String a s' =>
      if Ascii.eqb a sep then EmptyString :: split sep s'
      else match split sep s' with
           | f :: fs => String a f :: fs
           | [] => [String a EmptyString]
           end
  end.

(** [s.split(sep, 1)] for a one-character separator: cut at the first
    occurrence only. *)
Fixpoint split1 (sep : ascii) (s : string) : list string :=
  match s with
  | EmptyString => [EmptyString]
  | String a s' =>
      if Ascii.eqb a sep then [EmptyString; s']
      else match split1 sep s' with
           | f :: fs => String a f :: fs
           | [] => [String a EmptyString]
           end
  end.

(** The cut of [s] at the last occurrence of [sep], if there is one. *)
Fixpoint rcut (sep s : string) : option (string * string) :=
  match s with
  | EmptyString => None
  | String a s' =>
      match rcut sep s' with
      | Some (b, r) => Some (String a b, r)
      | None =>
          if startswith sep s then Some (EmptyString, drop (String.length sep) s)
          else None
      end
  end.

(** [s.rsplit(sep, 1)] for a non-empty separator *)
Definition rsplit1 (sep s : string) : list string :=
  match rcut sep s with
  | Some (b, r) => [b; r]
  | None => [s]
  end.

(** [sep.join(l)] *)
Definition join (sep : string) (l : list string) : string := String.concat sep l.

(** [s.replace(old, new)]: the occurrences of [old] are found from the
    left and do not overlap. [skip] counts the characters of a match that
    are still to be passed over. *)
Fixpoint replace_from (old new : string) (skip : nat) (s : string) : string :=
  match s with
  | EmptyString => EmptyString
  | String a s' =>
      match skip with
      | S k => replace_from old new k s'
      | O =>
          if startswith old s
          then new +:+ replace_from old new (Nat.pred (String.length old)) s'
          else String a (replace_from old new O s')
      end
  end.

(** With an empty [old], Python puts [new] before every character and at
    the end. *)
Fixpoint intersperse (new s : string) : string :=
  match s with
  | EmptyString => new
  | String a s' => new +:+ String a (intersperse new s')
  end.

Definition replace (old new s : string) : string :=
  match old with
  | EmptyString => intersperse new s
  | String _ _ => replace_from old new O s
  end.

Definition lower_char (a : ascii) : ascii :=
  let n := nat_of_ascii a in
  if (Nat.leb 65 n && Nat.leb n 90)%bool then ascii_of_nat (n + 32) else a.

(** [s.lower()] *)
Definition lower (s : string) : string := map lower_char s.

(** [s.rstrip(chars)]: drops the longest tail made of characters of
    [chars] (a set of characters, not a suffix). *)
Fixpoint rstrip (chars s : string) : string :=
  match s with
  | EmptyString => EmptyString
  | String a s' =>
      match rstrip chars s' with
      | EmptyString => if mem a chars then EmptyString else String a EmptyString
      | r => String a r
      end
  end.

Fixpoint lstrip (chars s : string) : string :=
  match s with
  | EmptyString => EmptyString
  | String a s' => if mem a chars then lstrip chars s' else s
  end.

(** [s.strip(chars)] *)
Definition strip (chars s : string) : string := rstrip chars (lstrip chars s).

(** White space of [str.split()]: tab, line feed, vertical tab, form feed,
    carriage return, the separators 0x1c-0x1f and the space. *)
Definition isspace (a : ascii) : bool :=
  let n := nat_of_ascii a in
  ((Nat.leb 9 n && Nat.leb n 13) || (Nat.leb 28 n && Nat.leb n 32))%bool.

(** White space of [bytes.split()]: tab, line feed, vertical tab, form
    feed, carriage return and the space. *)
Definition isspace_bytes (a : ascii) : bool :=
  let n := nat_of_ascii a in
  ((Nat.leb 9 n && Nat.leb n 13) || Nat.eqb n 32)%bool.

(** [s.split()] with no separator: the maximal runs of characters that are
    not white space. [cur] is the run being read, if any. *)
Fixpoint words_from (sp : ascii -> bool) (cur : option string) (s : string)
  : list string :=
  match s with
  | EmptyString => match cur with Some w => [w] | None => [] end
  | String a s' =>
      if sp a
      then match cur with
           | Some w => w :: words_from sp None s'
           | None => words_from sp None s'
           end
      else words_from sp (Some (match cur with
                                | Some w => w +:+ String a EmptyString
                                | None => String a EmptyString
                                end)) s'
  end.

Definition words (s : string) : list string := words_from isspace None s.
Definition words_bytes (s : string) : list string := words_from isspace_bytes None s.

Definition LF : ascii := ascii_of_nat 10.
Definition CR : ascii := ascii_of_nat 13.

(** [b.splitlines()] on bytes: lines end at LF, CR or CR LF; no empty last
    line. [cur] is the line being read. *)
Fixpoint splitlines_from (cur : string) (s : string) : list string :=
  match s with
  | EmptyString => match cur with EmptyString => [] | _ => [cur] end
  | String a s' =>
      if Ascii.eqb a LF then cur :: splitlines_from EmptyString s'
      else if Ascii.eqb a CR then
        cur :: match s' with
               | String b s'' =>
                   if Ascii.eqb b LF then splitlines_from EmptyString s''
                   else splitlines_from EmptyString s'
               | EmptyString => []
               end
      else splitlines_from (cur +:+ String a EmptyString) s'
  end.

Definition splitlines (s : string) : list string := splitlines_from EmptyString s.

End PyStr.

(* ===================================================================== *)
(** ** Library functions used by the listing *)
(* ===================================================================== *)

Module PyLib.

Definition is_digit (a : ascii) : bool :=
  let n := nat_of_ascii a in (Nat.leb 48 n && Nat.leb n 57)%bool.

(** The class [\w] on ASCII text: letters, digits and the underscore. *)
Definition is_word (a : ascii) : bool :=
  let n := nat_of_ascii a in
  (is_digit a || (Nat.leb 65 n && Nat.leb n 90) || (Nat.leb 97 n && Nat.leb n 122)
   || Nat.eqb n 95)%bool.

(** [re.sub(r"\W\w.", "-", s)]: every match, from the left and without
    overlap, of a non-word character, a word character and any character
    but a line feed, becomes one hyphen. *)
Fixpoint re_sub_W_w_dot (s : string) : string :=
  match s with
  | String a ((String b (String c rest)) as s') =>
      if (negb (is_word a) && is_word b && negb (Ascii.eqb c PyStr.LF))%bool
      then String "-" (re_sub_W_w_dot rest)
      else String a (re_sub_W_w_dot s')
  | _ => s
  end.

(** The value of a hexadecimal digit. *)
Definition hex_val (a : ascii) : option Z :=
  let n := nat_of_ascii a in
  if (Nat.leb 48 n && Nat.leb n 57)%bool then Some (Z.of_nat n - 48)
  else if (Nat.leb 97 n && Nat.leb n 102)%bool then Some (Z.of_nat n - 87)
  else if (Nat.leb 65 n && Nat.leb n 70)%bool then Some (Z.of_nat n - 55)
  else None.

(** The digits of [int(s, 16)]: hexadecimal digits, with single underscores
    allowed between two digits. [seen] says that the previous character
    was a digit. The result is the value and what follows the digits. *)
Fixpoint int16_digits (acc : Z) (seen : bool) (s : string) : option (Z * string) :=
  match s with
  | EmptyString => if seen then Some (acc, EmptyString) else None
  | String a s' =>
      match hex_val a with
      | Some d => int16_digits (16 * acc + d) true s'
      | None =>
          if Ascii.eqb a "_"
          then (if seen then int16_digits acc false s' else None)
          else (if seen then Some (acc, s) else None)
      end
  end.

Definition skip_sign (s : string) : bool * string :=
  match s with
  | String "+" s' => (false, s')
  | String "-" s' => (true, s')
  | _ => (false, s)
  end.

Definition skip_0x (s : string) : string :=
  match s with
  | String "0" (String x s') =>
      if (Ascii.eqb x "x" || Ascii.eqb x "X")%bool
      then match s' with String "_" s'' => s'' | _ => s' end
      else s
  | _ => s
  end.

(** [int(s, 16)]: white space, an optional sign, an optional [0x], the
    digits, white space; [None] stands for [ValueError]. *)
Definition int16 (s : string) : option Z :=
  let (neg, s1) := skip_sign (PyStr.lstrip (String (ascii_of_nat 9) (String (ascii_of_nat 10)
                       (String (ascii_of_nat 11) (String (ascii_of_nat 12)
                       (String (ascii_of_nat 13) " "))))) s) in
  match int16_digits 0 false (skip_0x s1) with
  | Some (v, rest) =>
      match PyStr.lstrip (String (ascii_of_nat 9) (String (ascii_of_nat 10)
                       (String (ascii_of_nat 11) (String (ascii_of_nat 12)
                       (String (ascii_of_nat 13) " "))))) rest with
      | EmptyString => Some (if neg then - v else v)
      | _ => None
      end
  | None => None
  end.

Definition hex_char (d : Z) : ascii :=
  if d <? 10 then ascii_of_nat (Z.to_nat (d + 48)) else ascii_of_nat (Z.to_nat (d + 87)).

(** The [k] low hexadecimal digits of [n], most significant first: this is
    ['%032x' % n] for [k = 32] and [0 <= n < 2^128]. *)
Fixpoint hex_render (k : nat) (n : Z) : string :=
  match k with
  | O => EmptyString
  | S k' => String (hex_char ((n / 16 ^ Z.of_nat k') mod 16)) (hex_render k' n)
  end.

(** [str(uuid.UUID(s, version=4))], or [None] for [ValueError]. The
    library drops [urn:] and [uuid:], surrounding braces and every hyphen,
    wants 32 characters that [int(_, 16)] reads as a 128-bit number, then
    sets the variant and version bits. *)
Definition uuid4_str (s : string) : option string :=
  let hex := PyStr.replace "uuid:" "" (PyStr.replace "urn:" "" s) in
  let hex := PyStr.replace "-" "" (PyStr.strip "{}" hex) in
  if negb (Nat.eqb (String.length hex) 32) then None
  else match int16 hex with
       | None => None
       | Some n =>
           if negb ((0 <=? n) && (n <? Z.shiftl 1 128)) then None
           else
             let n := Z.land n (Z.lnot (Z.shiftl 0xc000 48)) in
             let n := Z.lor n (Z.shiftl 0x8000 48) in
             let n := Z.land n (Z.lnot (Z.shiftl 0xf000 64)) in
             let n := Z.lor n (Z.shiftl 4 76) in
             let hex := hex_render 32 n in
             Some (PyStr.take 8 hex +:+ "-" +:+ PyStr.take 4 (PyStr.drop 8 hex) +:+ "-"
                   +:+ PyStr.take 4 (PyStr.drop 12 hex) +:+ "-"
                   +:+ PyStr.take 4 (PyStr.drop 16 hex) +:+ "-" +:+ PyStr.drop 20 hex)
       end.

End PyLib.

(* ===================================================================== *)
(** ** Exceptions and the listing monad *)
(* ===================================================================== *)

(** The exception classes the listing tells apart, and [OtherError] for
    any other subclass of [Exception] (a dataset-store error, a JSON
    decoding error, ...). *)
Inductive exn : Type :=
  | KeyError
  | IndexError
  | ValueError
  | UnboundLocalError
  | FileNotFoundError
  | CalledProcessError (str_e : string)
  | CommandFailed (message : list string)
  | SystemExit
  | OtherError (name : string).

Inductive result (A : Type) : Type :=
  | Ok (a : A)
  | Raise (e : exn).
Arguments Ok {A} a.
Arguments Raise {A} e.

(** What the code of this file does to the outside: the processes it
    starts itself ([checkoutput] at line 393, [su.check_output] at line
    267) and the messages it hands to [logit] (line 115). What a
    collaborator of another module does while it computes its result is
    not an event: a collaborator is here its result or its exception
    only (see [Host]). *)
Inductive event : Type :=
  | Exec (argv : list string)
  | Logged (level message : string).

(** A computation yields the events it caused, in order, and a value or
    an exception. *)
Definition M (A : Type) : Type := (list event * result A)%type.

Definition raise {A} (e : exn) : M A := ([], Raise e).
Definition lift {A} (r : result A) : M A := ([], r).
Definition emit (ev : event) : M unit := ([ev], Ok tt).

#[global] Instance M_ret : MRet M := λ A a, ([], Ok a).
#[global] Instance M_bind : MBind M := λ A B f m,
  match m with
  | (t, Ok a) => let (t', r) := f a in (t ++ t', r)
  | (t, Raise e) => (t, Raise e)
  end.

(** [try: m except ...: h e]; a handler re-raises what its clauses do
    not match. *)
Definition try_except {A} (m : M A) (h : exn → M A) : M A :=
  match m with
  | (t, Ok a) => (t, Ok a)
  | (t, Raise e) => let (t', r) := h e in (t ++ t', r)
  end.

(** [try: m except ...: h e else: k a]: the [else] suite runs outside the
    handlers. *)
Definition try_except_else {A B} (m : M A) (h : exn → M B) (k : A → M B) : M B :=
  match m with
  | (t, Ok a) => let (t', r) := k a in (t ++ t', r)
  | (t, Raise e) => let (t', r) := h e in (t ++ t', r)
  end.

(** [l[i]] *)
Definition index {A} (l : list A) (i : nat) : M A :=
  match l !! i with
  | Some a => mret a
  | None => raise IndexError
  end.

(** [conf[k]] *)
Definition getitem (conf : gmap string string) (k : string) : M string :=
  match conf !! k with
  | Some v => mret v
  | None => raise KeyError
  end.

(** [conf.get(k, d)] *)
Definition get (conf : gmap string string) (k d : string) : string :=
  default d (conf !! k).

(* ===================================================================== *)
(** ** The host: what the listing reads from outside the file *)
(* ===================================================================== *)

(** A child of the jails (or templates) dataset: [jail.name] and
    [jail.properties["mountpoint"].value]. *)
Record Dataset : Type := {
  name : string;
  mountpoint : string
}.

(** [<mountpoint>/plugin/ui.json]; an absent key is [None]. *)
Record UiJson : Type := {
  adminportal : option string;
  adminportal_placeholders : option (list (string * string))
}.

(** The collaborators of the file, each as the result or the exception of
    a call. The modules [ioc_json], [ioc_common] and [libzfs] are not part
    of the source, so what they do inside (the files [IOCJson] reads, the
    commands it runs to load a configuration or to look up a plugin
    property, what it logs) is left out: a property of the events of a
    listing speaks of the calls this file makes, never of those. *)
Record Host : Type := {
  (** [IOCJson(mountpoint).json_get_value('all')] *)
  json_get_value_all : string → result (gmap string string);
  (** [IOCJson().json_get_value('all', default=True)] *)
  json_get_value_default : result (gmap string string);
  (** [json.load(open(path))]; [FileNotFoundError] when there is no file *)
  json_load_conf : string → result (gmap string string);
  json_load_ui : string → result UiJson;
  (** [IOCJson(mountpoint).json_plugin_get_value(path)] *)
  json_plugin_get_value : string → list string → result string;
  (** [iocage_lib.ioc_common.checkoutput(argv, stderr=su.PIPE)] *)
  checkoutput : list string → result string;
  (** [su.check_output(argv)] *)
  check_output : list string → result string;
  (** [self.zfs.get_dataset(name).properties["origin"]]: [None] for a
      property that is false as a condition, else its [value] *)
  zfs_origin : string → result (option string);
  (** [os.geteuid()] *)
  geteuid : Z;
  (** what [iocage_lib.ioc_common.logit] does with a message of a level *)
  logit : string → string → result unit;
  (** [iocage_lib.ioc_common.ioc_sort(list_type, sort, data=rows)]: the
      key of a row, in an ordered set taken to be the integers *)
  ioc_sort : string → option string → list (list string) → list string → Z
}.

(* ===================================================================== *)
(** ** [class IOCList] *)
(* ===================================================================== *)

Module ioc_list.

(** The attributes of an [IOCList] object that the listing reads. *)
Record IOCList : Type := {
  list_type : string;
  header : bool;
  full : bool;
  sort : option string;
  silent : bool;
  plugin : bool;
  quick : bool
}.

(** [self.basejail_only = False if self.list_type != 'basejail' else True] *)
Definition basejail_only (self : IOCList) : bool := String.eqb (list_type self) "basejail".

(** What a listing returns: the rows ([flat_jail]) when there is no header,
    else the drawing of the table whose first row is the header. *)
Inductive listing : Type :=
  | Flat (rows : list (list string))
  | Table (rows : list (list string)).

(** [l[0]] and [l[-1]] of a list that [split] built (never empty). *)
Definition first (l : list string) : string := default "" (head l).
Definition final (l : list string) : string := default "" (last l).

(** Starting a process through either wrapper is recorded. *)
Definition run_checkoutput (h : Host) (argv : list string) : M string :=
  _ ← emit (Exec argv); lift (checkoutput h argv).
Definition run_check_output (h : Host) (argv : list string) : M string :=
  _ ← emit (Exec argv); lift (check_output h argv).

(** The name of the jail in the kernel: [f"ioc-{uuid.replace('.', '_')}"] *)
Definition jail_name (uuid : string) : string := "ioc-" +:+ PyStr.replace "." "_" uuid.

(** [list_get_jid] (lines 389-399) *)
Definition list_get_jid (h : Host) (uuid : string) : M (bool * string) :=
  try_except
    (out ← run_checkoutput h ["jls"; "-j"; jail_name uuid];
     jid ← index (PyStr.words out) 5;
     mret (true, jid))
    (λ e, match e with
          | CalledProcessError _ => mret (false, "-")
          | _ => raise e
          end).

(** Lines 195-204: [str(_uuid.UUID(uuid, version=4))[:8]] unless [self.full]
    or [ValueError]. *)
Definition short_uuid (full : bool) (uuid : string) : string :=
  if full then uuid
  else match PyLib.uuid4_str uuid with
       | Some u => PyStr.take 8 u
       | None => uuid
       end.

(** [item.split("|")[1].split("/")[0]]; [None] is the [IndexError]. *)
Definition ip4_item (item : string) : option string :=
  a ← PyStr.split "|" item !! 1%nat; Some (first (PyStr.split "/" a)).

(** Lines 209-213 *)
Definition short_ip4_of (full_ip4 : string) : string :=
  match mapM ip4_item (PyStr.split "," full_ip4) with
  | Some items => PyStr.join "," items
  | None => if String.eqb full_ip4 "none" then "-" else full_ip4
  end.

(** Lines 219-224: the pair [(full_release, short_release)].
    [rsplit("-")] without a count cuts where [split("-")] does. *)
Definition release_forms (full_release : string) : string * string :=
  if PyStr.contains "HBSD" full_release then
    let full_release := PyLib.re_sub_W_w_dot full_release in
    let full_release := PyStr.replace "--SD" "-STABLE-HBSD" full_release in
    (full_release, PyStr.rstrip "-HBSD" full_release)
  else (full_release, PyStr.join "-" (take 2 (PyStr.split "-" full_release))).

(** Lines 226-230 *)
Definition none_to_dash (s : string) : string := if String.eqb s "none" then "-" else s.

(** Lines 248-250: [origin.rsplit("/root@", 1)[0].rsplit("/", 1)[-1]] *)
Definition origin_name (origin : string) : string :=
  final (PyStr.rsplit1 "/" (first (PyStr.rsplit1 "/root@" origin))).

(** Lines 254-255 *)
Definition hide_release (template : string) : string :=
  if (PyStr.contains "release" (PyStr.lower template)
      || PyStr.contains "stable" (PyStr.lower template))%bool
  then "-" else template.

(** Lines 241-255 *)
Definition template_of (h : Host) (jail : Dataset) (jail_type : string) : M string :=
  template ←
    (if String.eqb jail_type "template" then mret "-"
     else
       _origin_property ← lift (zfs_origin h (name jail +:+ "/root"));
       match _origin_property with
       | Some value => if negb (String.eqb value "") then mret (origin_name value) else mret "-"
       | None => mret "-"
       end);
  mret (hide_release template).

(** Lines 258-262 *)
Definition dhcp_interface (interfaces : string) : string :=
  let interface := first (PyStr.split ":" (first (PyStr.split "," interfaces))) in
  if String.eqb interface "vnet0" then PyStr.replace "vnet" "epair" interface +:+ "b"
  else interface.

(** Lines 257-280: the pair [(short_ip4, full_ip4)] after the DHCP
    branches. [status] is the local variable, [None] while unbound; the
    three conditions of the chain are tested in the order of the source. *)
Definition dhcp_forms (h : Host) (conf : gmap string string) (status : option bool)
    (uuid_full short_ip4 full_ip4 : string) : M (string * string) :=
  dhcp ← getitem conf "dhcp";
  if String.eqb dhcp "on" then
    status ← match status return M bool with
             | Some b => mret b
             | None => raise UnboundLocalError
             end;
    if (status : bool) then
      if geteuid h =? 0 then
        interfaces ← getitem conf "interfaces";
        let interface := dhcp_interface interfaces in
        let short_ip4 := "DHCP" in
        let full_ip4_cmd := ["jexec"; jail_name uuid_full; "ifconfig"; interface; "inet"] in
        try_except_else (run_check_output h full_ip4_cmd)
          (λ e, match e with
                | CalledProcessError str_e =>
                    mret (short_ip4 +:+ "(Network Issue)", "DHCP - Network Issue:" +:+ str_e)
                | _ => raise e
                end)
          (λ out,
             line ← index (PyStr.splitlines out) 2;
             addr ← index (PyStr.words_bytes line) 1;
             mret (short_ip4, interface +:+ "|" +:+ addr))
      else mret ("DHCP", "DHCP (running -- address requires root)")
    else mret ("DHCP", "DHCP (not running)")
  else mret (short_ip4, full_ip4).

(** Lines 293-297: the address put in place of [%%IP%%]. *)
Definition portal_ip (full_ip4 : string) : string :=
  let ip := PyStr.split1 "|" full_ip4 in
  let ip := if negb (Nat.eqb (length ip) 1) then default "" (ip !! 1%nat) else first ip in
  if negb (PyStr.contains "DHCP" full_ip4) then first (PyStr.split1 "/" ip) else "DHCP".

(** Lines 304-310: the loop over the placeholders. It yields the portal as
    replaced so far together with how the loop ended, since an exception
    leaves the replacements already made in [admin_portal]. *)
Fixpoint resolve_placeholders (h : Host) (mountpoint admin_portal : string)
    (ph : list (string * string)) : string * result unit :=
  match ph with
  | [] => (admin_portal, Ok tt)
  | (placeholder, prop) :: ph' =>
      match json_plugin_get_value h mountpoint (PyStr.split "." prop) with
      | Ok v => resolve_placeholders h mountpoint (PyStr.replace placeholder v admin_portal) ph'
      | Raise e => (admin_portal, Raise e)
      end
  end.

(** Lines 291-320 *)
Definition admin_portal_of (h : Host) (mountpoint full_ip4 : string) : M string :=
  try_except
    (ui_data ← lift (json_load_ui h (mountpoint +:+ "/plugin/ui.json"));
     let ip := portal_ip full_ip4 in
     admin_portal ← match adminportal ui_data with Some a => mret a | None => raise KeyError end;
     let admin_portal := PyStr.replace "%%IP%%" ip admin_portal in
     match adminportal_placeholders ui_data with
     | None => mret admin_portal
     | Some ph =>
         match resolve_placeholders h mountpoint admin_portal ph with
         | (admin_portal, Ok _) => mret admin_portal
         | (admin_portal, Raise KeyError) => mret admin_portal
         | (_, Raise (CommandFailed message)) =>
             mret (if geteuid h =? 0 then PyStr.join " " message
                   else "Admin Portal requires root")
         | (_, Raise e) => raise e
         end
     end)
    (λ e, match e with
          | FileNotFoundError => mret "-"
          | _ => raise e
          end).

(** Lines 166-187: the configuration of a jail, and whether it is the
    placeholder one of a corrupt jail. *)
Definition load_conf (h : Host) (jail : Dataset) : M (gmap string string * bool) :=
  try_except
    (conf ← lift (json_get_value_all h (mountpoint jail)); mret (conf, false))
    (λ _,
       def_props ← lift (json_get_value_default h);
       let conf := (λ _, "N/A") <$> def_props in
       let conf := <["host_hostuuid" := final (PyStr.split "/" (name jail))]> conf in
       let conf := <["release" := "N/A"]> conf in
       mret (conf, true)).

(** The body of the loop of [list_all] (lines 165-330) for one jail.
    [full] is [self.full] as line 161 left it. The local [status] outlives
    an iteration, so it is passed in and out; the row is [None] after a
    [continue]. *)
Definition list_all_jail (self : IOCList) (h : Host) (full : bool)
    (status : option bool) (jail : Dataset) : M (option bool * option (list string)) :=
  '(conf, corrupt) ← load_conf h jail;
  if (basejail_only self && negb (String.eqb (get conf "basejail" "no") "yes"))%bool
  then mret (status, None)
  else
    uuid_full ← getitem conf "host_hostuuid";
    let uuid := short_uuid full uuid_full in
    full_ip4 ← getitem conf "ip4_addr";
    ip6 ← getitem conf "ip6_addr";
    let short_ip4 := short_ip4_of full_ip4 in
    boot ← getitem conf "boot";
    jail_type ← getitem conf "type";
    full_release ← getitem conf "release";
    let '(full_release, short_release) := release_forms full_release in
    let full_ip4 := none_to_dash full_ip4 in
    let ip6 := none_to_dash ip6 in
    '(status, state, jid) ←
      (if (corrupt : bool) return M (option bool * string * string)
       then mret (status, "CORRUPT", "-")
       else
         '(st, jid) ← list_get_jid h uuid_full;
         mret (Some st, if (st : bool) then "up" else "down", jid));
    _ ← getitem conf "type";
    template ← template_of h jail jail_type;
    '(short_ip4, full_ip4) ← dhcp_forms h conf status uuid_full short_ip4 full_ip4;
    if (full && plugin self)%bool then
      if (negb (String.eqb jail_type "plugin") && negb (String.eqb jail_type "pluginv2"))%bool
      then mret (status, None)
      else
        admin_portal ← admin_portal_of h (mountpoint jail) full_ip4;
        mret (status, Some [jid; uuid; boot; state; jail_type; full_release; full_ip4;
                             ip6; template; admin_portal])
    else if full then
      mret (status, Some [jid; uuid; boot; state; jail_type; full_release; full_ip4;
                           ip6; template])
    else mret (status, Some [jid; uuid; state; short_release; short_ip4]).

(** The loop of lines 164-330: [jail_list] grows at its end, and the local
    [status] is carried from one jail to the next. *)
Fixpoint list_all_loop (self : IOCList) (h : Host) (full : bool) (status : option bool)
    (jail_list : list (list string)) (jails : list Dataset) : M (list (list string)) :=
  match jails with
  | [] => mret jail_list
  | jail :: jails' =>
      '(status, row) ← list_all_jail self h full status jail;
      list_all_loop self h full status
        (match row with
         | Some r => jail_list ++ [r]
         | None => jail_list
         end) jails'
  end.

(** [l.sort(key=key)]: a stable sort, here by insertion. *)
Fixpoint insert_by {A} (key : A → Z) (x : A) (l : list A) : list A :=
  match l with
  | [] => [x]
  | y :: l' => if key y <=? key x then y :: insert_by key x l' else x :: l
  end.
Definition sort_by {A} (key : A → Z) (l : list A) : list A :=
  fold_left (λ acc x, insert_by key x acc) l [].

(** [list_all] (lines 159-369) *)
Definition list_all (self : IOCList) (h : Host) (jails : list Dataset) : M listing :=
  let full := if plugin self then true else full self in
  jail_list ← list_all_loop self h full None [] jails;
  let list_type := if full then "list_full" else "list_short" in
  let key := ioc_sort h list_type (sort self) jail_list in
  let jail_list := sort_by key jail_list in
  if negb (header self) then mret (Flat jail_list)
  else if full then
    if plugin self then
      mret (Table (["JID"; "NAME"; "BOOT"; "STATE"; "TYPE"; "RELEASE"; "IP4"; "IP6";
                    "TEMPLATE"; "PORTAL"] :: jail_list))
    else
      mret (Table (["JID"; "NAME"; "BOOT"; "STATE"; "TYPE"; "RELEASE"; "IP4"; "IP6";
                    "TEMPLATE"] :: jail_list))
  else mret (Table (["JID"; "NAME"; "STATE"; "RELEASE"; "IP4"] :: jail_list)).

(** The body of the loop of [list_all_quick] (lines 108-139). The local
    [conf] outlives an iteration: after the [FileNotFoundError] clause it
    is what the previous jail left, or unbound. *)
Definition list_all_quick_jail (self : IOCList) (h : Host)
    (conf : option (gmap string string)) (jail : Dataset)
  : M (option (gmap string string) * option (list string)) :=
  let mountpoint := mountpoint jail in
  conf ←
    try_except
      (c ← lift (json_load_conf h (mountpoint +:+ "/config.json")); mret (Some c))
      (λ e, match e with
            | FileNotFoundError =>
                let uuid := final (PyStr.rsplit1 "/" mountpoint) in
                let message := uuid +:+ " is missing its configuration file."
                                 +:+ String PyStr.LF "Please run just 'list' instead to create it." in
                _ ← emit (Logged "EXCEPTION" message);
                _ ← lift (logit h "EXCEPTION" message);
                mret conf
            | _ =>
                mret (Some (<["dhcp" := "N/A"]>
                            (<["ip4_addr" := "N/A"]>
                             {["host_hostuuid" :=
                                 final (PyStr.rsplit1 "/" mountpoint) +:+ " - CORRUPTED"]})))
            end);
  match conf with
  | None => raise UnboundLocalError
  | Some c =>
      uuid ← getitem c "host_hostuuid";
      let ip4 := get c "ip4_addr" "none" in
      let dhcp := get c "dhcp" "off" in
      let ip4 := if negb (String.eqb dhcp "on") then ip4 else "DHCP" in
      if (basejail_only self && negb (String.eqb (get c "basejail" "no") "yes"))%bool
      then mret (conf, None)
      else mret (conf, Some [uuid; ip4])
  end.

(** The loop of lines 107-139; the local [conf] is carried from one jail
    to the next. *)
Fixpoint list_all_quick_loop (self : IOCList) (h : Host) (conf : option (gmap string string))
    (jail_list : list (list string)) (jails : list Dataset) : M (list (list string)) :=
  match jails with
  | [] => mret jail_list
  | jail :: jails' =>
      '(conf, row) ← list_all_quick_jail self h conf jail;
      list_all_quick_loop self h conf
        (match row with
         | Some r => jail_list ++ [r]
         | None => jail_list
         end) jails'
  end.

(** [list_all_quick] (lines 103-157) *)
Definition list_all_quick (self : IOCList) (h : Host) (jails : list Dataset) : M listing :=
  jail_list ← list_all_quick_loop self h None [] jails;
  if negb (header self) then mret (Flat jail_list)
  else mret (Table (["NAME"; "IP4"] :: jail_list)).

End ioc_list.

Import ioc_list.

(* ===================================================================== *)
(** ** Vocabulary of the statements, and a small host to run them on *)
(* ===================================================================== *)

(** The rows of a listing without the header row of a table. *)
Definition data_rows (l : listing) : list (list string) :=
  match l with
  | Flat rows => rows
  | Table rows => tail rows
  end.

(** A pool with four jails: [web] is a base jail with two static
    addresses, [dh] is a plugin on DHCP named by a UUID, the configuration
    of [bad] cannot be parsed and that of [gone] is missing. *)
Module Demo.

Definition conf_web : gmap string string :=
  list_to_map [("host_hostuuid", "web"); ("ip4_addr", "vnet0|10.0.0.5/24,vnet1|10.0.1.5/24");
               ("ip6_addr", "none"); ("boot", "on"); ("type", "jail");
               ("release", "11.2-RELEASE-p4"); ("dhcp", "off"); ("basejail", "yes");
               ("interfaces", "vnet0:bridge0")].

Definition conf_dh : gmap string string :=
  list_to_map [("host_hostuuid", "9F1E2C3A-1111-2222-3333-444455556666"); ("ip4_addr", "none");
               ("ip6_addr", "none"); ("boot", "on"); ("type", "pluginv2");
               ("release", "11.0-STABLE-HBSD"); ("dhcp", "on");
               ("interfaces", "vnet0:bridge0")].

Definition defaults : gmap string string :=
  list_to_map [("ip4_addr", "none"); ("ip6_addr", "none"); ("boot", "off"); ("type", "jail");
               ("dhcp", "off"); ("basejail", "no"); ("interfaces", "vnet0:bridge0")].

Definition jls_out : string :=
  "   JID  IP Address      Hostname                      Path
     7  10.0.0.5        web                           /iocage/jails/web/root".

Definition ifconfig_out : string :=
  "epair0b: flags=8843<UP,BROADCAST,RUNNING,SIMPLEX,MULTICAST> metric 0 mtu 1500
	options=8<VLAN_MTU>
	inet 10.0.0.77 netmask 0xffffff00 broadcast 10.0.0.255".

Definition ui : UiJson :=
  {| adminportal := Some "http://%%IP%%:%%PORT%%/";
     adminportal_placeholders := Some [("%%PORT%%", "settings.port")] |}.

(** Only [web] and [dh] run; [euid] is the effective user id. *)
Definition host (euid : Z) : Host := {|
  json_get_value_all mp :=
    if String.eqb mp "/iocage/jails/web" then Ok conf_web
    else if String.eqb mp "/iocage/jails/dh" then Ok conf_dh
    else Raise (OtherError "JSONDecodeError");
  json_get_value_default := Ok defaults;
  json_load_conf p :=
    if String.eqb p "/iocage/jails/web/config.json" then Ok conf_web
    else if String.eqb p "/iocage/jails/dh/config.json" then Ok conf_dh
    else if String.eqb p "/iocage/jails/gone/config.json" then Raise FileNotFoundError
    else Raise (OtherError "JSONDecodeError");
  json_load_ui p :=
    if String.eqb p "/iocage/jails/dh/plugin/ui.json" then Ok ui else Raise FileNotFoundError;
  json_plugin_get_value mp path :=
    if bool_decide (path = ["settings"; "port"]) then Ok "8080" else Raise KeyError;
  checkoutput argv :=
    if bool_decide (argv = ["jls"; "-j"; "ioc-web"]) then Ok jls_out
    else if bool_decide (argv = ["jls"; "-j"; "ioc-9F1E2C3A-1111-2222-3333-444455556666"])
    then Ok jls_out
    else Raise (CalledProcessError "Command returned non-zero exit status 1.");
  check_output argv :=
    if bool_decide (argv = ["jexec"; "ioc-9F1E2C3A-1111-2222-3333-444455556666"; "ifconfig";
                            "epair0b"; "inet"])
    then Ok ifconfig_out
    else Raise (CalledProcessError "Command returned non-zero exit status 1.");
  zfs_origin n :=
    if String.eqb n "zroot/iocage/jails/web/root"
    then Ok (Some "zroot/iocage/templates/tpl/root@web")
    else if String.eqb n "zroot/iocage/jails/dh/root"
    then Ok (Some "zroot/iocage/releases/11.2-RELEASE/root@dh")
    else Ok None;
  geteuid := euid;
  logit _ _ := Ok tt;
  ioc_sort _ _ _ _ := 0
|}.

Definition web : Dataset := {| name := "zroot/iocage/jails/web"; mountpoint := "/iocage/jails/web" |}.
Definition dh : Dataset := {| name := "zroot/iocage/jails/dh"; mountpoint := "/iocage/jails/dh" |}.
Definition bad : Dataset := {| name := "zroot/iocage/jails/bad"; mountpoint := "/iocage/jails/bad" |}.
Definition gone : Dataset :=
  {| name := "zroot/iocage/jails/gone"; mountpoint := "/iocage/jails/gone" |}.

(** [IOCList(lst_type, hdr=False, full=full, plugin=plugin)] *)
Definition lister (lst_type : string) (full plugin : bool) : IOCList :=
  {| list_type := lst_type; header := false; full := full; sort := None; silent := false;
     plugin := plugin; quick := false |}.

(** The same pool on a host where every [config.json] is present. *)
Definition host_present : Host := {|
  json_get_value_all := json_get_value_all (host 0);
  json_get_value_default := json_get_value_default (host 0);
  json_load_conf p :=
    if String.eqb p "/iocage/jails/web/config.json" then Ok conf_web
    else if String.eqb p "/iocage/jails/dh/config.json" then Ok conf_dh
    else Raise (OtherError "JSONDecodeError");
  json_load_ui := json_load_ui (host 0);
  json_plugin_get_value := json_plugin_get_value (host 0);
  checkoutput := checkoutput (host 0);
  check_output := check_output (host 0);
  zfs_origin := zfs_origin (host 0);
  geteuid := 0;
  logit := logit (host 0);
  ioc_sort := ioc_sort (host 0)
|}.

(** The same pool on a host where [jls] cannot be started at all. *)
Definition host_no_jls : Host := {|
  json_get_value_all := json_get_value_all (host 0);
  json_get_value_default := json_get_value_default (host 0);
  json_load_conf := json_load_conf (host 0);
  json_load_ui := json_load_ui (host 0);
  json_plugin_get_value := json_plugin_get_value (host 0);
  checkoutput _ := Raise (OtherError "FileNotFoundError");
  check_output := check_output (host 0);
  zfs_origin := zfs_origin (host 0);
  geteuid := 0;
  logit := logit (host 0);
  ioc_sort := ioc_sort (host 0)
|}.

(** The same pool on a host where no jail runs: [jls] exits with an error
    for every name. *)
Definition host_down : Host := {|
  json_get_value_all := json_get_value_all (host 0);
  json_get_value_default := json_get_value_default (host 0);
  json_load_conf := json_load_conf (host 0);
  json_load_ui := json_load_ui (host 0);
  json_plugin_get_value := json_plugin_get_value (host 0);
  checkoutput _ := Raise (CalledProcessError "Command returned non-zero exit status 1.");
  check_output := check_output (host 0);
  zfs_origin := zfs_origin (host 0);
  geteuid := 0;
  logit := logit (host 0);
  ioc_sort := ioc_sort (host 0)
|}.

(** The same pool on a host where every plugin property is looked up with
    the result [lookup]. *)
Definition host_portal (euid : Z) (lookup : result string) : Host := {|
  json_get_value_all := json_get_value_all (host euid);
  json_get_value_default := json_get_value_default (host euid);
  json_load_conf := json_load_conf (host euid);
  json_load_ui := json_load_ui (host euid);
  json_plugin_get_value _ _ := lookup;
  checkoutput := checkoutput (host euid);
  check_output := check_output (host euid);
  zfs_origin := zfs_origin (host euid);
  geteuid := euid;
  logit := logit (host euid);
  ioc_sort := ioc_sort (host euid)
|}.

End Demo.



(** An entry of [ip4_addr]: an interface, an address and a prefix, written
    "interface|address/prefix". The three parts hold no comma and no "|",
    and the address no "/". *)
Definition ip4_entry : Type := (string * string * string)%type.

Definition ip4_entry_text (e : ip4_entry) : string :=
  e.1.1 +:+ "|" +:+ e.1.2 +:+ "/" +:+ e.2.

Definition ip4_entry_address (e : ip4_entry) : string := e.1.2.

Definition ip4_entry_wf (e : ip4_entry) : Prop :=
  PyStr.mem "," e.1.1 = false ∧ PyStr.mem "|" e.1.1 = false ∧
  PyStr.mem "," e.1.2 = false ∧ PyStr.mem "|" e.1.2 = false ∧ PyStr.mem "/" e.1.2 = false ∧
  PyStr.mem "," e.2 = false ∧ PyStr.mem "|" e.2 = false.

(** Every character of [s] is one of [chars]. *)
Fixpoint all_in (chars s : string) : bool :=
  match s with
  | EmptyString => true
  | String a s' => PyStr.mem a chars && all_in chars s'
  end.

(** [s] without the suffix [suffix], when it ends with it: what "the
    suffix stripped" says of a release, to compare with [rstrip]. *)
Fixpoint remove_suffix (suffix s : string) : string :=
  match s with
  | EmptyString => EmptyString
  | String a s' => if String.eqb s suffix then EmptyString else String a (remove_suffix suffix s')
  end.

(** Hexadecimal digits, and the strings made of them only. *)
Definition is_hex (a : ascii) : bool :=
  match PyLib.hex_val a with
  | Some _ => true
  | None => false
  end.

Fixpoint all_hex (s : string) : bool :=
  match s with
  | EmptyString => true
  | String a s' => is_hex a && all_hex s'
  end.

(** The number that the digits of [s] write after those that gave [acc]. *)
Fixpoint hex_value (acc : Z) (s : string) : Z :=
  match s with
  | EmptyString => acc
  | String a s' => hex_value (16 * acc + default 0 (PyLib.hex_val a)) s'
  end.

(** The canonical text of a UUID: groups of 8, 4, 4, 4 and 12 hexadecimal
    digits with hyphens between them. *)
Definition canonical_uuid (a b c d e : string) : string :=
  a +:+ "-" +:+ b +:+ "-" +:+ c +:+ "-" +:+ d +:+ "-" +:+ e.

Definition hex_group (n : nat) (s : string) : Prop :=
  all_hex s = true ∧ String.length s = n.

(** The same as a test on a string. *)
Definition is_canonical_uuid (s : string) : bool :=
  (Nat.eqb (String.length s) 36
   && all_hex (PyStr.take 8 s) && Ascii.eqb (default "x"%char (String.get 8 s)) "-"
   && all_hex (PyStr.take 4 (PyStr.drop 9 s))
   && Ascii.eqb (default "x"%char (String.get 13 s)) "-"
   && all_hex (PyStr.take 4 (PyStr.drop 14 s))
   && Ascii.eqb (default "x"%char (String.get 18 s)) "-"
   && all_hex (PyStr.take 4 (PyStr.drop 19 s))
   && Ascii.eqb (default "x"%char (String.get 23 s)) "-"
   && all_hex (PyStr.drop 24 s))%bool.

(** [s] without the occurrences of the character [x]. *)
Fixpoint delete_char (x : ascii) (s : string) : string :=
  match s with
  | EmptyString => EmptyString
  | String a s' => if Ascii.eqb a x then delete_char x s' else String a (delete_char x s')
  end.

(** The keys that [list_all] reads from a configuration, and those it
    reads from the placeholder configuration of a corrupt jail. *)
Definition conf_keys : list string :=
  ["host_hostuuid"; "ip4_addr"; "ip6_addr"; "boot"; "type"; "release"; "dhcp"; "interfaces"].

Definition default_keys : list string := ["ip4_addr"; "ip6_addr"; "boot"; "type"; "dhcp"].

Definition has_keys (keys : list string) (conf : gmap string string) : Prop :=
  ∀ k, k ∈ keys → is_Some (conf !! k).

(** A host on which [list_all] meets no failure but those it handles: a
    configuration either fails to load or holds the keys that are read,
    the defaults load with their keys, a process either exits with an
    error or prints what is read from its output (six words for [jls], a
    third line of two words for [ifconfig]), the origin of a dataset can
    be read, a plugin descriptor is absent or declares its portal, and a
    plugin property is found or missing or its command fails. *)
Record host_tame (h : Host) : Prop := {
  tame_conf : ∀ mp conf, json_get_value_all h mp = Ok conf → has_keys conf_keys conf;
  tame_default : ∃ d, json_get_value_default h = Ok d ∧ has_keys default_keys d;
  tame_jls : ∀ argv,
    match checkoutput h argv with
    | Ok out => is_Some (PyStr.words out !! 5%nat)
    | Raise e => ∃ str_e, e = CalledProcessError str_e
    end;
  tame_ifconfig : ∀ argv,
    match check_output h argv with
    | Ok out => ∃ line, PyStr.splitlines out !! 2%nat = Some line ∧
                        is_Some (PyStr.words_bytes line !! 1%nat)
    | Raise e => ∃ str_e, e = CalledProcessError str_e
    end;
  tame_origin : ∀ n, ∃ o, zfs_origin h n = Ok o;
  tame_ui : ∀ p,
    match json_load_ui h p with
    | Ok ui => is_Some (adminportal ui)
    | Raise e => e = FileNotFoundError
    end;
  tame_plugin : ∀ mp path,
    match json_plugin_get_value h mp path with
    | Ok _ => True
    | Raise e => e = KeyError ∨ (∃ message, e = CommandFailed message) ∨ e = FileNotFoundError
    end
}.

(** A host on which every [config.json] is there, and either parses to a
    configuration with a [host_hostuuid] or does not parse. *)
Definition quick_tame (h : Host) : Prop :=
  ∀ p, match json_load_conf h p with
       | Ok c => is_Some (c !! "host_hostuuid")
       | Raise e => e ≠ FileNotFoundError
       end.

(* ===================================================================== *)
(** ** The rest of [class IOCList]: [list_datasets] and [list_bases] *)
(* ===================================================================== *)

(** The dataset store as [list_datasets] sees it. *)
Record Store : Type := {
  (** [self.pool], from [IOCJson().json_get_value("pool")] *)
  pool : string;
  (** [self.zfs.get_dataset(path).children] *)
  children : string → result (list Dataset);
  (** [iocage_lib.ioc_common.ioc_sort("list_release", "release",
      data=datasets)]: the sorted rows of the releases *)
  ioc_sort_release : list Dataset → list (list string)
}.

(** What [list_datasets] returns: a listing, the dict of the names and
    mount points, the flat list or the table of the bases, or [None]. *)
Inductive datasets : Type :=
  | Listing (l : listing)
  | Index (jails : gmap string string)
  | Bases (flat_base : list string)
  | BasesTable (rows : list (list string))
  | NoDatasets.

(** [list_bases] (lines 371-387) *)
Definition list_bases (self : IOCList) (z : Store) (ds : list Dataset) : datasets :=
  let base_list := ioc_sort_release z ds in
  if negb (header self) then Bases (concat base_list)
  else BasesTable (["Bases fetched"] :: base_list).

(** Lines 81-83 and 89-91: [jails[name.rsplit("/", 1)[-1]] = mountpoint]
    for every dataset in turn. *)
Definition index_datasets (jails : gmap string string) (ds : list Dataset)
  : gmap string string :=
  fold_left (λ jails jail, <[final (PyStr.rsplit1 "/" (name jail)) := mountpoint jail]> jails)
            ds jails.

(** [list_datasets] (lines 61-101) *)
Definition list_datasets (self : IOCList) (h : Host) (z : Store) : M datasets :=
  ds ← lift (if String.eqb (list_type self) "base"
             then children z (pool z +:+ "/iocage/releases")
             else if String.eqb (list_type self) "template"
             then children z (pool z +:+ "/iocage/templates")
             else children z (pool z +:+ "/iocage/jails"));
  if (String.eqb (list_type self) "all" || String.eqb (list_type self) "basejail")%bool then
    _all ← (if quick self then list_all_quick self h ds else list_all self h ds);
    mret (Listing _all)
  else if String.eqb (list_type self) "uuid" then
    let jails := index_datasets ∅ ds in
    template_datasets ← lift (children z (pool z +:+ "/iocage/templates"));
    mret (Index (index_datasets jails template_datasets))
  else if String.eqb (list_type self) "base" then mret (list_bases self z ds)
  else if String.eqb (list_type self) "template" then
    templates ← list_all self h ds;
    mret (Listing templates)
  else mret NoDatasets.

(* ===================================================================== *)
(** ** Vocabulary of the further properties *)
(* ===================================================================== *)

(** The row that [list_all_quick] gives a jail whose [config.json] is
    there: from the configuration when it parses, of placeholders when it
    does not. *)
Definition quick_row (h : Host) (jail : Dataset) : list string :=
  match json_load_conf h (mountpoint jail +:+ "/config.json") with
  | Ok c =>
      [default "" (c !! "host_hostuuid");
       if String.eqb (get c "dhcp" "off") "on" then "DHCP" else get c "ip4_addr" "none"]
  | Raise _ => [final (PyStr.rsplit1 "/" (mountpoint jail)) +:+ " - CORRUPTED"; "N/A"]
  end.

(** Whether [list_all_quick] keeps a jail whose [config.json] is there:
    always outside the basejail-only view, and in it when the
    configuration parses and says [basejail = yes]. *)
Definition quick_keeps (self : IOCList) (h : Host) (jail : Dataset) : bool :=
  negb (basejail_only self)
  || match json_load_conf h (mountpoint jail +:+ "/config.json") with
     | Ok c => String.eqb (get c "basejail" "no") "yes"
     | Raise _ => false
     end.

(** The object [self] with its [quick] flag set to [q]. *)
Definition with_quick (self : IOCList) (q : bool) : IOCList :=
  {| list_type := list_type self; header := header self; full := full self;
     sort := sort self; silent := silent self; plugin := plugin self; quick := q |}.

(** Two runs of the body of the loop of [list_all] that differ at most
    in the [status] they leave. *)
Definition same_but_status (r1 r2 : M (option bool * option (list string))) : Prop :=
  r1.1 = r2.1 ∧
  match r1.2, r2.2 with
  | Ok (_, row1), Ok (_, row2) => row1 = row2
  | Raise e1, Raise e2 => e1 = e2
  | _, _ => False
  end.

(** The event of a listing that logs a message. *)
Definition is_logged (ev : event) : Prop := ∃ level message, ev = Logged level message.

(** The width of the rows of a view. *)
Definition row_width (self : IOCList) : nat :=
  if plugin self then 10%nat else if full self then 9%nat else 5%nat.

(** The column of the state in a view. *)
Definition state_column (self : IOCList) : nat :=
  if (plugin self || full self)%bool then 3%nat else 2%nat.

(** The store of the examples: two jails and a template named as one of
    them. *)
Module DemoStore.

Definition tpl : Dataset :=
  {| name := "zroot/iocage/templates/web"; mountpoint := "/iocage/templates/web" |}.

Definition store : Store := {|
  pool := "zroot";
  children path :=
    if String.eqb path "zroot/iocage/jails" then Ok [Demo.web; Demo.dh]
    else if String.eqb path "zroot/iocage/templates" then Ok [tpl]
    else if String.eqb path "zroot/iocage/releases"
    then Ok [{| name := "zroot/iocage/releases/11.2-RELEASE";
                mountpoint := "/iocage/releases/11.2-RELEASE" |}]
    else Raise (OtherError "ZFSException");
  ioc_sort_release ds := (λ d, [final (PyStr.rsplit1 "/" (name d))]) <$> ds
|}.

End DemoStore.

(* ===================================================================== *)
(** ** The embedding on examples *)
(* ===================================================================== *)

Example split_ex : PyStr.split "/" "zroot/iocage/jails/web" = ["zroot"; "iocage"; "jails"; "web"].
Proof. reflexivity. Qed.
Example split_empty_ex : PyStr.split "," "" = [""].
Proof. reflexivity. Qed.
Example rsplit1_ex :
  PyStr.rsplit1 "/root@" "zroot/iocage/templates/tpl/root@web" = ["zroot/iocage/templates/tpl"; "web"].
Proof. reflexivity. Qed.
Example replace_ex : PyStr.replace "--SD" "-STABLE-HBSD" "11--SD" = "11-STABLE-HBSD".
Proof. reflexivity. Qed.
Example replace_overlap_ex : PyStr.replace "aa" "b" "aaa" = "ba".
Proof. reflexivity. Qed.
Example rstrip_ex : PyStr.rstrip "-HBSD" "11-STABLE-HBSD" = "11-STABLE".
Proof. reflexivity. Qed.
Example words_ex : PyStr.words "  JID  IP Address   Hostname  Path
  3  10.0.0.5  web  /iocage/jails/web/root" =
  ["JID"; "IP"; "Address"; "Hostname"; "Path"; "3"; "10.0.0.5"; "web"; "/iocage/jails/web/root"].
Proof. reflexivity. Qed.
Example splitlines_ex : PyStr.splitlines ("a" +:+ String PyStr.CR (String PyStr.LF ("b" +:+ String PyStr.LF ""))) = ["a"; "b"].
Proof. reflexivity. Qed.
Example lower_ex : PyStr.lower "11.2-RELEASE_x" = "11.2-release_x".
Proof. reflexivity. Qed.
Example re_sub_ex : PyLib.re_sub_W_w_dot "11-ST-HBSD" = "11--SD".
Proof. reflexivity. Qed.
Example re_sub_ex2 : PyLib.re_sub_W_w_dot "12-STABLE-HBSD" = "12-ABLE-SD".
Proof. reflexivity. Qed.
Example uuid4_ex :
  PyLib.uuid4_str "9F1E2C3A-1111-2222-3333-444455556666" = Some "9f1e2c3a-1111-4222-b333-444455556666".
Proof. vm_compute. reflexivity. Qed.
Example uuid4_plain_ex :
  PyLib.uuid4_str "DEADBEEFdeadbeefdeadbeefdeadbeef" = Some "deadbeef-dead-4eef-9ead-beefdeadbeef".
Proof. vm_compute. reflexivity. Qed.
Example uuid4_name_ex : PyLib.uuid4_str "webserver" = None.
Proof. vm_compute. reflexivity. Qed.

Example list_all_short_ex :
  list_all (Demo.lister "all" false false) (Demo.host 0) [Demo.web; Demo.dh; Demo.bad] =
    ([Exec ["jls"; "-j"; "ioc-web"];
      Exec ["jls"; "-j"; "ioc-9F1E2C3A-1111-2222-3333-444455556666"];
      Exec ["jexec"; "ioc-9F1E2C3A-1111-2222-3333-444455556666"; "ifconfig"; "epair0b"; "inet"]],
     Ok (Flat [["7"; "web"; "up"; "11.2-RELEASE"; "10.0.0.5,10.0.1.5"];
               ["7"; "9f1e2c3a"; "up"; "11-STABLE"; "DHCP"];
               ["-"; "bad"; "CORRUPT"; "N/A"; "N/A"]])).
Proof. vm_compute. reflexivity. Qed.

Example list_all_plugin_ex :
  list_all (Demo.lister "all" false true) (Demo.host 1) [Demo.web; Demo.dh; Demo.bad] =
    ([Exec ["jls"; "-j"; "ioc-web"];
      Exec ["jls"; "-j"; "ioc-9F1E2C3A-1111-2222-3333-444455556666"]],
     Ok (Flat [["7"; "9F1E2C3A-1111-2222-3333-444455556666"; "on"; "up"; "pluginv2";
                "11-STABLE-SD"; "DHCP (running -- address requires root)"; "-"; "-";
                "http://DHCP:8080/"]])).
Proof. vm_compute. reflexivity. Qed.

Example list_all_quick_ex :
  list_all_quick (Demo.lister "all" false false) (Demo.host 0) [Demo.web; Demo.dh; Demo.bad] =
    ([], Ok (Flat [["web"; "vnet0|10.0.0.5/24,vnet1|10.0.1.5/24"];
                   ["9F1E2C3A-1111-2222-3333-444455556666"; "DHCP"];
                   ["bad - CORRUPTED"; "N/A"]])).
Proof. vm_compute. reflexivity. Qed.

(** A jail that does not run: [jls] exits with an error, which
    [list_get_jid] catches. *)
Example list_all_down_ex :
  list_all (Demo.lister "basejail" true false) Demo.host_down [Demo.web] =
    ([Exec ["jls"; "-j"; "ioc-web"]],
     Ok (Flat [["-"; "web"; "on"; "down"; "jail"; "11.2-RELEASE-p4";
                "vnet0|10.0.0.5/24,vnet1|10.0.1.5/24"; "-"; "tpl"]])).
Proof. vm_compute. reflexivity. Qed.

(** The portal of a plugin whose property cannot be looked up: the key is
    missing, or the command fails, for root and for another user. *)
Example portal_missing_key_ex :
  admin_portal_of (Demo.host_portal 0 (Raise KeyError)) "/iocage/jails/dh" "epair0b|10.0.0.77"
  = ([], Ok "http://10.0.0.77:%%PORT%%/").
Proof. vm_compute. reflexivity. Qed.

Example portal_command_failed_root_ex :
  admin_portal_of (Demo.host_portal 0 (Raise (CommandFailed ["jexec:"; "jail"; "is"; "not";
                                                                "running"])))
                  "/iocage/jails/dh" "epair0b|10.0.0.77"
  = ([], Ok "jexec: jail is not running").
Proof. vm_compute. reflexivity. Qed.

Example portal_command_failed_user_ex :
  list_all (Demo.lister "all" true true)
           (Demo.host_portal 1001 (Raise (CommandFailed ["jexec:"; "jail"; "is"; "not";
                                                          "running"])))
           [Demo.dh] =
    ([Exec ["jls"; "-j"; "ioc-9F1E2C3A-1111-2222-3333-444455556666"]],
     Ok (Flat [["7"; "9F1E2C3A-1111-2222-3333-444455556666"; "on"; "up"; "pluginv2";
                "11-STABLE-SD"; "DHCP (running -- address requires root)"; "-"; "-";
                "Admin Portal requires root"]])).
Proof. vm_compute. reflexivity. Qed.

Example portal_no_descriptor_ex :
  admin_portal_of (Demo.host 0) "/iocage/jails/web" "vnet0|10.0.0.5/24" = ([], Ok "-").
Proof. vm_compute. reflexivity. Qed.

Example release_forms_ex :
  release_forms "11.0-HBSD" = ("11-HBSD", "11")
  ∧ release_forms "11.2-RELEASE-p4" = ("11.2-RELEASE-p4", "11.2-RELEASE").
Proof. split; vm_compute; reflexivity. Qed.
(* ===================================================================== *)
(** ** Facts about the string primitives *)
(* ===================================================================== *)

Section StringFacts.

Lemma app_nil (t : string) : "" +:+ t = t.
Proof. reflexivity. Qed.

Lemma app_cons a (s t : string) : String a s +:+ t = String a (s +:+ t).
Proof. reflexivity. Qed.

Lemma app_empty_r (s : string) : s +:+ "" = s.
Proof. induction s as [|a s IH]; [done | by rewrite app_cons, IH]. Qed.

Lemma app_assoc_s (a b c : string) : (a +:+ b) +:+ c = a +:+ (b +:+ c).
Proof. induction a as [|x a IH]; [done | by rewrite !app_cons, IH]. Qed.

Lemma mem_app c (a b : string) : PyStr.mem c (a +:+ b) = (PyStr.mem c a || PyStr.mem c b).
Proof.
  induction a as [|x a IH]; [done |].
  rewrite app_cons. cbn [PyStr.mem]. by rewrite IH, orb_assoc.
Qed.

Lemma split_not_nil sep s : PyStr.split sep s ≠ [].
Proof.
  destruct s as [|a s]; simpl; [done |].
  destruct (Ascii.eqb a sep); [done |]. by destruct (PyStr.split sep s).
Qed.

(** A string without the separator is a single field. *)
Lemma split_no_sep sep s : PyStr.mem sep s = false → PyStr.split sep s = [s].
Proof.
  induction s as [|a s IH]; simpl; [done |].
  rewrite (Ascii.eqb_sym sep a). intros [Ha Hs]%orb_false_elim.
  rewrite Ha, (IH Hs). done.
Qed.

(** The fields of [a sep b] are those of [a] followed by those of [b]. *)
Lemma split_app sep (a b : string) :
  PyStr.split sep (a +:+ String sep b) = PyStr.split sep a ++ PyStr.split sep b.
Proof.
  induction a as [|x a IH].
  - rewrite app_nil. simpl. by rewrite Ascii.eqb_refl.
  - rewrite app_cons. simpl. destruct (Ascii.eqb x sep); rewrite IH; [done |].
    pose proof (split_not_nil sep a). by destruct (PyStr.split sep a).
Qed.



Lemma split1_no_sep sep s : PyStr.mem sep s = false → PyStr.split1 sep s = [s].
Proof.
  induction s as [|a s IH]; simpl; [done |].
  rewrite (Ascii.eqb_sym sep a). intros [Ha Hs]%orb_false_elim.
  rewrite Ha, (IH Hs). done.
Qed.

Lemma split1_app sep (a b : string) :
  PyStr.mem sep a = false → PyStr.split1 sep (a +:+ String sep b) = [a; b].
Proof.
  induction a as [|x a IH].
  - rewrite app_nil. simpl. by rewrite Ascii.eqb_refl.
  - rewrite app_cons. simpl. rewrite (Ascii.eqb_sym sep x). intros [Ha Hs]%orb_false_elim.
    rewrite Ha, (IH Hs). done.
Qed.

Lemma concat_cons2 sep x y (l : list string) :
  String.concat sep (x :: y :: l) = x +:+ sep +:+ String.concat sep (y :: l).
Proof. done. Qed.

(** Cutting a joined list at the separator gives the list back. *)
Lemma split_join sep (l : list string) :
  l ≠ [] → Forall (λ x, PyStr.mem sep x = false) l →
  PyStr.split sep (PyStr.join (String sep "") l) = l.
Proof.
  unfold PyStr.join. intros Hne Hall. induction Hall as [|x l Hx Hl IH]; [done |].
  destruct l as [|y l].
  - simpl. by apply split_no_sep.
  - rewrite concat_cons2, app_cons, app_nil.
    rewrite split_app, (split_no_sep _ _ Hx). simpl. f_equal. by apply IH.
Qed.

Lemma startswith_mem c p s : PyStr.startswith (String c p) s = true → PyStr.mem c s = true.
Proof.
  destruct s as [|a s]; simpl; [done |].
  destruct (Ascii.eqb c a); [done | done].
Qed.

Lemma startswith_refl_app p s : PyStr.startswith p (p +:+ s) = true.
Proof.
  induction p as [|a p IH]; [done |]. rewrite app_cons. simpl. by rewrite Ascii.eqb_refl.
Qed.

Lemma drop_length_app p s : PyStr.drop (String.length p) (p +:+ s) = s.
Proof. induction p as [|a p IH]; [done |]. rewrite app_cons. simpl. done. Qed.

(** No cut when the first character of the separator does not occur. *)
Lemma rcut_absent c sep s : PyStr.mem c s = false → PyStr.rcut (String c sep) s = None.
Proof.
  induction s as [|a s IH]; [done |].
  intros H. pose proof H as H'. simpl in H'. apply orb_false_elim in H' as [Ha Hs].
  cbn [PyStr.rcut]. rewrite (IH Hs).
  destruct (PyStr.startswith (String c sep) (String a s)) eqn:E; [|done].
  apply startswith_mem in E. congruence.
Qed.

(** The cut is at the separator after which its first character does not
    occur again. *)
Lemma rcut_app c sep (b r : string) :
  PyStr.mem c (sep +:+ r) = false →
  PyStr.rcut (String c sep) (b +:+ String c sep +:+ r) = Some (b, r).
Proof.
  intros H. induction b as [|a b IH].
  - change ("" +:+ String c sep +:+ r) with (String c (sep +:+ r)).
    cbn [PyStr.rcut]. rewrite (rcut_absent _ _ _ H).
    change (String c (sep +:+ r)) with (String c sep +:+ r).
    by rewrite startswith_refl_app, drop_length_app.
  - change (String a b +:+ String c sep +:+ r) with (String a (b +:+ String c sep +:+ r)).
    cbn [PyStr.rcut]. by rewrite IH.
Qed.

(** Replacing one character by another acts on each character. *)
Lemma replace_char (a b : ascii) s :
  PyStr.replace (String a "") (String b "") s
  = PyStr.map (λ c, if Ascii.eqb c a then b else c) s.
Proof.
  unfold PyStr.replace. induction s as [|x s IH]; [done |].
  cbn [PyStr.replace_from PyStr.startswith PyStr.map String.length Nat.pred].
  destruct (Ascii.eqb_spec x a) as [->|Hne].
  - rewrite Ascii.eqb_refl, IH. done.
  - apply not_eq_sym, Ascii.eqb_neq in Hne. rewrite Hne, IH. done.
Qed.

(** Nothing is replaced when a character of [old] does not occur. *)
Lemma replace_absent c old new s :
  PyStr.mem c old = true → PyStr.mem c s = false → PyStr.replace old new s = s.
Proof.
  intros Hold Hs. unfold PyStr.replace. destruct old as [|o old]; [done |].
  assert (Hno : ∀ t, PyStr.mem c t = false → PyStr.startswith (String o old) t = false).
  { clear Hs. revert Hold. generalize (String o old). intros p. induction p as [|x p IH]; [done |].
    intros Hp t Ht. destruct t as [|y t]; [done |]. simpl.
    destruct (Ascii.eqb x y) eqn:E; [|done].
    apply Ascii.eqb_eq in E as ->. simpl in Hp, Ht.
    apply orb_false_elim in Ht as [Hy Ht]. rewrite Hy in Hp. simpl in Hp. by apply IH. }
  induction s as [|x s IH]; [done |].
  cbn [PyStr.replace_from]. rewrite (Hno _ Hs).
  simpl in Hs. apply orb_false_elim in Hs as [_ Hs]. by rewrite (IH Hs).
Qed.

End StringFacts.

(* ===================================================================== *)
(** ** Facts about the monad *)
(* ===================================================================== *)

Section MonadFacts.
Context {A B : Type}.

Lemma bind_ok (f : A → M B) t a :
  ((t, Ok a) : M A) ≫= f = (t ++ (f a).1, (f a).2).
Proof. unfold mbind, M_bind. by destruct (f a). Qed.

Lemma bind_raise (f : A → M B) t e : ((t, Raise e) : M A) ≫= f = (t, Raise e).
Proof. done. Qed.

Lemma bind_inv (f : A → M B) (m : M A) t b :
  m ≫= f = (t, Ok b) →
  ∃ t1 a t2, m = (t1, Ok a) ∧ f a = (t2, Ok b) ∧ t = t1 ++ t2.
Proof.
  destruct m as [t1 [a|e]]; [|done].
  rewrite bind_ok. destruct (f a) as [t2 r] eqn:E. simpl.
  intros [= <- ->]. by exists t1, a, t2.
Qed.

Lemma mret_inv (a a' : A) t : (mret a : M A) = (t, Ok a') → a = a' ∧ t = [].
Proof. by intros [= <- <-]. Qed.

Lemma lift_inv (r : result A) t a : lift r = (t, Ok a) → r = Ok a ∧ t = [].
Proof. by intros [= <- <-]. Qed.

Lemma index_inv (l : list A) i t a : index l i = (t, Ok a) → l !! i = Some a ∧ t = [].
Proof. unfold index. destruct (l !! i); [|done]. by intros [= <- <-]. Qed.

End MonadFacts.

Lemma getitem_inv conf k t v : getitem conf k = (t, Ok v) → conf !! k = Some v ∧ t = [].
Proof. unfold getitem. destruct (conf !! k); [|done]. by intros [= <- <-]. Qed.

Lemma getitem_ok conf k v : conf !! k = Some v → getitem conf k = ([], Ok v).
Proof. unfold getitem. by intros ->. Qed.

(** Decompose a successful run, one bind at a time. *)
Ltac inv_step H :=
  let t1 := fresh "t" in let t2 := fresh "t" in let a := fresh "a" in
  let H1 := fresh "H" in let Ht := fresh "Ht" in
  apply bind_inv in H as (t1 & a & t2 & H1 & H & Ht).

Ltac inv_getitem H :=
  let Ht := fresh "Ht" in apply getitem_inv in H as [H Ht].

(* ===================================================================== *)
(** ** Facts about the steps of [list_all] *)
(* ===================================================================== *)

(** The configuration is either the one that was read or the
    placeholder one; loading starts no process. *)
Lemma load_conf_inv h jail t conf corrupt :
  load_conf h jail = (t, Ok (conf, corrupt)) →
  t = [] ∧
  ((corrupt = false ∧ json_get_value_all h (mountpoint jail) = Ok conf) ∨
   (corrupt = true ∧ ∃ e def_props,
      json_get_value_all h (mountpoint jail) = Raise e ∧
      json_get_value_default h = Ok def_props ∧
      conf = <["release" := "N/A"]>
               (<["host_hostuuid" := final (PyStr.split "/" (name jail))]>
                  ((λ _, "N/A") <$> def_props)))).
Proof.
  unfold load_conf, lift, try_except.
  destruct (json_get_value_all h (mountpoint jail)) as [c|e]; simpl.
  - intros [= <- <- <-]. split; [done |]. by left.
  - destruct (json_get_value_default h) as [d|e']; simpl; [|done].
    intros [= <- <- <-]. split; [done |]. right. split; [done |]. by exists e, d.
Qed.

(** Every value of the placeholder configuration is ["N/A"], but for the
    name of the jail. *)
Lemma corrupt_conf_lookup (d : gmap string string) (uuid k : string) :
  k ≠ "host_hostuuid" → is_Some (d !! k) →
  (<["release" := "N/A"]> (<["host_hostuuid" := uuid]> ((λ _, "N/A") <$> d)) : gmap string string) !! k
  = Some "N/A".
Proof.
  intros Hk [v Hv]. destruct (decide (k = "release")) as [->|Hr].
  - by rewrite lookup_insert_eq.
  - rewrite lookup_insert_ne by done. rewrite lookup_insert_ne by done.
    by rewrite lookup_fmap, Hv.
Qed.

Lemma corrupt_conf_values (d : gmap string string) (uuid k v : string) :
  (<["release" := "N/A"]> (<["host_hostuuid" := uuid]> ((λ _, "N/A") <$> d)) : gmap string string) !! k
  = Some v →
  (k = "host_hostuuid" ∧ v = uuid) ∨ v = "N/A".
Proof.
  destruct (decide (k = "release")) as [->|Hr].
  { rewrite lookup_insert_eq. intros [= <-]. by right. }
  rewrite lookup_insert_ne by done.
  destruct (decide (k = "host_hostuuid")) as [->|Hu].
  { rewrite lookup_insert_eq. intros [= <-]. by left. }
  rewrite lookup_insert_ne by done. rewrite lookup_fmap.
  destruct (d !! k); simpl; [|done]. intros [= <-]. by right.
Qed.

Lemma template_of_trace h jail jail_type t r :
  template_of h jail jail_type = (t, r) → t = [].
Proof.
  unfold template_of, lift. destruct (String.eqb jail_type "template"); simpl.
  - by intros [= <- _].
  - destruct (zfs_origin h _) as [[v|]|e]; simpl; [| |].
    + destruct (negb (String.eqb v "")); by intros [= <- _].
    + by intros [= <- _].
    + by intros [= <- _].
Qed.

Lemma admin_portal_of_trace h mp fip t r :
  admin_portal_of h mp fip = (t, r) → t = [].
Proof.
  unfold admin_portal_of, lift, try_except.
  destruct (json_load_ui h _) as [ui|e]; simpl.
  - destruct (adminportal ui) as [a|]; simpl; [|by intros [= <- _]].
    destruct (adminportal_placeholders ui) as [ph|]; simpl; [|by intros [= <- _]].
    destruct (resolve_placeholders _ _ _ _) as [ap [[]|e]]; simpl; [by intros [= <- _] |].
    destruct e; simpl; by intros [= <- _].
  - destruct e; simpl; by intros [= <- _].
Qed.

(** What a run of the loop body that appends a row has done. *)
Lemma list_all_jail_inv self h full status jail t st' row :
  list_all_jail self h full status jail = (t, Ok (st', Some row)) →
  ∃ conf corrupt uuid_full ip4 ip6 boot jail_type release state jid template sip fip t1 t2,
    load_conf h jail = ([], Ok (conf, corrupt)) ∧
    (basejail_only self = true → get conf "basejail" "no" = "yes") ∧
    conf !! "host_hostuuid" = Some uuid_full ∧
    conf !! "ip4_addr" = Some ip4 ∧
    conf !! "ip6_addr" = Some ip6 ∧
    conf !! "boot" = Some boot ∧
    conf !! "type" = Some jail_type ∧
    conf !! "release" = Some release ∧
    (if corrupt then st' = status ∧ state = "CORRUPT" ∧ jid = "-" ∧ t1 = []
     else ∃ b : bool, list_get_jid h uuid_full = (t1, Ok (b, jid)) ∧ st' = Some b ∧
                      state = if b then "up" else "down") ∧
    template_of h jail jail_type = ([], Ok template) ∧
    dhcp_forms h conf st' uuid_full (short_ip4_of ip4) (none_to_dash ip4) = (t2, Ok (sip, fip)) ∧
    t = t1 ++ t2 ∧
    (if (full && plugin self)%bool
     then (jail_type = "plugin" ∨ jail_type = "pluginv2") ∧
          ∃ portal, admin_portal_of h (mountpoint jail) fip = ([], Ok portal) ∧
                    row = [jid; short_uuid full uuid_full; boot; state; jail_type;
                           (release_forms release).1; fip; none_to_dash ip6; template; portal]
     else row = if full
                then [jid; short_uuid full uuid_full; boot; state; jail_type;
                      (release_forms release).1; fip; none_to_dash ip6; template]
                else [jid; short_uuid full uuid_full; state; (release_forms release).2; sip]).
Proof.
  unfold list_all_jail. intros H.
  inv_step H. destruct a as [conf corrupt].
  pose proof (load_conf_inv _ _ _ _ _ H0) as [-> _].
  destruct (basejail_only self && negb (String.eqb (get conf "basejail" "no") "yes"))%bool eqn:Hbj.
  { by apply mret_inv in H as [[= _ ?] _]. }
  inv_step H. inv_getitem H1.
  inv_step H. inv_getitem H2.
  inv_step H. inv_getitem H3.
  inv_step H. inv_getitem H4.
  inv_step H. inv_getitem H5.
  inv_step H. inv_getitem H6.
  destruct (release_forms a4) as [full_release short_release] eqn:Hrel.
  inv_step H. destruct a5 as [[st1 state] jid].
  inv_step H. inv_step H. pose proof (template_of_trace _ _ _ _ _ H9) as ->.
  inv_step H. destruct a7 as [sip fip].
  inv_getitem H8. subst. simpl.
  assert (Hst : st' = st1 ∧ t19 = [] ∧
    (if (full && plugin self)%bool
     then (a3 = "plugin" ∨ a3 = "pluginv2") ∧
          ∃ portal, admin_portal_of h (mountpoint jail) fip = ([], Ok portal) ∧
                    row = [jid; short_uuid full a; a2; state; a3;
                           full_release; fip; none_to_dash a1; a6; portal]
     else row = if full
                then [jid; short_uuid full a; a2; state; a3;
                      full_release; fip; none_to_dash a1; a6]
                else [jid; short_uuid full a; state; short_release; sip])).
  { destruct (full && plugin self)%bool.
    - destruct (String.eqb_spec a3 "plugin") as [Hp|Hp];
        destruct (String.eqb_spec a3 "pluginv2") as [Hp2|Hp2]; simpl in H;
        try (by apply mret_inv in H as [[= _ ?] _]);
        (inv_step H;
         match goal with
         | Hp : admin_portal_of _ _ _ = _ |- _ =>
             pose proof (admin_portal_of_trace _ _ _ _ _ Hp) as ->
         end;
         apply mret_inv in H as [[= <- <-] ->]; subst; split; [done|]; split; [done|];
         split; [by auto|]; eexists; by split).
    - destruct full; apply mret_inv in H as [[= <- <-] ->]; done. }
  destruct Hst as (-> & -> & Hrow).
  exists conf, corrupt, a, a0, a1, a2, a3, a4, state, jid, a6, sip, fip, t13, t17.
  rewrite Hrel. simpl. rewrite app_nil_r.
  repeat split; try done.
  - intros Hb. rewrite Hb in Hbj. simpl in Hbj.
    apply negb_false_iff in Hbj. by apply String.eqb_eq in Hbj.
  - destruct corrupt.
    + by apply mret_inv in H7 as [[= <- <- <-] ->].
    + apply bind_inv in H7 as (tj & [b j] & tr & Hj & H7 & ->).
      apply mret_inv in H7 as [[= <- <- <-] ->].
      exists b. by rewrite app_nil_r.
Qed.

Lemma mret_bind {A B} (a : A) (f : A → M B) : mret a ≫= f = f a.
Proof. unfold mret, M_ret, mbind, M_bind. by destruct (f a). Qed.

Lemma bind_nil {A B} (a : A) (f : A → M B) : (([], Ok a) : M A) ≫= f = f a.
Proof. apply (mret_bind a f). Qed.

Ltac run_ok H := rewrite H, bind_nil.

Lemma load_conf_corrupt h jail e def_props :
  json_get_value_all h (mountpoint jail) = Raise e →
  json_get_value_default h = Ok def_props →
  load_conf h jail =
    ([], Ok (<["release" := "N/A"]>
               (<["host_hostuuid" := final (PyStr.split "/" (name jail))]>
                  ((λ _, "N/A") <$> def_props)), true)).
Proof. unfold load_conf, lift, try_except. by intros -> ->. Qed.

Lemma load_conf_loaded h jail conf :
  json_get_value_all h (mountpoint jail) = Ok conf →
  load_conf h jail = ([], Ok (conf, false)).
Proof. unfold load_conf, lift, try_except. by intros ->. Qed.

Lemma corrupt_conf_uuid (d : gmap string string) (uuid : string) :
  (<["release" := "N/A"]> (<["host_hostuuid" := uuid]> ((λ _, "N/A") <$> d)) : gmap string string)
    !! "host_hostuuid" = Some uuid.
Proof. rewrite lookup_insert_ne by done. by rewrite lookup_insert_eq. Qed.

Lemma corrupt_conf_release (d : gmap string string) (uuid : string) :
  (<["release" := "N/A"]> (<["host_hostuuid" := uuid]> ((λ _, "N/A") <$> d)) : gmap string string)
    !! "release" = Some "N/A".
Proof. by rewrite lookup_insert_eq. Qed.

Lemma corrupt_conf_basejail (d : gmap string string) (uuid : string) :
  get (<["release" := "N/A"]> (<["host_hostuuid" := uuid]> ((λ _, "N/A") <$> d))) "basejail" "no"
  ≠ "yes".
Proof.
  unfold get. rewrite lookup_insert_ne by done. rewrite lookup_insert_ne by done.
  rewrite lookup_fmap. by destruct (d !! "basejail").
Qed.

(** The template column, as lines 241-255 compute it from the origin. *)
Lemma template_of_ok h jail jail_type origin :
  zfs_origin h (name jail +:+ "/root") = Ok origin →
  template_of h jail jail_type =
    ([], Ok (hide_release
               (if String.eqb jail_type "template" then "-"
                else match origin with
                     | Some value => if String.eqb value "" then "-" else origin_name value
                     | None => "-"
                     end))).
Proof.
  intros Ho. unfold template_of, lift.
  destruct (String.eqb jail_type "template"); [reflexivity |].
  rewrite Ho. destruct origin as [v|]; [|reflexivity].
  rewrite bind_ok. cbn [fst snd]. destruct (String.eqb v ""); reflexivity.
Qed.

Lemma dhcp_forms_static h conf status uuid_full short_ip4 full_ip4 dhcp :
  conf !! "dhcp" = Some dhcp → dhcp ≠ "on" →
  dhcp_forms h conf status uuid_full short_ip4 full_ip4 = ([], Ok (short_ip4, full_ip4)).
Proof.
  intros Hd Hne. unfold dhcp_forms. rewrite (getitem_ok _ _ _ Hd), bind_nil.
  apply String.eqb_neq in Hne. by rewrite Hne.
Qed.

Lemma release_forms_NA : release_forms "N/A" = ("N/A", "N/A").
Proof. reflexivity. Qed.




(* ===================================================================== *)
(** ** Facts about the loops and the sort *)
(* ===================================================================== *)

(** Every row of the list comes from the run of the body on some jail. *)
Lemma list_all_loop_inv self h full jails :
  ∀ status acc t rows,
    list_all_loop self h full status acc jails = (t, Ok rows) →
    ∀ row, row ∈ rows →
      row ∈ acc ∨
      ∃ jail st t' st', jail ∈ jails ∧
        list_all_jail self h full st jail = (t', Ok (st', Some row)).
Proof.
  induction jails as [|jail jails IH]; intros status acc t rows H row Hrow.
  - apply mret_inv in H as [<- _]. by left.
  - cbn [list_all_loop] in H.
    apply bind_inv in H as (t1 & [st1 r] & t2 & Hj & H & ->).
    destruct (IH _ _ _ _ H row Hrow) as [Hacc | (j & st & t' & st' & Hin & Hrun)].
    + destruct r as [r|].
      * apply elem_of_app in Hacc as [Hacc | ->%list_elem_of_singleton]; [by left |].
        right. exists jail, status, t1, st1. split; [by left | done].
      * by left.
    + right. exists j, st, t', st'. split; [by right | done].
Qed.

Lemma insert_by_perm {A} (key : A → Z) x (l : list A) : insert_by key x l ≡ₚ x :: l.
Proof.
  induction l as [|y l IH]; simpl; [done |].
  destruct (key y <=? key x); [|done].
  rewrite IH. apply Permutation_swap.
Qed.

Lemma sort_by_perm {A} (key : A → Z) (l : list A) : sort_by key l ≡ₚ l.
Proof.
  unfold sort_by.
  assert (H : ∀ acc, fold_left (λ acc x, insert_by key x acc) l acc ≡ₚ acc ++ l).
  { induction l as [|x l IH]; intros acc; simpl.
    - by rewrite app_nil_r.
    - rewrite IH, insert_by_perm. simpl. apply Permutation_middle. }
  apply (H []).
Qed.

(** The rows of a listing are those of the loop, in the order of the sort. *)
Lemma list_all_inv self h jails t l :
  list_all self h jails = (t, Ok l) →
  ∃ rows,
    list_all_loop self h (if plugin self then true else full self) None [] jails = (t, Ok rows)
    ∧ data_rows l ≡ₚ rows.
Proof.
  unfold list_all. intros H.
  apply bind_inv in H as (t1 & rows & t2 & Hl & H & ->).
  exists rows.
  assert (Hd : t2 = [] ∧ data_rows l ≡ₚ rows).
  { destruct (negb (header self)).
    - apply mret_inv in H as [<- ->]. split; [done | apply sort_by_perm].
    - destruct (if plugin self then true else full self); [destruct (plugin self) |];
        apply mret_inv in H as [<- ->]; (split; [done | apply sort_by_perm]). }
  destruct Hd as [-> Hd]. by rewrite app_nil_r.
Qed.

(** What a run of the body of the quick loop has done. *)
Lemma list_all_quick_jail_inv self h c0 jail t c' row :
  list_all_quick_jail self h c0 jail = (t, Ok (c', row)) →
  ∃ c, c' = Some c ∧
    (json_load_conf h (mountpoint jail +:+ "/config.json") = Ok c
     ∨ c !! "basejail" = None ∨ c0 = Some c) ∧
    ∀ r, row = Some r →
      (basejail_only self = true → c !! "basejail" = Some "yes") ∧
      ∃ uuid ip4, c !! "host_hostuuid" = Some uuid ∧ r = [uuid; ip4].
Proof.
  unfold list_all_quick_jail. intros H.
  apply bind_inv in H as (t1 & c1 & t2 & Hc & H & ->).
  destruct c1 as [c|]; [|done].
  apply bind_inv in H as (t3 & uuid & t4 & Hu & H & ->). inv_getitem Hu.
  assert (Hsrc : json_load_conf h (mountpoint jail +:+ "/config.json") = Ok c
                 ∨ c !! "basejail" = None ∨ c0 = Some c).
  { unfold try_except, lift in Hc.
    destruct (json_load_conf h _) as [c2|e].
    - rewrite bind_nil in Hc. apply mret_inv in Hc as [[= ->] _]. by left.
    - cbn [mbind M_bind] in Hc. destruct e;
        try (apply mret_inv in Hc as [[= <-] _]; right; left; reflexivity).
      cbn in Hc. destruct (logit h _ _); [|done]. cbn in Hc.
      injection Hc as _ Hc. right; right. done. }
  exists c.
  destruct (basejail_only self && negb (String.eqb (get c "basejail" "no") "yes"))%bool eqn:Hbj;
    apply mret_inv in H as [[= <- <-] _]; (split; [done |]); (split; [done |]); [done |].
  intros r [= <-]. split; [|by eauto].
  intros Hb. rewrite Hb in Hbj. simpl in Hbj. apply negb_false_iff, String.eqb_eq in Hbj.
  unfold get in Hbj. destruct (c !! "basejail") as [v|]; simpl in Hbj; [by subst | done].
Qed.

(** Every row of the quick list comes from a configuration that was read
    for one of the jails, or was there before the loop. *)
Lemma list_all_quick_loop_inv self h jails :
  basejail_only self = true →
  ∀ c0 acc t rows,
    list_all_quick_loop self h c0 acc jails = (t, Ok rows) →
    ∀ row, row ∈ rows →
      row ∈ acc ∨
      ∃ c uuid ip4, c !! "basejail" = Some "yes" ∧ c !! "host_hostuuid" = Some uuid ∧
        row = [uuid; ip4] ∧
        (c0 = Some c ∨
         ∃ jail, jail ∈ jails ∧ json_load_conf h (mountpoint jail +:+ "/config.json") = Ok c).
Proof.
  intros Hb. induction jails as [|jail jails IH]; intros c0 acc t rows H row Hrow.
  - apply mret_inv in H as [<- _]. by left.
  - cbn [list_all_quick_loop] in H.
    apply bind_inv in H as (t1 & [c1 r] & t2 & Hj & H & ->).
    apply list_all_quick_jail_inv in Hj as (c & -> & Hsrc & Hr).
    destruct (IH _ _ _ _ H row Hrow) as [Hacc | (c2 & uuid & ip4 & Hy & Hu & -> & Hfrom)].
    + destruct r as [r|]; [|by left].
      apply elem_of_app in Hacc as [Hacc | ->%list_elem_of_singleton]; [by left |].
      destruct (Hr r eq_refl) as [Hyes (uuid & ip4 & Hu & ->)]. specialize (Hyes Hb).
      right. exists c, uuid, ip4. repeat split; try done.
      destruct Hsrc as [Hsrc | [Hsrc | Hsrc]]; [| congruence | by left].
      right. exists jail. split; [by left | done].
    + right. exists c2, uuid, ip4. repeat split; try done.
      destruct Hfrom as [[= <-] | (j & Hin & Hload)].
      * destruct Hsrc as [Hsrc | [Hsrc | Hsrc]]; [| congruence | by left].
        right. exists jail. split; [by left | done].
      * right. exists j. split; [by right | done].
Qed.

Lemma get_yes conf : get conf "basejail" "no" = "yes" → conf !! "basejail" = Some "yes".
Proof. unfold get. destruct (conf !! "basejail"); simpl; [by intros -> | done]. Qed.

(** In a basejail-only listing a row is appended only for a jail whose
    configuration was read and says [basejail = yes]. *)
Lemma basejail_row_loaded self h full status jail t st' row :
  basejail_only self = true →
  list_all_jail self h full status jail = (t, Ok (st', Some row)) →
  ∃ conf uuid,
    json_get_value_all h (mountpoint jail) = Ok conf ∧
    conf !! "basejail" = Some "yes" ∧
    conf !! "host_hostuuid" = Some uuid ∧
    row !! 1%nat = Some (short_uuid full uuid).
Proof.
  intros Hb H.
  apply list_all_jail_inv in H
    as (conf & corrupt & uuid & ip4 & ip6 & boot & jt & rel & state & jid & tpl & sip & fip
        & t1 & t2 & Hload & Hbj & Hu & _ & _ & _ & _ & _ & _ & _ & _ & _ & Hrow).
  specialize (Hbj Hb).
  apply load_conf_inv in Hload as [_ [[-> Hl] | [-> (e & d & _ & _ & ->)]]].
  - exists conf, uuid. repeat split; [done | by apply get_yes | done |].
    destruct (full && plugin self)%bool.
    + by destruct Hrow as (_ & portal & _ & ->).
    + subst row. by destruct full.
  - by apply corrupt_conf_basejail in Hbj.
Qed.

(** The quick listing of a jail whose configuration is there but cannot
    be parsed: a row of placeholders, or none in a basejail-only listing. *)
Lemma list_all_quick_jail_corrupt self h c0 jail e :
  json_load_conf h (mountpoint jail +:+ "/config.json") = Raise e →
  e ≠ FileNotFoundError →
  ∃ c, list_all_quick_jail self h c0 jail =
         ([], Ok (Some c,
                  if basejail_only self then None
                  else Some [final (PyStr.rsplit1 "/" (mountpoint jail)) +:+ " - CORRUPTED";
                             "N/A"])).
Proof.
  intros Hload Hne.
  set (u := final (PyStr.rsplit1 "/" (mountpoint jail)) +:+ " - CORRUPTED").
  set (c := (<["dhcp" := "N/A"]> (<["ip4_addr" := "N/A"]> {["host_hostuuid" := u]}))
            : gmap string string).
  assert (Hu : getitem c "host_hostuuid" = ([], Ok u)).
  { apply getitem_ok. unfold c. by simplify_map_eq. }
  assert (Hb : get c "basejail" "no" = "no").
  { unfold get, c. by simplify_map_eq. }
  assert (Hd : get c "dhcp" "off" = "N/A").
  { unfold get, c. by simplify_map_eq. }
  assert (Hi : get c "ip4_addr" "none" = "N/A").
  { unfold get, c. by simplify_map_eq. }
  exists c. unfold list_all_quick_jail. rewrite Hload. unfold try_except, lift.
  rewrite bind_raise.
  assert (Hh : ∀ k : option (gmap string string) → M (option (gmap string string) * option (list string)),
             k (Some c) = ([], Ok (Some c, if basejail_only self then None else Some [u; "N/A"])) →
             ((let (t', r) :=
                 match e return M (option (gmap string string)) with
                 | FileNotFoundError =>
                     _ ← emit (Logged "EXCEPTION"
                                 (final (PyStr.rsplit1 "/" (mountpoint jail)) +:+
                                  " is missing its configuration file." +:+
                                  String PyStr.LF "Please run just 'list' instead to create it."));
                     _ ← (([], logit h "EXCEPTION"
                                 (final (PyStr.rsplit1 "/" (mountpoint jail)) +:+
                                  " is missing its configuration file." +:+
                                  String PyStr.LF "Please run just 'list' instead to create it.")) : M unit);
                     mret c0
                 | _ => mret (Some c)
                 end in ([] ++ t', r)) : M _) ≫= k
             = ([], Ok (Some c, if basejail_only self then None else Some [u; "N/A"]))).
  { intros k Hk. destruct e; try done; rewrite <- Hk; apply (bind_nil (Some c) k). }
  apply Hh. rewrite Hu, bind_nil, Hb, Hd, Hi. cbn. by destruct (basejail_only self).
Qed.

(* ===================================================================== *)
(** ** Facts about the probes, the template and the portal *)
(* ===================================================================== *)

(** [list_get_jid] starts [jls] once; it answers [True] with the sixth
    word of the output, or [False] and "-" when [jls] exits with an error. *)
Lemma list_get_jid_inv h uuid t b jid :
  list_get_jid h uuid = (t, Ok (b, jid)) →
  t = [Exec ["jls"; "-j"; jail_name uuid]] ∧
  match checkoutput h ["jls"; "-j"; jail_name uuid] with
  | Ok out => b = true ∧ PyStr.words out !! 5%nat = Some jid
  | Raise e => (∃ str_e, e = CalledProcessError str_e) ∧ b = false ∧ jid = "-"
  end.
Proof.
  unfold list_get_jid, run_checkoutput, emit, lift, try_except.
  rewrite bind_ok. cbn [fst snd].
  destruct (checkoutput h _) as [out|e].
  - rewrite bind_ok. cbn [fst snd]. unfold index.
    destruct (PyStr.words out !! 5%nat) as [j|]; cbn.
    + intros [= <- <- <-]. done.
    + done.
  - cbn. destruct e; cbn; try done. intros [= <- <- <-]. split; [done |]. eauto.
Qed.

(** The three branches of lines 257-280 when the configuration says
    [dhcp = on]. *)
Lemma dhcp_forms_on_inv h conf st uuid_full s f t sip fip :
  conf !! "dhcp" = Some "on" →
  dhcp_forms h conf st uuid_full s f = (t, Ok (sip, fip)) →
  ∃ b : bool, st = Some b ∧
    if b then
      if geteuid h =? 0 then
        ∃ interfaces, conf !! "interfaces" = Some interfaces ∧
          let cmd := ["jexec"; jail_name uuid_full; "ifconfig"; dhcp_interface interfaces; "inet"] in
          t = [Exec cmd] ∧
          match check_output h cmd with
          | Ok out =>
              ∃ line addr, PyStr.splitlines out !! 2%nat = Some line ∧
                PyStr.words_bytes line !! 1%nat = Some addr ∧
                sip = "DHCP" ∧ fip = dhcp_interface interfaces +:+ "|" +:+ addr
          | Raise e =>
              ∃ str_e, e = CalledProcessError str_e ∧
                sip = "DHCP(Network Issue)" ∧ fip = "DHCP - Network Issue:" +:+ str_e
          end
      else t = [] ∧ sip = "DHCP" ∧ fip = "DHCP (running -- address requires root)"
    else t = [] ∧ sip = "DHCP" ∧ fip = "DHCP (not running)".
Proof.
  intros Hd. unfold dhcp_forms. rewrite (getitem_ok _ _ _ Hd), bind_nil. cbn [String.eqb].
  change (String.eqb "on" "on") with true. cbv iota.
  destruct st as [b|]; [|done]. cbv iota beta. rewrite mret_bind. intros H. exists b. split; [done |].
  destruct b.
  - destruct (geteuid h =? 0).
    + apply bind_inv in H as (t1 & interfaces & t2 & Hi & H & ->). inv_getitem Hi. subst t1.
      exists interfaces. split; [done |]. cbv zeta.
      unfold try_except_else, run_check_output, emit, lift in H. rewrite bind_ok in H.
      cbn [fst snd] in H.
      destruct (check_output h _) as [out|e]; cbn in H.
      * unfold index in H.
        destruct (PyStr.splitlines out !! 2%nat) as [line|] eqn:El; cbn in H; [|done].
        destruct (PyStr.words_bytes line !! 1%nat) as [addr|] eqn:Ea; cbn in H; [|done].
        injection H as <- <- <-. split; [done |]. by exists line, addr.
      * destruct e; cbn in H; try done.
        injection H as <- <- <-. split; [done |]. by eexists.
    + by apply mret_inv in H as [[= <- <-] ->].
  - by apply mret_inv in H as [[= <- <-] ->].
Qed.

(** The name asked of the kernel: "ioc-" and the name of the jail with
    every "." turned into "_". *)
Lemma jail_name_dots uuid :
  jail_name uuid = "ioc-" +:+ PyStr.map (λ c, if Ascii.eqb c "." then "_"%char else c) uuid.
Proof. unfold jail_name. by rewrite replace_char. Qed.

(** A row appended for a jail whose configuration was read: the
    configuration of the run is that one, and the jail was looked up in
    the kernel. *)
Lemma loaded_row_inv self h full status jail conf t st' row :
  json_get_value_all h (mountpoint jail) = Ok conf →
  list_all_jail self h full status jail = (t, Ok (st', Some row)) →
  ∃ uuid_full ip4 ip6 boot jail_type release jid template sip fip t2 (b : bool),
    conf !! "host_hostuuid" = Some uuid_full ∧
    conf !! "ip4_addr" = Some ip4 ∧
    conf !! "ip6_addr" = Some ip6 ∧
    conf !! "boot" = Some boot ∧
    conf !! "type" = Some jail_type ∧
    conf !! "release" = Some release ∧
    list_get_jid h uuid_full = ([Exec ["jls"; "-j"; jail_name uuid_full]], Ok (b, jid)) ∧
    st' = Some b ∧
    template_of h jail jail_type = ([], Ok template) ∧
    dhcp_forms h conf (Some b) uuid_full (short_ip4_of ip4) (none_to_dash ip4)
      = (t2, Ok (sip, fip)) ∧
    t = Exec ["jls"; "-j"; jail_name uuid_full] :: t2 ∧
    (if (full && plugin self)%bool
     then (jail_type = "plugin" ∨ jail_type = "pluginv2") ∧
          ∃ portal, admin_portal_of h (mountpoint jail) fip = ([], Ok portal) ∧
                    row = [jid; short_uuid full uuid_full; boot; if b then "up" else "down";
                           jail_type; (release_forms release).1; fip; none_to_dash ip6;
                           template; portal]
     else row = if full
                then [jid; short_uuid full uuid_full; boot; if b then "up" else "down";
                      jail_type; (release_forms release).1; fip; none_to_dash ip6; template]
                else [jid; short_uuid full uuid_full; if b then "up" else "down";
                      (release_forms release).2; sip]).
Proof.
  intros Hok H.
  apply list_all_jail_inv in H
    as (conf' & corrupt & uuid & ip4 & ip6 & boot & jt & rel & state & jid & tpl & sip & fip
        & t1 & t2 & Hload & _ & Hu & Hip4 & Hip6 & Hboot & Hjt & Hrel & Hst & Htpl & Hdhcp
        & -> & Hrow).
  apply load_conf_inv in Hload as [_ [[-> Hl] | [-> (e & d & Hl & _)]]]; [|congruence].
  assert (conf' = conf) as -> by congruence.
  destruct Hst as (b & Hjid & -> & ->).
  pose proof (list_get_jid_inv _ _ _ _ _ Hjid) as [-> _].
  exists uuid, ip4, ip6, boot, jt, rel, jid, tpl, sip, fip, t2, b.
  repeat split; done.
Qed.

(** The name of the dataset a clone was taken from: the last segment of
    the path before the "/root@snapshot" that ends the origin. *)
Lemma origin_name_clone (dir nm snap : string) :
  PyStr.mem "/" nm = false → PyStr.mem "/" snap = false →
  origin_name (dir +:+ "/" +:+ nm +:+ "/root@" +:+ snap) = nm.
Proof.
  intros Hnm Hsnap. unfold origin_name, PyStr.rsplit1.
  replace (dir +:+ "/" +:+ nm +:+ "/root@" +:+ snap)
    with ((dir +:+ "/" +:+ nm) +:+ String "/" "root@" +:+ snap)
    by (by rewrite !app_assoc_s).
  rewrite (rcut_app "/" "root@" (dir +:+ "/" +:+ nm) snap) by (by rewrite mem_app, Hsnap).
  change (first [dir +:+ "/" +:+ nm; snap]) with (dir +:+ String "/" "" +:+ nm).
  rewrite (rcut_app "/" "" dir nm) by (by rewrite app_nil).
  reflexivity.
Qed.

Lemma template_of_inv h jail jail_type t template :
  template_of h jail jail_type = (t, Ok template) →
  (jail_type = "template" ∧ template = "-") ∨
  (jail_type ≠ "template" ∧
   ∃ origin, zfs_origin h (name jail +:+ "/root") = Ok origin ∧
     template = hide_release (match origin with
                              | Some value => if String.eqb value "" then "-" else origin_name value
                              | None => "-"
                              end)).
Proof.
  destruct (String.eqb_spec jail_type "template") as [->|Hne].
  - intros H. left. split; [done |]. by injection H as _ <-.
  - destruct (zfs_origin h (name jail +:+ "/root")) as [origin|e] eqn:Ho.
    + rewrite (template_of_ok _ _ _ _ Ho). apply String.eqb_neq in Hne as Hne'. rewrite Hne'.
      intros [= _ <-]. right. split; [done |]. by exists origin.
    + unfold template_of, lift. apply String.eqb_neq in Hne as ->. by rewrite Ho.
Qed.



(* ===================================================================== *)
(** ** Facts about the IPv4 forms *)
(* ===================================================================== *)

Lemma split_fields_mem c sep s :
  PyStr.mem c s = false → Forall (λ f, PyStr.mem c f = false) (PyStr.split sep s).
Proof.
  induction s as [|a s IH]; intros H.
  - by repeat constructor.
  - simpl in H. apply orb_false_elim in H as [Ha Hs]. specialize (IH Hs). simpl.
    destruct (Ascii.eqb a sep).
    + by constructor.
    + destruct (PyStr.split sep s) as [|f fs]; [by repeat constructor; simpl; rewrite Ha |].
      apply Forall_cons in IH as [Hf Hfs]. constructor; [|done]. simpl. by rewrite Ha, Hf.
Qed.

Lemma ip4_item_entry (e : ip4_entry) :
  ip4_entry_wf e → ip4_item (ip4_entry_text e) = Some (ip4_entry_address e).
Proof.
  destruct e as [[iface addr] prefix]. unfold ip4_entry_wf, ip4_entry_text, ip4_entry_address.
  cbn [fst snd]. intros (_ & Hi & _ & Ha & Has & _ & Hp).
  unfold ip4_item.
  change (iface +:+ "|" +:+ addr +:+ "/" +:+ prefix)
    with (iface +:+ String "|" (addr +:+ "/" +:+ prefix)).
  rewrite split_app, (split_no_sep _ _ Hi).
  rewrite (split_no_sep "|" (addr +:+ "/" +:+ prefix))
    by (rewrite !mem_app, Ha, Hp; reflexivity).
  cbn [app lookup list_lookup mbind option_bind].
  change (addr +:+ "/" +:+ prefix) with (addr +:+ String "/" prefix).
  by rewrite split_app, (split_no_sep _ _ Has).
Qed.

Lemma ip4_item_no_bar item : PyStr.mem "|" item = false → ip4_item item = None.
Proof. intros H. unfold ip4_item. by rewrite (split_no_sep _ _ H). Qed.

Lemma mapM_ip4_entries (entries : list ip4_entry) :
  Forall ip4_entry_wf entries →
  mapM ip4_item (ip4_entry_text <$> entries) = Some (ip4_entry_address <$> entries).
Proof.
  induction 1 as [|e entries He _ IH]; [done |].
  cbn [fmap list_fmap mapM]. rewrite (ip4_item_entry _ He). cbn. fold (fmap (M:=list) ip4_entry_text entries).
  by rewrite IH.
Qed.

Lemma ip4_entry_text_no_comma (e : ip4_entry) :
  ip4_entry_wf e → PyStr.mem "," (ip4_entry_text e) = false.
Proof.
  destruct e as [[iface addr] prefix]. unfold ip4_entry_wf, ip4_entry_text. cbn [fst snd].
  intros (Hi & _ & Ha & _ & _ & Hp & _). by rewrite !mem_app, Hi, Ha, Hp.
Qed.

(* ===================================================================== *)
(** ** Facts about the release forms *)
(* ===================================================================== *)

Lemma two_segments_more (a b rest : string) :
  PyStr.mem "-" a = false → PyStr.mem "-" b = false →
  PyStr.join "-" (take 2 (PyStr.split "-" (a +:+ "-" +:+ b +:+ "-" +:+ rest)))
  = a +:+ "-" +:+ b.
Proof.
  intros Ha Hb.
  change (a +:+ "-" +:+ b +:+ "-" +:+ rest) with (a +:+ String "-" (b +:+ String "-" rest)).
  rewrite !split_app, (split_no_sep _ _ Ha), (split_no_sep _ _ Hb).
  pose proof (split_not_nil "-" rest). by destruct (PyStr.split "-" rest).
Qed.

Lemma two_segments_two (a b : string) :
  PyStr.mem "-" a = false → PyStr.mem "-" b = false →
  PyStr.join "-" (take 2 (PyStr.split "-" (a +:+ "-" +:+ b))) = a +:+ "-" +:+ b.
Proof.
  intros Ha Hb. change (a +:+ "-" +:+ b) with (a +:+ String "-" b).
  by rewrite split_app, (split_no_sep _ _ Ha), (split_no_sep _ _ Hb).
Qed.

Lemma two_segments_one (a : string) :
  PyStr.mem "-" a = false → PyStr.join "-" (take 2 (PyStr.split "-" a)) = a.
Proof. intros Ha. by rewrite (split_no_sep _ _ Ha). Qed.

(* ===================================================================== *)
(** ** Facts about the reading of a UUID *)
(* ===================================================================== *)

Lemma is_hex_val a : is_hex a = true → ∃ d, PyLib.hex_val a = Some d ∧ 0 <= d < 16.
Proof.
  unfold is_hex. destruct (PyLib.hex_val a) as [d|] eqn:E; [|done]. intros _.
  exists d. split; [done |]. revert E.
  destruct a as [[] [] [] [] [] [] [] []]; vm_compute; try done; intros [= <-]; done.
Qed.

Lemma hex_char_lower a d : PyLib.hex_val a = Some d → PyLib.hex_char d = PyStr.lower_char a.
Proof. destruct a as [[] [] [] [] [] [] [] []]; vm_compute; try done; by intros [= <-]. Qed.

(** A hexadecimal digit is none of the characters the reading of a UUID
    gives a meaning to. *)
Lemma is_hex_plain a :
  is_hex a = true →
  PyStr.mem a ":{}-+_xX" = false ∧
  PyStr.mem a (String (ascii_of_nat 9) (String (ascii_of_nat 10) (String (ascii_of_nat 11)
                 (String (ascii_of_nat 12) (String (ascii_of_nat 13) " "))))) = false.
Proof. destruct a as [[] [] [] [] [] [] [] []]; vm_compute; done. Qed.

Lemma all_hex_app s t : all_hex (s +:+ t) = (all_hex s && all_hex t)%bool.
Proof.
  induction s as [|a s IH]; [done |]. rewrite app_cons. cbn [all_hex].
  by rewrite IH, andb_assoc.
Qed.

Lemma all_hex_mem c s :
  all_hex s = true → PyStr.mem c ":{}-+_xX" = true → PyStr.mem c s = false.
Proof.
  intros Hs Hc. induction s as [|a s IH]; [done |].
  cbn [all_hex] in Hs. apply andb_true_iff in Hs as [Ha Hs].
  cbn [PyStr.mem]. rewrite (IH Hs), orb_false_r.
  apply is_hex_plain in Ha as [Ha _].
  destruct (Ascii.eqb_spec c a) as [->|]; [congruence | done].
Qed.

Lemma length_app_s (s t : string) :
  String.length (s +:+ t) = (String.length s + String.length t)%nat.
Proof. induction s as [|a s IH]; [done |]. rewrite app_cons. simpl. by rewrite IH. Qed.

(** Stripping changes nothing when none of the characters occurs. *)
Lemma rstrip_absent chars s :
  (∀ c, PyStr.mem c chars = true → PyStr.mem c s = false) → PyStr.rstrip chars s = s.
Proof.
  induction s as [|a s IH]; intros H; [done |].
  assert (Ha : PyStr.mem a chars = false).
  { destruct (PyStr.mem a chars) eqn:E; [|done].
    specialize (H a E). simpl in H. by rewrite Ascii.eqb_refl in H. }
  cbn [PyStr.rstrip]. rewrite IH.
  - destruct s; [by rewrite Ha | done].
  - intros c Hc. specialize (H c Hc). simpl in H. by apply orb_false_elim in H as [_ ?].
Qed.

Lemma lstrip_absent chars s :
  (∀ c, PyStr.mem c chars = true → PyStr.mem c s = false) → PyStr.lstrip chars s = s.
Proof.
  destruct s as [|a s]; intros H; [done |].
  cbn [PyStr.lstrip]. destruct (PyStr.mem a chars) eqn:E; [|done].
  specialize (H a E). simpl in H. by rewrite Ascii.eqb_refl in H.
Qed.

(** Replacing a character by nothing deletes it. *)
Lemma replace_delete x s : PyStr.replace (String x "") "" s = delete_char x s.
Proof.
  unfold PyStr.replace. induction s as [|a s IH]; [done |].
  cbn [PyStr.replace_from PyStr.startswith delete_char String.length Nat.pred].
  destruct (Ascii.eqb_spec a x) as [->|Hne].
  - by rewrite Ascii.eqb_refl, app_nil, IH.
  - apply not_eq_sym, Ascii.eqb_neq in Hne. by rewrite Hne, IH.
Qed.

Lemma delete_char_app x s t : delete_char x (s +:+ t) = delete_char x s +:+ delete_char x t.
Proof.
  induction s as [|a s IH]; [done |]. rewrite app_cons. cbn [delete_char].
  destruct (Ascii.eqb a x); [done |]. by rewrite app_cons, IH.
Qed.

Lemma delete_char_absent x s : PyStr.mem x s = false → delete_char x s = s.
Proof.
  induction s as [|a s IH]; [done |]. cbn [PyStr.mem delete_char].
  intros [Ha Hs]%orb_false_elim. rewrite Ascii.eqb_sym in Ha. by rewrite Ha, IH.
Qed.

(** [int(s, 16)] of a non-empty string of hexadecimal digits. *)
Lemma int16_digits_hex s :
  all_hex s = true →
  ∀ acc seen, seen = true ∨ s ≠ "" →
    PyLib.int16_digits acc seen s = Some (hex_value acc s, "").
Proof.
  induction s as [|a s IH]; intros Hs acc seen Hseen.
  - destruct Hseen as [-> | ?]; done.
  - cbn [all_hex] in Hs. apply andb_true_iff in Hs as [Ha Hs].
    apply is_hex_val in Ha as (d & Hd & _).
    cbn [PyLib.int16_digits hex_value]. rewrite Hd. cbn [default from_option id].
    apply IH; [done | by left].
Qed.

Lemma skip_sign_hex a s : is_hex a = true → PyLib.skip_sign (String a s) = (false, String a s).
Proof. destruct a as [[] [] [] [] [] [] [] []]; vm_compute; done. Qed.

Lemma skip_0x_hex a s : all_hex s = true → PyLib.skip_0x (String a s) = String a s.
Proof.
  intros Hs.
  assert (Hx : ∀ x s', s = String x s' →
                 (Ascii.eqb x "x" || Ascii.eqb x "X")%bool = false).
  { intros x s' ->. cbn [all_hex] in Hs. apply andb_true_iff in Hs as [Hx _].
    apply is_hex_plain in Hx as [Hx _]. cbn [PyStr.mem] in Hx.
    repeat (apply orb_false_elim in Hx as [? Hx]).
    apply orb_false_intro; done. }
  destruct a as [[] [] [] [] [] [] [] []]; try reflexivity.
  destruct s as [|x s']; [reflexivity |].
  cbn [PyLib.skip_0x]. by rewrite (Hx x s' eq_refl).
Qed.

Lemma int16_hex s : all_hex s = true → s ≠ "" → PyLib.int16 s = Some (hex_value 0 s).
Proof.
  intros Hs Hne. destruct s as [|a s]; [done |].
  pose proof Hs as Hs'. cbn [all_hex] in Hs'. apply andb_true_iff in Hs' as [Ha Hs'].
  unfold PyLib.int16.
  rewrite lstrip_absent.
  2:{ intros c Hc. apply is_hex_plain in Ha as [_ Ha].
      destruct (PyStr.mem c (String a s)) eqn:E; [|done]. exfalso.
      cbn [PyStr.lstrip] in *. clear -Hc E Hs Ha Hs'.
      assert (Hall : ∀ t, all_hex t = true → PyStr.mem c t = false).
      { induction t as [|b t IH]; [done |]. cbn [all_hex PyStr.mem].
        intros [Hb Ht]%andb_true_iff. rewrite (IH Ht), orb_false_r.
        apply is_hex_plain in Hb as [_ Hb].
        destruct (Ascii.eqb_spec c b) as [->|]; [congruence | done]. }
      rewrite (Hall _ Hs) in E. done. }
  rewrite (skip_sign_hex _ _ Ha), (skip_0x_hex _ _ Hs').
  rewrite (int16_digits_hex _ Hs) by (by right). done.
Qed.

Lemma hex_value_split s :
  ∀ acc, hex_value acc s = acc * 16 ^ Z.of_nat (String.length s) + hex_value 0 s.
Proof.
  induction s as [|a s IH]; intros acc.
  - simpl. lia.
  - cbn [hex_value String.length]. rewrite (IH (16 * acc + _)), (IH (16 * 0 + _)).
    rewrite Nat2Z.inj_succ, Z.pow_succ_r by lia. lia.
Qed.

Lemma hex_value_range s :
  all_hex s = true → 0 <= hex_value 0 s < 16 ^ Z.of_nat (String.length s).
Proof.
  induction s as [|a s IH]; intros Hs.
  - simpl. lia.
  - cbn [all_hex] in Hs. apply andb_true_iff in Hs as [Ha Hs]. specialize (IH Hs).
    apply is_hex_val in Ha as (d & Hd & Hr).
    cbn [hex_value String.length]. rewrite Hd. cbn [default from_option id].
    rewrite hex_value_split, Nat2Z.inj_succ, Z.pow_succ_r by lia. nia.
Qed.

Lemma hex_value_app s t : ∀ acc, hex_value acc (s +:+ t) = hex_value (hex_value acc s) t.
Proof.
  induction s as [|a s IH]; intros acc; [done |]. rewrite app_cons. cbn [hex_value]. apply IH.
Qed.

(** The digits of [hex_render k] are those of the number modulo [16^k]. *)
Lemma hex_digit_low (k j : nat) q r :
  (j < k)%nat → 0 <= r →
  ((q * 16 ^ Z.of_nat k + r) / 16 ^ Z.of_nat j) mod 16 = (r / 16 ^ Z.of_nat j) mod 16.
Proof.
  intros Hj Hr.
  replace (Z.of_nat k) with (Z.of_nat j + 1 + Z.of_nat (k - j - 1)) by lia.
  rewrite !Z.pow_add_r, Z.pow_1_r by lia.
  replace (q * (16 ^ Z.of_nat j * 16 * 16 ^ Z.of_nat (k - j - 1)) + r)
    with (r + (q * 16 ^ Z.of_nat (k - j - 1) * 16) * 16 ^ Z.of_nat j) by lia.
  rewrite Z.div_add by (apply Z.pow_nonzero; lia).
  by rewrite Z.add_comm, Z.mul_comm, Z.add_comm, Z.mul_comm, Z_mod_plus_full.
Qed.

Lemma hex_render_low (j k : nat) q r :
  (j <= k)%nat → 0 <= r →
  PyLib.hex_render j (q * 16 ^ Z.of_nat k + r) = PyLib.hex_render j r.
Proof.
  intros Hj Hr. induction j as [|j IH]; [done |].
  cbn [PyLib.hex_render]. rewrite IH by lia. by rewrite hex_digit_low by lia.
Qed.

(** Printing the value of a string of digits gives the string back, in
    lower case. *)
Lemma hex_render_value s :
  all_hex s = true → PyLib.hex_render (String.length s) (hex_value 0 s) = PyStr.lower s.
Proof.
  induction s as [|a s IH]; intros Hs; [done |].
  cbn [all_hex] in Hs. apply andb_true_iff in Hs as [Ha Hs].
  pose proof (hex_value_range _ Hs) as Hr.
  apply is_hex_val in Ha as (d & Hd & Hd16).
  cbn [hex_value String.length PyLib.hex_render]. rewrite Hd. cbn [default from_option id].
  rewrite hex_value_split. replace (16 * 0 + d) with d by lia.
  rewrite hex_render_low by lia. rewrite (IH Hs).
  rewrite Z.div_add_l by (apply Z.pow_nonzero; lia).
  rewrite (Z.div_small (hex_value 0 s)) by lia.
  rewrite Z.add_0_r, Z.mod_small by lia.
  by rewrite (hex_char_lower _ _ Hd).
Qed.

(** The first digits of a number are the digits of its quotient. *)
Lemma take_hex_render (k m : nat) n :
  0 <= n → PyStr.take k (PyLib.hex_render (k + m) n) = PyLib.hex_render k (n / 16 ^ Z.of_nat m).
Proof.
  intros Hn. induction k as [|k IH]; [by destruct (PyLib.hex_render (0 + m) n) |].
  cbn [Nat.add PyLib.hex_render PyStr.take]. rewrite IH.
  rewrite Z.div_div by (try apply Z.pow_pos_nonneg; try apply Z.pow_nonneg; lia).
  by rewrite <- Z.pow_add_r, <- Nat2Z.inj_add, (Nat.add_comm m k) by lia.
Qed.

(** Setting the variant and the version leaves the bits above the 96th
    as they are. *)
Lemma version_bits_high n :
  Z.shiftr (Z.lor (Z.land (Z.lor (Z.land n (Z.lnot (Z.shiftl 0xc000 48))) (Z.shiftl 0x8000 48))
                          (Z.lnot (Z.shiftl 0xf000 64)))
                  (Z.shiftl 4 76)) 96
  = Z.shiftr n 96.
Proof.
  apply Z.bits_inj'. intros k Hk.
  rewrite !Z.shiftr_spec by lia.
  rewrite Z.lor_spec, Z.land_spec, Z.lor_spec, Z.land_spec, !Z.lnot_spec by lia.
  assert (Hc : ∀ c, 0 <= c → Z.log2 c < 96 → Z.testbit c (k + 96) = false).
  { intros c Hc Hl. apply Z.bits_above_log2; lia. }
  rewrite (Hc (Z.shiftl 0xc000 48)), (Hc (Z.shiftl 0x8000 48)),
    (Hc (Z.shiftl 0xf000 64)), (Hc (Z.shiftl 4 76)) by (vm_compute; done).
  cbn [negb]. by rewrite !andb_true_r, !orb_false_r.
Qed.

Lemma take_app_exact (x y : string) : PyStr.take (String.length x) (x +:+ y) = x.
Proof.
  induction x as [|a x IH]; [by destruct y |]. rewrite app_cons. cbn. by rewrite IH.
Qed.

Lemma length_hex_render k n : String.length (PyLib.hex_render k n) = k.
Proof. induction k as [|k IH]; [done |]. cbn. by rewrite IH. Qed.

Lemma canonical_uuid_plain a b c d e x :
  all_hex a = true → all_hex b = true → all_hex c = true → all_hex d = true →
  all_hex e = true →
  PyStr.mem x ":{}-+_xX" = true → x ≠ "-"%char →
  PyStr.mem x (canonical_uuid a b c d e) = false.
Proof.
  intros Ha Hb Hc Hd He Hx Hne. unfold canonical_uuid.
  rewrite !mem_app.
  rewrite (all_hex_mem _ _ Ha Hx), (all_hex_mem _ _ Hb Hx), (all_hex_mem _ _ Hc Hx),
    (all_hex_mem _ _ Hd Hx), (all_hex_mem _ _ He Hx).
  cbn [PyStr.mem]. apply Ascii.eqb_neq in Hne. by rewrite Hne.
Qed.

(** The library reads the canonical text of a UUID, and the text it
    gives back starts with the first group in lower case. *)
Lemma uuid4_str_canonical a b c d e :
  hex_group 8 a → hex_group 4 b → hex_group 4 c → hex_group 4 d → hex_group 12 e →
  ∃ r, PyLib.uuid4_str (canonical_uuid a b c d e) = Some r ∧ PyStr.take 8 r = PyStr.lower a.
Proof.
  intros [Ha La] [Hb Lb] [Hc Lc] [Hd Ld] [He Le].
  pose proof (canonical_uuid_plain a b c d e) as Hplain.
  specialize (λ x, Hplain x Ha Hb Hc Hd He).
  unfold PyLib.uuid4_str.
  rewrite (replace_absent ":" "urn:" "" _ eq_refl) by (by apply Hplain).
  rewrite (replace_absent ":" "uuid:" "" _ eq_refl) by (by apply Hplain).
  assert (Hstrip : PyStr.strip "{}" (canonical_uuid a b c d e) = canonical_uuid a b c d e).
  { assert (Hb' : ∀ x, PyStr.mem x "{}" = true → PyStr.mem x (canonical_uuid a b c d e) = false).
    { intros x Hx. cbn [PyStr.mem] in Hx.
      apply orb_true_iff in Hx as [Hx | Hx]; [|apply orb_true_iff in Hx as [Hx | Hx]; [|done]];
        apply Ascii.eqb_eq in Hx as ->; by apply Hplain. }
    unfold PyStr.strip. rewrite lstrip_absent by done. by apply rstrip_absent. }
  rewrite Hstrip. clear Hstrip Hplain.
  set (rest := b +:+ c +:+ d +:+ e).
  assert (Hhex : PyStr.replace "-" "" (canonical_uuid a b c d e) = a +:+ rest).
  { rewrite replace_delete. unfold canonical_uuid, rest. rewrite !delete_char_app.
    rewrite (delete_char_absent "-" a), (delete_char_absent "-" b), (delete_char_absent "-" c),
      (delete_char_absent "-" d), (delete_char_absent "-" e) by (by apply all_hex_mem).
    change (delete_char "-" "-") with "". by rewrite !app_nil. }
  rewrite Hhex. clear Hhex.
  assert (Hrest : all_hex rest = true) by (unfold rest; by rewrite !all_hex_app, Hb, Hc, Hd, He).
  assert (Lrest : String.length rest = 24%nat) by (unfold rest; rewrite !length_app_s; lia).
  assert (Hall : all_hex (a +:+ rest) = true) by (by rewrite all_hex_app, Ha, Hrest).
  assert (Llen : String.length (a +:+ rest) = 32%nat) by (rewrite length_app_s; lia).
  rewrite Llen. cbn [Nat.eqb negb].
  rewrite int16_hex by (done || by destruct a).
  pose proof (hex_value_range _ Hall) as Hrange. rewrite Llen in Hrange.
  set (n := hex_value 0 (a +:+ rest)) in *.
  assert (Hlt : (0 <=? n) && (n <? Z.shiftl 1 128) = true).
  { apply andb_true_iff. split; [apply Z.leb_le; lia |].
    apply Z.ltb_lt. change (Z.shiftl 1 128) with (16 ^ Z.of_nat 32). lia. }
  rewrite Hlt. cbn [negb]. cbv zeta.
  set (n' := Z.lor _ (Z.shiftl 4 76)).
  eexists. split; [reflexivity |].
  assert (Hn' : 0 <= n').
  { unfold n'. apply Z.lor_nonneg. split; [|done].
    apply Z.land_nonneg. left. apply Z.lor_nonneg. split; [|done].
    apply Z.land_nonneg. left. lia. }
  assert (Hhead : PyStr.take 8 (PyLib.hex_render 32 n') = PyStr.lower a).
  { change 32%nat with (8 + 24)%nat. rewrite (take_hex_render 8 24 n' Hn').
    change (16 ^ Z.of_nat 24) with (2 ^ 96).
    rewrite <- Z.shiftr_div_pow2 by lia. unfold n'. rewrite version_bits_high.
    rewrite Z.shiftr_div_pow2 by lia. change (2 ^ 96) with (16 ^ Z.of_nat 24).
    unfold n. rewrite hex_value_app, hex_value_split, Lrest.
    pose proof (hex_value_range _ Hrest) as Hr. rewrite Lrest in Hr.
    rewrite Z.div_add_l by (apply Z.pow_nonzero; lia).
    rewrite (Z.div_small (hex_value 0 rest)) by lia. rewrite Z.add_0_r.
    rewrite <- La at 1. by apply hex_render_value. }
  assert (HL : String.length (PyStr.take 8 (PyLib.hex_render 32 n')) = 8%nat).
  { change 32%nat with (8 + 24)%nat. rewrite (take_hex_render 8 24 n' Hn').
    apply length_hex_render. }
  match goal with
  | |- PyStr.take 8 (_ +:+ ?tail) = _ =>
      pose proof (take_app_exact (PyStr.take 8 (PyLib.hex_render 32 n')) tail) as Ht
  end.
  rewrite HL in Ht. rewrite Ht. exact Hhead.
Qed.

(** The test [is_canonical_uuid] accepts the canonical texts. *)
Lemma is_canonical_uuid_groups a b c d e :
  hex_group 8 a → hex_group 4 b → hex_group 4 c → hex_group 4 d → hex_group 12 e →
  is_canonical_uuid (canonical_uuid a b c d e) = true.
Proof.
  intros [Ha La] [Hb Lb] [Hc Lc] [Hd Ld] [He Le].
  do 9 (destruct a as [|? a]; try discriminate La).
  do 5 (destruct b as [|? b]; try discriminate Lb).
  do 5 (destruct c as [|? c]; try discriminate Lc).
  do 5 (destruct d as [|? d]; try discriminate Ld).
  do 13 (destruct e as [|? e]; try discriminate Le).
  cbn [all_hex] in Ha, Hb, Hc, Hd, He.
  repeat match goal with H : (_ && _)%bool = true |- _ => apply andb_true_iff in H as [? H] end.
  unfold is_canonical_uuid, canonical_uuid. cbv -[is_hex].
  repeat match goal with H : is_hex _ = true |- _ => rewrite H; clear H end.
  reflexivity.
Qed.

(* ===================================================================== *)
(** ** The listing on a tame host *)
(* ===================================================================== *)

(** A run that succeeds can be continued. *)
Lemma bind_total {A B} (m : M A) (f : A → M B) t1 a (P : B → Prop) :
  m = (t1, Ok a) →
  (∃ t r, f a = (t, Ok r) ∧ P r) →
  ∃ t r, m ≫= f = (t, Ok r) ∧ P r.
Proof.
  intros -> (t & r & Hf & HP). exists (t1 ++ t), r.
  by rewrite bind_ok, Hf.
Qed.

Lemma list_get_jid_total h uuid :
  host_tame h → ∃ b jid, list_get_jid h uuid = ([Exec ["jls"; "-j"; jail_name uuid]], Ok (b, jid)).
Proof.
  intros Ht. pose proof (tame_jls h Ht ["jls"; "-j"; jail_name uuid]) as Hj.
  unfold list_get_jid, run_checkoutput, emit, lift, try_except.
  rewrite bind_ok. cbn [fst snd].
  destruct (checkoutput h _) as [out|e].
  - destruct Hj as [jid Hjid]. exists true, jid.
    rewrite bind_ok. cbn [fst snd]. unfold index. rewrite Hjid. reflexivity.
  - destruct Hj as [str_e ->]. exists false, "-". reflexivity.
Qed.

Lemma dhcp_forms_total h conf b uuid_full s f :
  host_tame h → is_Some (conf !! "dhcp") → is_Some (conf !! "interfaces") →
  ∃ t r, dhcp_forms h conf (Some b) uuid_full s f = (t, Ok r).
Proof.
  intros Ht [dhcp Hd] [interfaces Hi]. unfold dhcp_forms.
  rewrite (getitem_ok _ _ _ Hd), bind_nil.
  destruct (String.eqb dhcp "on"); [|by eauto].
  rewrite mret_bind. destruct b; [|by eauto].
  destruct (geteuid h =? 0); [|by eauto].
  rewrite (getitem_ok _ _ _ Hi), bind_nil. cbv zeta.
  pose proof (tame_ifconfig h Ht ["jexec"; jail_name uuid_full; "ifconfig";
                                  dhcp_interface interfaces; "inet"]) as Hq.
  unfold try_except_else, run_check_output, emit, lift. rewrite bind_ok. cbn [fst snd].
  destruct (check_output h _) as [out|e].
  - destruct Hq as (line & Hl & addr & Ha). unfold index. rewrite Hl. cbv iota.
    rewrite mret_bind, Ha. cbv iota. rewrite mret_bind. by eauto.
  - destruct Hq as [str_e ->]. by eauto.
Qed.

Lemma resolve_placeholders_total h mp ph :
  host_tame h →
  ∀ ap, match resolve_placeholders h mp ap ph with
        | (_, Ok _) => True
        | (_, Raise e) =>
            e = KeyError ∨ (∃ message, e = CommandFailed message) ∨ e = FileNotFoundError
        end.
Proof.
  intros Ht. induction ph as [|[p prop] ph IH]; intros ap; [done |].
  cbn [resolve_placeholders].
  pose proof (tame_plugin h Ht mp (PyStr.split "." prop)) as Hp.
  destruct (json_plugin_get_value h mp _) as [v|e]; [apply IH | done].
Qed.

Lemma admin_portal_of_total h mp fip :
  host_tame h → ∃ portal, admin_portal_of h mp fip = ([], Ok portal).
Proof.
  intros Ht. pose proof (tame_ui h Ht (mp +:+ "/plugin/ui.json")) as Hui.
  unfold admin_portal_of, lift, try_except.
  destruct (json_load_ui h _) as [ui|e].
  - destruct Hui as [url Hurl]. rewrite bind_nil, Hurl, mret_bind.
    destruct (adminportal_placeholders ui) as [ph|]; [|by eauto].
    pose proof (resolve_placeholders_total h mp ph Ht
                  (PyStr.replace "%%IP%%" (portal_ip fip) url)) as Hr.
    destruct (resolve_placeholders _ _ _ _) as [ap [[]|e]]; [by eauto |].
    destruct Hr as [-> | [[message ->] | ->]]; by eauto.
  - subst e. by eauto.
Qed.

Ltac key_of Hk k v H :=
  let Hin := fresh in
  assert (Hin : k ∈ conf_keys) by (unfold conf_keys; set_solver);
  destruct (Hk k Hin) as [v H]; clear Hin.

Lemma list_all_jail_total self h full status jail :
  host_tame h →
  ∃ t r, list_all_jail self h full status jail = (t, Ok r) ∧
         (basejail_only self = false → (full && plugin self)%bool = false → is_Some r.2).
Proof.
  intros Ht. unfold list_all_jail.
  destruct (tame_origin h Ht (name jail +:+ "/root")) as [origin Ho].
  destruct (json_get_value_all h (mountpoint jail)) as [conf|e] eqn:Hload.
  - pose proof (tame_conf h Ht _ _ Hload) as Hk.
    key_of Hk "host_hostuuid" uuid Hu. key_of Hk "ip4_addr" ip4 Hip4.
    key_of Hk "ip6_addr" ip6 Hip6. key_of Hk "boot" boot Hboot.
    key_of Hk "type" jt Hjt. key_of Hk "release" rel Hrel.
    run_ok (load_conf_loaded _ _ _ Hload).
    destruct (basejail_only self && _)%bool eqn:Hbj.
    { eexists _, _. split; [reflexivity |]. intros Hb. by rewrite Hb in Hbj. }
    run_ok (getitem_ok _ _ _ Hu). run_ok (getitem_ok _ _ _ Hip4).
    run_ok (getitem_ok _ _ _ Hip6). run_ok (getitem_ok _ _ _ Hboot).
    rewrite (getitem_ok _ _ _ Hjt), !bind_nil.
    run_ok (getitem_ok _ _ _ Hrel).
    destruct (release_forms rel) as [full_release short_release].
    cbv iota.
    destruct (list_get_jid_total h uuid Ht) as (b & jid & Hjid).
    rewrite Hjid, (bind_ok _ [Exec ["jls"; "-j"; jail_name uuid]] (b, jid)). cbn [fst snd].
    eapply bind_total; [reflexivity |]. cbv beta iota. rewrite bind_nil.
    run_ok (template_of_ok _ _ jt _ Ho).
    destruct (dhcp_forms_total h conf b uuid (short_ip4_of ip4) (none_to_dash ip4) Ht)
      as (t2 & [sip fip] & Hd); [by apply Hk; unfold conf_keys; set_solver
                                | by apply Hk; unfold conf_keys; set_solver |].
    eapply bind_total; [exact Hd |]. cbv beta iota.
    destruct (full && plugin self)%bool.
    + destruct (negb _ && negb _)%bool.
      * eexists _, _. split; [reflexivity | done].
      * destruct (admin_portal_of_total h (mountpoint jail) fip Ht) as [portal Hp].
        run_ok Hp. eexists _, _. split; [reflexivity | done].
    + destruct full; (eexists _, _; split; [reflexivity | by eauto]).
  - destruct (tame_default h Ht) as (d & Hd & Hk).
    run_ok (load_conf_corrupt _ _ _ _ Hload Hd).
    set (seg := final (PyStr.split "/" (name jail))).
    set (conf := <["release":="N/A"]> (<["host_hostuuid":=seg]> ((λ _, "N/A") <$> d))).
    destruct (basejail_only self && _)%bool eqn:Hbj.
    { eexists _, _. split; [reflexivity |]. intros Hb. by rewrite Hb in Hbj. }
    assert (HNA : ∀ k, k ≠ "host_hostuuid" → k ∈ default_keys →
                       conf !! k = Some "N/A").
    { intros k Hne Hin. apply corrupt_conf_lookup; [done | by apply Hk]. }
    assert (Hip4 : conf !! "ip4_addr" = Some "N/A")
      by (apply HNA; [done | unfold default_keys; set_solver]).
    assert (Hip6 : conf !! "ip6_addr" = Some "N/A")
      by (apply HNA; [done | unfold default_keys; set_solver]).
    assert (Hboot : conf !! "boot" = Some "N/A")
      by (apply HNA; [done | unfold default_keys; set_solver]).
    assert (Hjt : conf !! "type" = Some "N/A")
      by (apply HNA; [done | unfold default_keys; set_solver]).
    assert (Hdhcp : conf !! "dhcp" = Some "N/A")
      by (apply HNA; [done | unfold default_keys; set_solver]).
    assert (Hu : conf !! "host_hostuuid" = Some seg) by apply corrupt_conf_uuid.
    assert (Hrel : conf !! "release" = Some "N/A") by apply corrupt_conf_release.
    run_ok (getitem_ok _ _ _ Hu).
    run_ok (getitem_ok _ _ _ Hip4). run_ok (getitem_ok _ _ _ Hip6).
    run_ok (getitem_ok _ _ _ Hboot).
    rewrite (getitem_ok _ _ _ Hjt), !bind_nil.
    run_ok (getitem_ok _ _ _ Hrel).
    rewrite release_forms_NA. cbv iota beta. rewrite mret_bind, bind_nil.
    run_ok (template_of_ok _ _ "N/A" _ Ho).
    run_ok (dhcp_forms_static h conf status seg (short_ip4_of "N/A") (none_to_dash "N/A")
              "N/A" Hdhcp ltac:(done)).
    destruct (full && plugin self)%bool.
    + eexists _, _. split; [reflexivity | done].
    + destruct full; (eexists _, _; split; [reflexivity | by eauto]).
Qed.

Lemma list_all_loop_total self h full jails :
  host_tame h →
  ∀ status acc, ∃ t rows,
    list_all_loop self h full status acc jails = (t, Ok rows) ∧
    (basejail_only self = false → (full && plugin self)%bool = false →
     length rows = (length acc + length jails)%nat).
Proof.
  intros Ht. induction jails as [|jail jails IH]; intros status acc.
  - exists [], acc. split; [done |]. intros _ _. simpl. lia.
  - cbn [list_all_loop].
    destruct (list_all_jail_total self h full status jail Ht) as (t1 & [st1 row] & Hj & Hrow).
    eapply bind_total; [exact Hj |]. cbv beta iota.
    destruct (IH st1 (match row with Some r => acc ++ [r] | None => acc end))
      as (t2 & rows & Hl & Hlen).
    exists t2, rows. split; [done |]. intros Hb Hp.
    rewrite (Hlen Hb Hp). destruct (Hrow Hb Hp) as [r Hr]. cbn in Hr. subst row.
    rewrite length_app. simpl. lia.
Qed.

Lemma list_all_total self h jails :
  host_tame h →
  ∃ t l, list_all self h jails = (t, Ok l) ∧
    (basejail_only self = false → plugin self = false →
     length (data_rows l) = length jails).
Proof.
  intros Ht. unfold list_all.
  destruct (list_all_loop_total self h (if plugin self then true else full self) jails Ht None [])
    as (t & rows & Hl & Hlen).
  eapply bind_total; [exact Hl |].
  set (key := ioc_sort h _ _ _).
  assert (Hs : length (sort_by key rows) = length rows)
    by (apply Permutation_length, sort_by_perm).
  assert (Hres : ∀ l, data_rows l = sort_by key rows →
            basejail_only self = false → plugin self = false →
            length (data_rows l) = length jails).
  { intros l -> Hb Hp. rewrite Hs, Hlen; [done | done |]. rewrite Hp. by destruct (full self). }
  destruct (negb (header self)); [by eexists _, _; split; [reflexivity | apply Hres] |].
  destruct (if plugin self then true else full self); [destruct (plugin self) |];
    (eexists _, _; split; [reflexivity | by apply Hres]).
Qed.

Lemma list_all_quick_jail_total self h c0 jail :
  quick_tame h →
  ∃ t r, list_all_quick_jail self h c0 jail = (t, Ok r) ∧
         (basejail_only self = false → is_Some r.2).
Proof.
  intros Hq. specialize (Hq (mountpoint jail +:+ "/config.json")).
  destruct (json_load_conf h _) as [c|e] eqn:Hload.
  - destruct Hq as [uuid Hu]. unfold list_all_quick_jail. rewrite Hload.
    unfold try_except, lift. rewrite bind_nil. cbn [mret M_ret]. rewrite bind_nil.
    rewrite (getitem_ok _ _ _ Hu), bind_nil.
    destruct (basejail_only self && _)%bool eqn:Hbj.
    + eexists _, _. split; [reflexivity |]. intros Hb. by rewrite Hb in Hbj.
    + eexists _, _. split; [reflexivity | by eauto].
  - destruct (list_all_quick_jail_corrupt self h c0 jail e Hload Hq) as (c & Hc).
    rewrite Hc. eexists _, _. split; [reflexivity |]. intros ->. by eauto.
Qed.

Lemma list_all_quick_total self h jails :
  quick_tame h →
  ∃ t l, list_all_quick self h jails = (t, Ok l) ∧
    (basejail_only self = false → length (data_rows l) = length jails).
Proof.
  intros Hq. unfold list_all_quick.
  assert (Hloop : ∀ c0 acc, ∃ t rows,
            list_all_quick_loop self h c0 acc jails = (t, Ok rows) ∧
            (basejail_only self = false → length rows = (length acc + length jails)%nat)).
  { induction jails as [|jail jails IH]; intros c0 acc.
    - exists [], acc. split; [done |]. intros _. simpl. lia.
    - cbn [list_all_quick_loop].
      destruct (list_all_quick_jail_total self h c0 jail Hq) as (t1 & [c1 row] & Hj & Hrow).
      eapply bind_total; [exact Hj |]. cbv beta iota.
      destruct (IH c1 (match row with Some r => acc ++ [r] | None => acc end))
        as (t2 & rows & Hl & Hlen).
      exists t2, rows. split; [done |]. intros Hb.
      rewrite (Hlen Hb). destruct (Hrow Hb) as [r Hr]. cbn in Hr. subst row.
      rewrite length_app. simpl. lia. }
  destruct (Hloop None []) as (t & rows & Hl & Hlen).
  eapply bind_total; [exact Hl |].
  destruct (negb (header self)); (eexists _, _; split; [reflexivity | by apply Hlen]).
Qed.

(** The host of the examples is tame. *)
Lemma demo_host_tame euid : host_tame (Demo.host euid).
Proof.
  split.
  - intros mp conf. cbn.
    destruct (String.eqb mp "/iocage/jails/web");
      [|destruct (String.eqb mp "/iocage/jails/dh"); [|done]];
      intros [= <-] k Hk; unfold conf_keys in Hk;
      repeat (apply elem_of_cons in Hk as [->|Hk]; [by eexists |]);
      by apply elem_of_nil in Hk.
  - exists Demo.defaults. split; [done |]. intros k Hk. unfold default_keys in Hk.
    repeat (apply elem_of_cons in Hk as [->|Hk]; [by eexists |]).
    by apply elem_of_nil in Hk.
  - intros argv. cbn. repeat case_bool_decide; by eauto.
  - intros argv. cbn. case_bool_decide; [|by eauto].
    eexists. split; [reflexivity | by eexists].
  - intros n. cbn. repeat (destruct (String.eqb n _)); by eauto.
  - intros p. cbn. destruct (String.eqb p _); [by eexists | done].
  - intros mp path. cbn. case_bool_decide; [done | by left].
Qed.

Lemma demo_host_present_quick_tame : quick_tame Demo.host_present.
Proof.
  intros p. cbn. repeat (destruct (String.eqb p _); [by eexists |]). done.
Qed.

(** Whatever [logit] does, the quick listing of a pool whose first jail
    has no [config.json] ends with an exception. *)
Lemma list_all_quick_missing_first self h jail jails :
  json_load_conf h (mountpoint jail +:+ "/config.json") = Raise FileNotFoundError →
  ∃ t e, list_all_quick self h (jail :: jails) = (t, Raise e).
Proof.
  intros Hload. unfold list_all_quick. cbn [list_all_quick_loop].
  unfold list_all_quick_jail. rewrite Hload. unfold try_except, lift, emit.
  rewrite bind_raise. cbn [mbind M_bind].
  destruct (logit h _ _) as [[]|e]; cbn; by eauto.
Qed.

(* ===================================================================== *)
(** ** A jail that is kept gets its row *)
(* ===================================================================== *)

(** What a run of the loop body that appends no row has done: either
    the basejail-only view dropped the jail at once, or the plugin view
    dropped it at the end. *)
Lemma list_all_jail_dropped_inv self h full status jail t st' :
  list_all_jail self h full status jail = (t, Ok (st', None)) →
  ∃ conf corrupt,
    load_conf h jail = ([], Ok (conf, corrupt)) ∧
    ((basejail_only self = true ∧ get conf "basejail" "no" ≠ "yes" ∧ t = [] ∧ st' = status)
     ∨ ((basejail_only self = true → get conf "basejail" "no" = "yes") ∧
        ∃ uuid_full jail_type jid t1 t2,
          conf !! "host_hostuuid" = Some uuid_full ∧
          conf !! "type" = Some jail_type ∧
          (if corrupt then t1 = []
           else ∃ b : bool, list_get_jid h uuid_full = (t1, Ok (b, jid))) ∧
          t = t1 ++ t2 ∧
          (full && plugin self)%bool = true ∧
          jail_type ≠ "plugin" ∧ jail_type ≠ "pluginv2")).
Proof.
  unfold list_all_jail. intros H.
  apply bind_inv in H as (t0 & [conf corrupt] & t' & Hload & H & ->).
  pose proof (load_conf_inv _ _ _ _ _ Hload) as [-> _].
  exists conf, corrupt. split; [done |].
  destruct (basejail_only self && negb (String.eqb (get conf "basejail" "no") "yes"))%bool eqn:Hbj.
  { apply mret_inv in H as [[= <-] ->]. left.
    apply andb_true_iff in Hbj as [Hb Hn]. apply negb_true_iff, String.eqb_neq in Hn. done. }
  right. split.
  { intros Hb. rewrite Hb in Hbj. simpl in Hbj.
    by apply negb_false_iff, String.eqb_eq in Hbj. }
  apply bind_inv in H as (? & uuid & ? & Hu & H & ->). apply getitem_inv in Hu as [Hu ->].
  apply bind_inv in H as (? & ip4 & ? & Hi & H & ->). apply getitem_inv in Hi as [Hi ->].
  apply bind_inv in H as (? & ip6 & ? & Hi6 & H & ->). apply getitem_inv in Hi6 as [Hi6 ->].
  apply bind_inv in H as (? & boot & ? & Hbo & H & ->). apply getitem_inv in Hbo as [Hbo ->].
  apply bind_inv in H as (? & jt & ? & Hjt & H & ->). apply getitem_inv in Hjt as [Hjt ->].
  apply bind_inv in H as (? & rel & ? & Hrel & H & ->). apply getitem_inv in Hrel as [Hrel ->].
  destruct (release_forms rel) as [fr sr].
  apply bind_inv in H as (t1 & [[st1 state] jid] & ? & Hst & H & ->).
  apply bind_inv in H as (? & jt' & ? & Hjt' & H & ->). apply getitem_inv in Hjt' as [Hjt' ->].
  apply bind_inv in H as (? & tpl & ? & Htpl & H & ->).
  pose proof (template_of_trace _ _ _ _ _ Htpl) as ->.
  apply bind_inv in H as (t2 & [sip fip] & ? & Hd & H & ->).
  exists uuid, jt, jid, t1, t2.
  destruct (full && plugin self)%bool eqn:Hfp.
  - destruct (String.eqb_spec jt "plugin") as [Hp|Hp];
      destruct (String.eqb_spec jt "pluginv2") as [Hp2|Hp2]; cbn [negb andb] in H;
      try (apply bind_inv in H as (? & ? & ? & _ & H & _); by apply mret_inv in H as [[= ?] _]).
    apply mret_inv in H as [_ ->]. cbn. rewrite !app_nil_r.
    repeat split; try done.
    destruct corrupt.
    + by apply mret_inv in Hst as [_ ->].
    + apply bind_inv in Hst as (tj & [b j] & tr & Hj & Hst & ->).
      apply mret_inv in Hst as [[= _ _ <-] ->]. exists b. by rewrite app_nil_r.
  - destruct full; by apply mret_inv in H as [[= ?] _].
Qed.

(** On a tame host the body of the loop returns a row for every jail whose
    configuration was read and which neither filter drops. *)
Lemma list_all_jail_kept self h full status jail conf :
  host_tame h →
  json_get_value_all h (mountpoint jail) = Ok conf →
  (basejail_only self && negb (String.eqb (get conf "basejail" "no") "yes"))%bool = false →
  ((full && plugin self)%bool = true →
   conf !! "type" = Some "plugin" ∨ conf !! "type" = Some "pluginv2") →
  ∃ t st' row, list_all_jail self h full status jail = (t, Ok (st', Some row)).
Proof.
  intros Ht Hload Hbj Hkeep.
  destruct (list_all_jail_total self h full status jail Ht) as (t & [st' [row|]] & H & _);
    [by eauto |].
  exfalso.
  apply list_all_jail_dropped_inv in H
    as (conf' & corrupt & Hl
        & [(Hb & Hne & _) | (_ & uuid & jt & jid & t1 & t2 & _ & Hjt & _ & _ & Hfp & Hn1 & Hn2)]);
    rewrite (load_conf_loaded _ _ _ Hload) in Hl; injection Hl as <- <-.
  - rewrite Hb in Hbj. cbn [andb] in Hbj. by apply negb_false_iff, String.eqb_eq in Hbj.
  - destruct (Hkeep Hfp) as [Hp | Hp]; congruence.
Qed.

Lemma demo_host_down_tame : host_tame Demo.host_down.
Proof.
  pose proof (demo_host_tame 0) as H0.
  split.
  - apply (tame_conf _ H0).
  - apply (tame_default _ H0).
  - intros argv. cbn. by eauto.
  - apply (tame_ifconfig _ H0).
  - apply (tame_origin _ H0).
  - apply (tame_ui _ H0).
  - apply (tame_plugin _ H0).
Qed.


(* ===================================================================== *)
(** ** The claims of the specification *)
(* ===================================================================== *)




(** C10. In a basejail-only listing, every row of [list_all] and of
    [list_all_quick] comes from the configuration of one of the jails that
    was read without failure and holds [basejail = yes]; a jail whose
    configuration could not be loaded, and got the placeholder
    configuration, gets no row in either listing. *)
Theorem C10_basejail_only_rows self h jails :
  basejail_only self = true →
  (∀ t l row, list_all self h jails = (t, Ok l) → row ∈ data_rows l →
     ∃ jail conf uuid, jail ∈ jails ∧
       json_get_value_all h (mountpoint jail) = Ok conf ∧
       conf !! "basejail" = Some "yes" ∧
       conf !! "host_hostuuid" = Some uuid ∧
       row !! 1%nat = Some (short_uuid (if plugin self then true else full self) uuid))
  ∧ (∀ t l row, list_all_quick self h jails = (t, Ok l) → row ∈ data_rows l →
     ∃ jail conf uuid ip4, jail ∈ jails ∧
       json_load_conf h (mountpoint jail +:+ "/config.json") = Ok conf ∧
       conf !! "basejail" = Some "yes" ∧
       conf !! "host_hostuuid" = Some uuid ∧
       row = [uuid; ip4])
  ∧ (∀ jail full status e t st' row,
       json_get_value_all h (mountpoint jail) = Raise e →
       list_all_jail self h full status jail = (t, Ok (st', row)) → row = None)
  ∧ (∀ jail c0 e t c' row,
       json_load_conf h (mountpoint jail +:+ "/config.json") = Raise e →
       e ≠ FileNotFoundError →
       list_all_quick_jail self h c0 jail = (t, Ok (c', row)) → row = None).
Proof.
  intros Hb. repeat split.
  - intros t l row H Hrow.
    apply list_all_inv in H as (rows & Hloop & Hperm). rewrite Hperm in Hrow.
    destruct (list_all_loop_inv _ _ _ _ _ _ _ _ Hloop row Hrow)
      as [Hnil | (jail & st & t' & st' & Hin & Hrun)]; [by apply elem_of_nil in Hnil |].
    destruct (basejail_row_loaded _ _ _ _ _ _ _ _ Hb Hrun) as (conf & uuid & ?).
    by exists jail, conf, uuid.
  - intros t l row H Hrow. unfold list_all_quick in H.
    apply bind_inv in H as (t1 & rows & t2 & Hloop & H & ->).
    assert (Hrows : row ∈ rows).
    { destruct (negb (header self)); apply mret_inv in H as [<- _]; done. }
    destruct (list_all_quick_loop_inv _ _ _ Hb _ _ _ _ Hloop row Hrows)
      as [Hnil | (c & uuid & ip4 & Hy & Hu & -> & [Hc | (jail & Hin & Hload)])];
      [by apply elem_of_nil in Hnil | done |].
    by exists jail, c, uuid, ip4.
  - intros jail full status e t st' row Hload H.
    destruct row as [row|]; [|done].
    destruct (basejail_row_loaded _ _ _ _ _ _ _ _ Hb H) as (conf & uuid & Hl & _). congruence.
  - intros jail c0 e t c' row Hload Hne H.
    destruct (list_all_quick_jail_corrupt self h c0 jail e Hload Hne) as (c & Hc).
    rewrite Hc, Hb in H. by injection H as _ _ <-.
Qed.

Lemma C10_basejail_only_rows_witness :
  ∃ jail conf uuid, jail ∈ [Demo.web; Demo.dh; Demo.bad] ∧
    json_get_value_all (Demo.host 0) (mountpoint jail) = Ok conf ∧
    conf !! "basejail" = Some "yes" ∧
    conf !! "host_hostuuid" = Some uuid ∧
    ["7"; "web"; "up"; "11.2-RELEASE"; "10.0.0.5,10.0.1.5"] !! 1%nat
      = Some (short_uuid false uuid).
Proof.
  refine (proj1 (C10_basejail_only_rows (Demo.lister "basejail" false false) (Demo.host 0)
                   [Demo.web; Demo.dh; Demo.bad] eq_refl)
                [Exec ["jls"; "-j"; "ioc-web"]]
                (Flat [["7"; "web"; "up"; "11.2-RELEASE"; "10.0.0.5,10.0.1.5"]]) _ _ _).
  - vm_compute. reflexivity.
  - left.
Defined.

(** C7. On a host whose probes behave, a jail whose configuration was
    read and which no filter drops gets its row, and the body starts
    [jls -j ioc-NAME] first, where NAME is the whole [host_hostuuid] of
    the configuration (not its short form) with every "." turned into
    "_". When [jls] succeeds, [list_get_jid] returns [True] and the sixth
    white-space separated word of the output: the state of the row is
    "up" and that word is its jid. When [jls] exits with an error, the
    error is caught: [list_get_jid] returns [False] and "-", the state of
    the row is "down" and its jid is "-". *)
Theorem C7_run_state_resolution self h full status jail conf :
  host_tame h →
  json_get_value_all h (mountpoint jail) = Ok conf →
  (basejail_only self && negb (String.eqb (get conf "basejail" "no") "yes"))%bool = false →
  ((full && plugin self)%bool = true →
   conf !! "type" = Some "plugin" ∨ conf !! "type" = Some "pluginv2") →
  ∃ uuid_full jid state (up : bool) t' st' row,
    conf !! "host_hostuuid" = Some uuid_full ∧
    let probe := ["jls"; "-j";
                  "ioc-" +:+ PyStr.map (λ c, if Ascii.eqb c "." then "_"%char else c) uuid_full] in
    list_all_jail self h full status jail = (Exec probe :: t', Ok (st', Some row)) ∧
    list_get_jid h uuid_full = ([Exec probe], Ok (up, jid)) ∧
    row !! 0%nat = Some jid ∧
    row !! (if full then 3 else 2)%nat = Some state ∧
    match checkoutput h probe with
    | Ok out => up = true ∧ state = "up" ∧ PyStr.words out !! 5%nat = Some jid
    | Raise e => (∃ str_e, e = CalledProcessError str_e) ∧
                 up = false ∧ state = "down" ∧ jid = "-"
    end.
Proof.
  intros Ht Hok Hbj Hkeep.
  destruct (list_all_jail_kept self h full status jail conf Ht Hok Hbj Hkeep)
    as (t & st' & row & H).
  pose proof H as Hrun.
  apply (loaded_row_inv _ _ _ _ _ _ _ _ _ Hok) in H
    as (uuid & ip4 & ip6 & boot & jt & rel & jid & tpl & sip & fip & t2 & b
        & Hu & _ & _ & _ & _ & _ & Hjid & _ & _ & _ & -> & Hrow).
  pose proof (list_get_jid_inv _ _ _ _ _ Hjid) as [_ Hprobe].
  rewrite jail_name_dots in *.
  exists uuid, jid, (if b then "up" else "down"), b, t2, st', row.
  assert (Hr : row !! 0%nat = Some jid ∧
               row !! (if full then 3 else 2)%nat = Some (if b then "up" else "down")).
  { destruct (full && plugin self)%bool eqn:Hfp.
    - destruct Hrow as (_ & portal & _ & ->).
      apply andb_true_iff in Hfp as [-> _]. done.
    - subst row. by destruct full. }
  destruct Hr as [Hr0 Hr1]. repeat (split; [done |]).
  destruct (checkoutput h _) as [out|e].
  - by destruct Hprobe as [-> ?].
  - by destruct Hprobe as (? & -> & ->).
Qed.

Lemma C7_run_state_resolution_witness :
  (let h := Demo.host 0 in
   let full := false in
   ∃ uuid_full jid state (up : bool) t' st' row,
     Demo.conf_web !! "host_hostuuid" = Some uuid_full ∧
     let probe := ["jls"; "-j";
                   "ioc-" +:+ PyStr.map (λ c, if Ascii.eqb c "." then "_"%char else c) uuid_full] in
     list_all_jail (Demo.lister "all" false false) h full None Demo.web
       = (Exec probe :: t', Ok (st', Some row)) ∧
     list_get_jid h uuid_full = ([Exec probe], Ok (up, jid)) ∧
     row !! 0%nat = Some jid ∧
     row !! (if full then 3 else 2)%nat = Some state ∧
     match checkoutput h probe with
     | Ok out => up = true ∧ state = "up" ∧ PyStr.words out !! 5%nat = Some jid
     | Raise e => (∃ str_e, e = CalledProcessError str_e) ∧
                  up = false ∧ state = "down" ∧ jid = "-"
     end)
  ∧ (let h := Demo.host_down in
     let full := true in
     ∃ uuid_full jid state (up : bool) t' st' row,
       Demo.conf_web !! "host_hostuuid" = Some uuid_full ∧
       let probe := ["jls"; "-j";
                     "ioc-" +:+ PyStr.map (λ c, if Ascii.eqb c "." then "_"%char else c) uuid_full] in
       list_all_jail (Demo.lister "basejail" true false) h full None Demo.web
         = (Exec probe :: t', Ok (st', Some row)) ∧
       list_get_jid h uuid_full = ([Exec probe], Ok (up, jid)) ∧
       row !! 0%nat = Some jid ∧
       row !! (if full then 3 else 2)%nat = Some state ∧
       match checkoutput h probe with
       | Ok out => up = true ∧ state = "up" ∧ PyStr.words out !! 5%nat = Some jid
       | Raise e => (∃ str_e, e = CalledProcessError str_e) ∧
                    up = false ∧ state = "down" ∧ jid = "-"
       end).
Proof.
  cbv zeta. split.
  - apply (C7_run_state_resolution (Demo.lister "all" false false) (Demo.host 0) false None
             Demo.web Demo.conf_web).
    + apply demo_host_tame.
    + reflexivity.
    + reflexivity.
    + intros H. discriminate H.
  - apply (C7_run_state_resolution (Demo.lister "basejail" true false) Demo.host_down true None
             Demo.web Demo.conf_web).
    + apply demo_host_down_tame.
    + reflexivity.
    + reflexivity.
    + intros H. discriminate H.
Defined.

(** C5. For a jail whose configuration was read and says [dhcp = on],
    whatever address the configuration stores: when the jail is down the
    full IPv4 form is "DHCP (not running)" and the short form "DHCP"; when
    it is up and the caller is not root they are "DHCP (running -- address
    requires root)" and "DHCP"; in both cases [jls] is the only process
    started. Only when the jail is up and the caller is root is
    [jexec ... ifconfig IF inet] run: its answer gives the full form
    "IF|ADDRESS" (ADDRESS being the second word of the third line), and its
    failure the forms "DHCP - Network Issue:..." and
    "DHCP(Network Issue)". *)
Theorem C5_dhcp_resolution self h full status jail conf t st' row :
  json_get_value_all h (mountpoint jail) = Ok conf →
  conf !! "dhcp" = Some "on" →
  list_all_jail self h full status jail = (t, Ok (st', Some row)) →
  ∃ uuid_full state ip,
    conf !! "host_hostuuid" = Some uuid_full ∧
    row !! (if full then 3 else 2)%nat = Some state ∧
    row !! (if full then 6 else 4)%nat = Some ip ∧
    let probe := Exec ["jls"; "-j"; jail_name uuid_full] in
    (state = "up" ∨ state = "down") ∧
    (state = "down" →
       ip = (if full then "DHCP (not running)" else "DHCP") ∧ t = [probe]) ∧
    (state = "up" → geteuid h ≠ 0 →
       ip = (if full then "DHCP (running -- address requires root)" else "DHCP") ∧
       t = [probe]) ∧
    (state = "up" → geteuid h = 0 →
       ∃ interfaces, conf !! "interfaces" = Some interfaces ∧
         let query := ["jexec"; jail_name uuid_full; "ifconfig";
                       dhcp_interface interfaces; "inet"] in
         t = [probe; Exec query] ∧
         match check_output h query with
         | Ok out =>
             ∃ line addr, PyStr.splitlines out !! 2%nat = Some line ∧
               PyStr.words_bytes line !! 1%nat = Some addr ∧
               ip = (if full then dhcp_interface interfaces +:+ "|" +:+ addr else "DHCP")
         | Raise e =>
             ∃ str_e, e = CalledProcessError str_e ∧
               ip = (if full then "DHCP - Network Issue:" +:+ str_e
                     else "DHCP(Network Issue)")
         end).
Proof.
  intros Hok Hd H.
  apply (loaded_row_inv _ _ _ _ _ _ _ _ _ Hok) in H
    as (uuid & ip4 & ip6 & boot & jt & rel & jid & tpl & sip & fip & t2 & b
        & Hu & _ & _ & _ & _ & _ & _ & _ & _ & Hdhcp & -> & Hrow).
  apply (dhcp_forms_on_inv _ _ _ _ _ _ _ _ _ Hd) in Hdhcp as (b' & [= <-] & Hforms).
  exists uuid, (if b then "up" else "down"), (if full then fip else sip).
  assert (Hr : row !! (if full then 3 else 2)%nat = Some (if b then "up" else "down") ∧
               row !! (if full then 6 else 4)%nat = Some (if full then fip else sip)).
  { destruct (full && plugin self)%bool eqn:Hfp.
    - destruct Hrow as (_ & portal & _ & ->).
      apply andb_true_iff in Hfp as [-> _]. done.
    - subst row. by destruct full. }
  destruct Hr as [Hr1 Hr2]. split; [done |]. split; [done |]. split; [done |]. cbv zeta.
  destruct b.
  - split; [by left |]. split; [done |].
    destruct (Z.eqb_spec (geteuid h) 0) as [He|He].
    + split; [done |]. intros _ _.
      destruct Hforms as (interfaces & Hi & -> & Hq). exists interfaces.
      split; [done |]. split; [done |]. cbv zeta in Hq.
      destruct (check_output h _) as [out|e].
      * destruct Hq as (line & addr & Hl & Ha & -> & ->). exists line, addr. by destruct full.
      * destruct Hq as (str_e & -> & -> & ->). exists str_e. by destruct full.
    + destruct Hforms as (-> & -> & ->). split; [|done]. intros _ _. by destruct full.
  - destruct Hforms as (-> & -> & ->). split; [by right |].
    split; [|done]. intros _. by destruct full.
Qed.

Lemma C5_dhcp_resolution_witness :
  ∃ uuid_full state ip,
    Demo.conf_dh !! "host_hostuuid" = Some uuid_full ∧
    ["7"; "9f1e2c3a"; "up"; "11-STABLE"; "DHCP"] !! 2%nat = Some state ∧
    ["7"; "9f1e2c3a"; "up"; "11-STABLE"; "DHCP"] !! 4%nat = Some ip ∧
    let probe := Exec ["jls"; "-j"; jail_name uuid_full] in
    (state = "up" ∨ state = "down") ∧
    (state = "down" → ip = "DHCP" ∧
       [Exec ["jls"; "-j"; "ioc-9F1E2C3A-1111-2222-3333-444455556666"];
        Exec ["jexec"; "ioc-9F1E2C3A-1111-2222-3333-444455556666"; "ifconfig"; "epair0b"; "inet"]]
       = [probe]) ∧
    (state = "up" → geteuid (Demo.host 0) ≠ 0 → ip = "DHCP" ∧
       [Exec ["jls"; "-j"; "ioc-9F1E2C3A-1111-2222-3333-444455556666"];
        Exec ["jexec"; "ioc-9F1E2C3A-1111-2222-3333-444455556666"; "ifconfig"; "epair0b"; "inet"]]
       = [probe]) ∧
    (state = "up" → geteuid (Demo.host 0) = 0 →
       ∃ interfaces, Demo.conf_dh !! "interfaces" = Some interfaces ∧
         let query := ["jexec"; jail_name uuid_full; "ifconfig";
                       dhcp_interface interfaces; "inet"] in
         [Exec ["jls"; "-j"; "ioc-9F1E2C3A-1111-2222-3333-444455556666"];
          Exec ["jexec"; "ioc-9F1E2C3A-1111-2222-3333-444455556666"; "ifconfig"; "epair0b"; "inet"]]
         = [probe; Exec query] ∧
         match check_output (Demo.host 0) query with
         | Ok out =>
             ∃ line addr, PyStr.splitlines out !! 2%nat = Some line ∧
               PyStr.words_bytes line !! 1%nat = Some addr ∧ ip = "DHCP"
         | Raise e => ∃ str_e, e = CalledProcessError str_e ∧ ip = "DHCP(Network Issue)"
         end).
Proof.
  apply (C5_dhcp_resolution (Demo.lister "all" false false) (Demo.host 0) false None
           Demo.dh Demo.conf_dh _ (Some true)).
  - reflexivity.
  - reflexivity.
  - vm_compute. reflexivity.
Defined.

(** C8. In a full or plugin view the ninth column of a row is the
    template of the jail. It is "-" for a jail of type "template", and
    for any other jail whose root dataset has no origin or an empty one.
    For an origin DIR/NAME/root@SNAPSHOT it is NAME, the last segment of
    the path with the clone suffix "/root@SNAPSHOT" taken off, unless NAME
    in lower case contains "release" or "stable": then it is "-". *)
Theorem C8_template_origin self h status jail t st' row :
  list_all_jail self h true status jail = (t, Ok (st', Some row)) →
  ∃ jail_type template,
    row !! 4%nat = Some jail_type ∧
    row !! 8%nat = Some template ∧
    (jail_type = "template" → template = "-") ∧
    (jail_type ≠ "template" →
       zfs_origin h (name jail +:+ "/root") = Ok None
       ∨ zfs_origin h (name jail +:+ "/root") = Ok (Some "") →
       template = "-") ∧
    (jail_type ≠ "template" →
       ∀ dir nm snap,
         zfs_origin h (name jail +:+ "/root")
           = Ok (Some (dir +:+ "/" +:+ nm +:+ "/root@" +:+ snap)) →
         PyStr.mem "/" nm = false → PyStr.mem "/" snap = false →
         template = if (PyStr.contains "release" (PyStr.lower nm)
                        || PyStr.contains "stable" (PyStr.lower nm))%bool
                    then "-" else nm).
Proof.
  intros H.
  apply list_all_jail_inv in H
    as (conf & corrupt & uuid & ip4 & ip6 & boot & jt & rel & state & jid & tpl & sip & fip
        & t1 & t2 & _ & _ & _ & _ & _ & _ & _ & _ & _ & Htpl & _ & _ & Hrow).
  exists jt, tpl.
  assert (Hr : row !! 4%nat = Some jt ∧ row !! 8%nat = Some tpl).
  { cbn [andb] in Hrow. destruct (plugin self).
    - by destruct Hrow as (_ & portal & _ & ->).
    - by subst row. }
  destruct Hr as [Hr4 Hr8]. split; [done |]. split; [done |].
  apply template_of_inv in Htpl as [[-> ->] | (Hne & origin & Ho & ->)].
  - repeat split; done.
  - split; [done |]. split.
    + intros _ [Hn | Hn]; rewrite Ho in Hn; injection Hn as ->; reflexivity.
    + intros _ dir nm snap Hn Hnm Hsnap. rewrite Ho in Hn. injection Hn as ->.
      assert (Hnonempty : String.eqb (dir +:+ "/" +:+ nm +:+ "/root@" +:+ snap) "" = false).
      { apply String.eqb_neq. by destruct dir. }
      rewrite Hnonempty, (origin_name_clone _ _ _ Hnm Hsnap). reflexivity.
Qed.

Lemma C8_template_origin_witness :
  ∃ jail_type template,
    ["7"; "web"; "on"; "up"; "jail"; "11.2-RELEASE-p4"; "vnet0|10.0.0.5/24,vnet1|10.0.1.5/24";
     "-"; "tpl"] !! 4%nat = Some jail_type ∧
    ["7"; "web"; "on"; "up"; "jail"; "11.2-RELEASE-p4"; "vnet0|10.0.0.5/24,vnet1|10.0.1.5/24";
     "-"; "tpl"] !! 8%nat = Some template ∧
    (jail_type = "template" → template = "-") ∧
    (jail_type ≠ "template" →
       zfs_origin (Demo.host 0) (name Demo.web +:+ "/root") = Ok None
       ∨ zfs_origin (Demo.host 0) (name Demo.web +:+ "/root") = Ok (Some "") →
       template = "-") ∧
    (jail_type ≠ "template" →
       ∀ dir nm snap,
         zfs_origin (Demo.host 0) (name Demo.web +:+ "/root")
           = Ok (Some (dir +:+ "/" +:+ nm +:+ "/root@" +:+ snap)) →
         PyStr.mem "/" nm = false → PyStr.mem "/" snap = false →
         template = if (PyStr.contains "release" (PyStr.lower nm)
                        || PyStr.contains "stable" (PyStr.lower nm))%bool
                    then "-" else nm).
Proof.
  apply (C8_template_origin (Demo.lister "all" true false) (Demo.host 0) None Demo.web
           [Exec ["jls"; "-j"; "ioc-web"]] (Some true)).
  vm_compute. reflexivity.
Defined.



(** C4. The short IPv4 form of a comma-joined list of entries
    "interface|address/prefix" is the comma-joined list of their
    addresses; the short form of "none" is "-"; and a raw value without
    any "|", other than "none", is its own short form. *)
Theorem C4_short_ip4 (entries : list ip4_entry) (raw : string) :
  entries ≠ [] →
  Forall ip4_entry_wf entries →
  PyStr.mem "|" raw = false →
  raw ≠ "none" →
  short_ip4_of (PyStr.join "," (ip4_entry_text <$> entries))
    = PyStr.join "," (ip4_entry_address <$> entries)
  ∧ short_ip4_of "none" = "-"
  ∧ short_ip4_of raw = raw.
Proof.
  intros Hne Hwf Hraw Hnone. repeat split.
  - unfold short_ip4_of. rewrite split_join.
    + by rewrite mapM_ip4_entries.
    + by destruct entries.
    + apply Forall_fmap. eapply Forall_impl; [exact Hwf |]. apply ip4_entry_text_no_comma.
  - unfold short_ip4_of.
    pose proof (split_not_nil "," raw) as Hnil.
    pose proof (split_fields_mem "|" "," raw Hraw) as Hall.
    destruct (PyStr.split "," raw) as [|item items]; [done |].
    apply Forall_cons in Hall as [Hitem _].
    cbn [mapM]. rewrite (ip4_item_no_bar _ Hitem). cbn.
    apply String.eqb_neq in Hnone. by rewrite Hnone.
Qed.

Lemma C4_short_ip4_witness :
  short_ip4_of (PyStr.join "," (ip4_entry_text <$> [("vnet0", "10.0.0.5", "24");
                                                      ("vnet1", "10.0.1.5", "24")]))
    = PyStr.join "," (ip4_entry_address <$> [("vnet0", "10.0.0.5", "24");
                                              ("vnet1", "10.0.1.5", "24")])
  ∧ short_ip4_of "none" = "-"
  ∧ short_ip4_of "10.0.0.5/24" = "10.0.0.5/24".
Proof.
  apply (C4_short_ip4 [("vnet0", "10.0.0.5", "24"); ("vnet1", "10.0.1.5", "24")] "10.0.0.5/24").
  - discriminate.
  - repeat constructor.
  - reflexivity.
  - discriminate.
Defined.

(** C6. The code departs from the claim in the short form of a release
    that contains "HBSD". The claim has it be the full form without a
    final "-HBSD"; line 222 calls [rstrip("-HBSD")], which removes the
    longest tail made of the characters "-", "H", "B", "S" and "D". The
    release "S.0-HBSD" has the full form "S-HBSD" and an empty short form,
    where the claim gives "S"; the release "11.0-STABLE-HBSD" has the full
    form "11-STABLE-SD", which does not end with "-HBSD" and is its own
    short form by the claim, and the short form "11-STABLE". *)
Theorem C6_short_release_strips_characters :
  (PyStr.contains "HBSD" "S.0-HBSD" = true
   ∧ release_forms "S.0-HBSD" = ("S-HBSD", "")
   ∧ remove_suffix "-HBSD" "S-HBSD" = "S")
  ∧ (PyStr.contains "HBSD" "11.0-STABLE-HBSD" = true
     ∧ release_forms "11.0-STABLE-HBSD" = ("11-STABLE-SD", "11-STABLE")
     ∧ remove_suffix "-HBSD" "11-STABLE-SD" = "11-STABLE-SD").
Proof. repeat split; vm_compute; reflexivity. Qed.

(** C3 (amended). Outside the full view, a name in the canonical text of
    a UUID (groups of 8, 4, 4, 4 and 12 hexadecimal digits joined by
    hyphens) is shown as the first eight characters of the lower-case
    text the library gives for it, which are its first group in lower
    case; a name that the library does not read as a UUID is shown as it
    is. (The library reads more than the canonical text, see the
    counterexample.) In the full view every name is shown as it is. *)
Theorem C3_identity_shortening (a b c d e s : string) :
  hex_group 8 a → hex_group 4 b → hex_group 4 c → hex_group 4 d → hex_group 12 e →
  PyLib.uuid4_str s = None →
  (∃ r, PyLib.uuid4_str (canonical_uuid a b c d e) = Some r ∧
        short_uuid false (canonical_uuid a b c d e) = PyStr.take 8 r ∧
        PyStr.take 8 r = PyStr.lower a)
  ∧ short_uuid false s = s
  ∧ (∀ x, short_uuid true x = x).
Proof.
  intros Ha Hb Hc Hd He Hs. split; [|split].
  - destruct (uuid4_str_canonical a b c d e Ha Hb Hc Hd He) as (r & Hr & Htake).
    exists r. unfold short_uuid. by rewrite Hr.
  - unfold short_uuid. by rewrite Hs.
  - done.
Qed.

Lemma C3_identity_shortening_witness :
  (∃ r, PyLib.uuid4_str (canonical_uuid "9F1E2C3A" "1111" "2222" "3333" "444455556666") = Some r ∧
        short_uuid false (canonical_uuid "9F1E2C3A" "1111" "2222" "3333" "444455556666")
          = PyStr.take 8 r ∧
        PyStr.take 8 r = PyStr.lower "9F1E2C3A")
  ∧ short_uuid false "webserver" = "webserver"
  ∧ (∀ x, short_uuid true x = x).
Proof.
  apply (C3_identity_shortening "9F1E2C3A" "1111" "2222" "3333" "444455556666" "webserver");
    first [split; reflexivity | vm_compute; reflexivity].
Defined.

(** C3, as stated, fails: a name of 32 hexadecimal digits without hyphens
    is not in the canonical text of a UUID, yet the library reads it and
    the name is cut to its first eight characters in lower case. *)
Lemma C3_counterexample :
  is_canonical_uuid "DEADBEEFdeadbeefdeadbeefdeadbeef" = false
  ∧ short_uuid false "DEADBEEFdeadbeefdeadbeefdeadbeef" = "deadbeef".
Proof. split; vm_compute; reflexivity. Qed.

(** C2 (amended). On a host where the only failures are those
    [list_all] handles (a configuration that cannot be loaded, a [jls] or
    an [ifconfig] that exits with an error, a missing plugin descriptor, a
    plugin property that is missing or whose command fails) the listing
    succeeds, and outside the basejail-only and plugin views it has one
    row for each dataset. On a host where every [config.json] is present,
    and parses or not, [list_all_quick] succeeds, and outside the
    basejail-only view it has one row for each dataset. (A missing
    [config.json] in the quick listing, or a process that cannot be
    started, is not absorbed: see the counterexample.) *)
Theorem C2_failures_absorbed self h jails :
  (host_tame h →
   ∃ t l, list_all self h jails = (t, Ok l) ∧
     (basejail_only self = false → plugin self = false →
      length (data_rows l) = length jails))
  ∧ (quick_tame h →
     ∃ t l, list_all_quick self h jails = (t, Ok l) ∧
       (basejail_only self = false → length (data_rows l) = length jails)).
Proof.
  split.
  - apply list_all_total.
  - apply list_all_quick_total.
Qed.

Lemma C2_failures_absorbed_witness :
  (∃ t l, list_all (Demo.lister "all" false false) (Demo.host 0)
            [Demo.web; Demo.dh; Demo.bad; Demo.gone] = (t, Ok l) ∧
     (basejail_only (Demo.lister "all" false false) = false →
      plugin (Demo.lister "all" false false) = false →
      length (data_rows l) = length [Demo.web; Demo.dh; Demo.bad; Demo.gone]))
  ∧ (∃ t l, list_all_quick (Demo.lister "all" false false) Demo.host_present
            [Demo.web; Demo.dh; Demo.bad] = (t, Ok l) ∧
     (basejail_only (Demo.lister "all" false false) = false →
      length (data_rows l) = length [Demo.web; Demo.dh; Demo.bad])).
Proof.
  split.
  - apply (proj1 (C2_failures_absorbed (Demo.lister "all" false false) (Demo.host 0)
                    [Demo.web; Demo.dh; Demo.bad; Demo.gone])).
    apply demo_host_tame.
  - apply (proj2 (C2_failures_absorbed (Demo.lister "all" false false) Demo.host_present
                    [Demo.web; Demo.dh; Demo.bad])).
    apply demo_host_present_quick_tame.
Defined.

(** C2, as stated, fails. In the quick listing a missing [config.json] is
    only logged: no configuration is bound for the jail, and the listing
    of a pool whose first jail has none ends with an exception. And a
    [jls] that cannot be started (rather than exiting with an error) ends
    the full listing. *)
Lemma C2_counterexample :
  json_load_conf (Demo.host 0) (mountpoint Demo.gone +:+ "/config.json") = Raise FileNotFoundError
  ∧ list_all_quick (Demo.lister "all" false false) (Demo.host 0) [Demo.gone; Demo.web]
    = ([Logged "EXCEPTION"
          ("gone is missing its configuration file."
           +:+ String PyStr.LF "Please run just 'list' instead to create it.")],
       Raise UnboundLocalError)
  ∧ list_all (Demo.lister "all" false false) Demo.host_no_jls [Demo.web; Demo.dh]
    = ([Exec ["jls"; "-j"; "ioc-web"]], Raise (OtherError "FileNotFoundError")).
Proof. repeat split; vm_compute; reflexivity. Qed.

(* ===================================================================== *)
(** ** Further properties: the events of a listing *)
(* ===================================================================== *)

Section TraceFacts.
Context {A B : Type} (P : event → Prop).

Lemma trace_bind (m : M A) (f : A → M B) :
  Forall P m.1 → (∀ a, Forall P (f a).1) → Forall P (m ≫= f).1.
Proof.
  destruct m as [t [a|e]]; intros Hm Hf; [|done].
  rewrite bind_ok. cbn [fst]. apply Forall_app. split; [done | apply Hf].
Qed.

Lemma trace_try_except (m : M A) (hd : exn → M A) :
  Forall P m.1 → (∀ e, Forall P (hd e).1) → Forall P (try_except m hd).1.
Proof.
  destruct m as [t [a|e]]; intros Hm Hh; [done |].
  unfold try_except. specialize (Hh e). destruct (hd e) as [t' r].
  apply Forall_app. by split.
Qed.

End TraceFacts.

Lemma trace_getitem P conf k : Forall P (getitem conf k).1.
Proof. unfold getitem. by destruct (conf !! k). Qed.

Lemma trace_quick_jail self h c0 jail : Forall is_logged (list_all_quick_jail self h c0 jail).1.
Proof.
  unfold list_all_quick_jail. apply trace_bind.
  - apply trace_try_except.
    + apply trace_bind; [done | by intros].
    + intros e. destruct e; try done.
      apply trace_bind; [by repeat constructor; eexists _, _ |]. intros _.
      apply trace_bind; [done | by intros].
  - intros [c|]; [|done]. apply trace_bind; [apply trace_getitem |]. intros uuid.
    by destruct (_ && _)%bool.
Qed.

Lemma trace_quick_loop self h jails :
  ∀ c0 acc, Forall is_logged (list_all_quick_loop self h c0 acc jails).1.
Proof.
  induction jails as [|jail jails IH]; intros c0 acc; [done |].
  cbn [list_all_quick_loop]. apply trace_bind; [apply trace_quick_jail |].
  intros [c row]. apply IH.
Qed.

(** X1. The quick listing starts no process, however it ends: all it
    does to the outside is to log. *)
Theorem X1_quick_starts_no_process self h jails :
  Forall is_logged (list_all_quick self h jails).1.
Proof.
  unfold list_all_quick. apply trace_bind; [apply trace_quick_loop |].
  intros rows. by destruct (negb (header self)).
Qed.

(* ===================================================================== *)
(** ** Further properties: the quick listing *)
(* ===================================================================== *)

Lemma quick_jail_row self h c0 jail :
  quick_tame h →
  ∃ c, list_all_quick_jail self h c0 jail
       = ([], Ok (Some c, if quick_keeps self h jail then Some (quick_row h jail) else None)).
Proof.
  intros Hq. specialize (Hq (mountpoint jail +:+ "/config.json")).
  unfold quick_row, quick_keeps.
  destruct (json_load_conf h _) as [c|e] eqn:Hload.
  - destruct Hq as [uuid Hu]. exists c. unfold list_all_quick_jail. rewrite Hload.
    unfold try_except, lift. rewrite bind_nil. cbn [mret M_ret]. rewrite bind_nil.
    rewrite (getitem_ok _ _ _ Hu), bind_nil, Hu. cbn [default from_option id].
    destruct (basejail_only self); cbn [andb orb negb].
    + destruct (String.eqb (get c "basejail" "no") "yes"); cbn [negb]; [|done].
      by destruct (String.eqb (get c "dhcp" "off") "on").
    + by destruct (String.eqb (get c "dhcp" "off") "on").
  - destruct (list_all_quick_jail_corrupt self h c0 jail e Hload Hq) as (c & Hc).
    exists c. rewrite Hc. by destruct (basejail_only self).
Qed.

Lemma quick_loop_rows self h jails :
  quick_tame h →
  ∀ c0 acc, list_all_quick_loop self h c0 acc jails
            = ([], Ok (acc ++ (quick_row h <$> List.filter (quick_keeps self h) jails))).
Proof.
  intros Hq. induction jails as [|jail jails IH]; intros c0 acc.
  - cbn. by rewrite app_nil_r.
  - cbn [list_all_quick_loop List.filter].
    destruct (quick_jail_row self h c0 jail Hq) as (c & Hc).
    rewrite Hc, bind_nil, IH. destruct (quick_keeps self h jail); [|done].
    cbn [fmap list_fmap]. by rewrite <- app_assoc.
Qed.

(** X3. When every [config.json] is there, and every one that parses
    holds a [host_hostuuid], the quick listing logs nothing and has
    exactly one row for each dataset it keeps (all of them outside the
    basejail-only view; in it those whose configuration parses and says
    [basejail = yes]), in the order of the datasets: it is not sorted.
    The row holds the name and the address of the configuration, "DHCP"
    for the address when [dhcp = on], and "NAME - CORRUPTED" with "N/A"
    when the file does not parse. *)
Theorem X3_quick_rows_in_order self h jails :
  quick_tame h →
  list_all_quick self h jails =
    ([], Ok (if header self
             then Table (["NAME"; "IP4"]
                         :: (quick_row h <$> List.filter (quick_keeps self h) jails))
             else Flat (quick_row h <$> List.filter (quick_keeps self h) jails))).
Proof.
  intros Hq. unfold list_all_quick.
  rewrite (quick_loop_rows self h jails Hq None []), bind_nil.
  by destruct (header self).
Qed.

Lemma X3_quick_rows_in_order_witness :
  list_all_quick (Demo.lister "basejail" false false) Demo.host_present
                 [Demo.dh; Demo.bad; Demo.web] =
    ([], Ok (if header (Demo.lister "basejail" false false)
             then Table (["NAME"; "IP4"]
                         :: (quick_row Demo.host_present
                               <$> List.filter (quick_keeps (Demo.lister "basejail" false false)
                                                            Demo.host_present)
                                               [Demo.dh; Demo.bad; Demo.web]))
             else Flat (quick_row Demo.host_present
                          <$> List.filter (quick_keeps (Demo.lister "basejail" false false)
                                                       Demo.host_present)
                                          [Demo.dh; Demo.bad; Demo.web]))).
Proof.
  apply (X3_quick_rows_in_order (Demo.lister "basejail" false false) Demo.host_present
           [Demo.dh; Demo.bad; Demo.web]).
  apply demo_host_present_quick_tame.
Defined.

(** X4. In the quick listing a dataset without [config.json] is logged at
    the level EXCEPTION; if the logger returns, the local [conf] still
    holds the configuration of the dataset before, and the row of that
    dataset is listed a second time in place of the missing one. *)
Theorem X4_quick_missing_repeats_previous self h (j1 j2 : Dataset) c uuid :
  json_load_conf h (mountpoint j1 +:+ "/config.json") = Ok c →
  c !! "host_hostuuid" = Some uuid →
  json_load_conf h (mountpoint j2 +:+ "/config.json") = Raise FileNotFoundError →
  (∀ message, logit h "EXCEPTION" message = Ok tt) →
  basejail_only self = false →
  header self = false →
  list_all_quick self h [j1; j2] =
    ([Logged "EXCEPTION"
        (final (PyStr.rsplit1 "/" (mountpoint j2)) +:+ " is missing its configuration file."
         +:+ String PyStr.LF "Please run just 'list' instead to create it.")],
     Ok (Flat [quick_row h j1; quick_row h j1])).
Proof.
  intros H1 Hu H2 Hlog Hb Hh.
  unfold list_all_quick, quick_row. cbn [list_all_quick_loop]. rewrite H1, Hu, Hh.
  unfold list_all_quick_jail. rewrite H1, H2. unfold try_except, lift, emit.
  rewrite !bind_nil. cbn [mret M_ret]. rewrite !bind_nil.
  rewrite (getitem_ok _ _ _ Hu), !bind_nil, Hb. cbn [andb app].
  rewrite bind_raise. cbn [mbind M_bind]. rewrite Hlog. cbn.
  rewrite (getitem_ok _ _ _ Hu). cbn.
  by destruct (String.eqb (get c "dhcp" "off") "on").
Qed.

Lemma X4_quick_missing_repeats_previous_witness :
  list_all_quick (Demo.lister "all" false false) (Demo.host 0) [Demo.web; Demo.gone] =
    ([Logged "EXCEPTION"
        (final (PyStr.rsplit1 "/" (mountpoint Demo.gone)) +:+ " is missing its configuration file."
         +:+ String PyStr.LF "Please run just 'list' instead to create it.")],
     Ok (Flat [quick_row (Demo.host 0) Demo.web; quick_row (Demo.host 0) Demo.web])).
Proof.
  apply (X4_quick_missing_repeats_previous (Demo.lister "all" false false) (Demo.host 0)
           Demo.web Demo.gone Demo.conf_web "web"); reflexivity.
Defined.

(* ===================================================================== *)
(** ** Further properties: the rows of [list_all] *)
(* ===================================================================== *)

(** Every row of a listing was appended by the run of the body on one of
    the datasets. *)
Lemma list_all_rows_from_runs self h jails t l :
  list_all self h jails = (t, Ok l) →
  ∀ row, row ∈ data_rows l →
    ∃ jail st t' st', jail ∈ jails ∧
      list_all_jail self h (if plugin self then true else full self) st jail
        = (t', Ok (st', Some row)).
Proof.
  intros H row Hrow.
  apply list_all_inv in H as (rows & Hloop & Hperm). rewrite Hperm in Hrow.
  destruct (list_all_loop_inv _ _ _ _ _ _ _ _ Hloop row Hrow) as [Hnil | Hrun]; [|done].
  by apply elem_of_nil in Hnil.
Qed.

(** The shape of what [list_all] returns. *)
Lemma list_all_shape self h jails t l :
  list_all self h jails = (t, Ok l) →
  if header self
  then ∃ hdr, l = Table (hdr :: data_rows l) ∧ length hdr = row_width self
  else l = Flat (data_rows l).
Proof.
  unfold list_all, row_width. intros H.
  apply bind_inv in H as (t1 & rows & t2 & _ & H & _).
  destruct (header self); cbn [negb] in H.
  - destruct (plugin self).
    + apply mret_inv in H as [<- _]. by eexists.
    + destruct (full self); apply mret_inv in H as [<- _]; by eexists.
  - by apply mret_inv in H as [<- _].
Qed.

(** X5. In what [list_all] returns every row has the width of the view
    (5 columns in the short view, 9 in the full view, 10 in the plugin
    view), and so has the header row of the table. *)
Theorem X5_rows_have_the_width_of_the_view self h jails t l :
  list_all self h jails = (t, Ok l) →
  Forall (λ row, length row = row_width self) (data_rows l)
  ∧ (if header self
     then ∃ hdr, l = Table (hdr :: data_rows l) ∧ length hdr = row_width self
     else l = Flat (data_rows l)).
Proof.
  intros H. split; [|by eapply list_all_shape].
  apply Forall_forall. intros row Hrow.
  destruct (list_all_rows_from_runs _ _ _ _ _ H row Hrow) as (jail & st & t' & st' & _ & Hrun).
  apply list_all_jail_inv in Hrun
    as (conf & corrupt & uuid & ip4 & ip6 & boot & jt & rel & state & jid & tpl & sip & fip
        & t1 & t2 & _ & _ & _ & _ & _ & _ & _ & _ & _ & _ & _ & _ & Hrow').
  unfold row_width. destruct (plugin self); cbn [andb] in Hrow'.
  - by destruct Hrow' as (_ & portal & _ & ->).
  - rewrite andb_false_r in Hrow'. subst row. by destruct (full self).
Qed.

Lemma X5_rows_have_the_width_of_the_view_witness :
  Forall (λ row, length row = row_width (Demo.lister "all" true false))
         (data_rows (Flat [["7"; "web"; "on"; "up"; "jail"; "11.2-RELEASE-p4";
                            "vnet0|10.0.0.5/24,vnet1|10.0.1.5/24"; "-"; "tpl"];
                           ["-"; "bad"; "N/A"; "CORRUPT"; "N/A"; "N/A"; "N/A"; "N/A"; "-"]]))
  ∧ (if header (Demo.lister "all" true false)
     then ∃ hdr,
         Flat [["7"; "web"; "on"; "up"; "jail"; "11.2-RELEASE-p4";
                "vnet0|10.0.0.5/24,vnet1|10.0.1.5/24"; "-"; "tpl"];
               ["-"; "bad"; "N/A"; "CORRUPT"; "N/A"; "N/A"; "N/A"; "N/A"; "-"]]
         = Table (hdr :: data_rows
                    (Flat [["7"; "web"; "on"; "up"; "jail"; "11.2-RELEASE-p4";
                            "vnet0|10.0.0.5/24,vnet1|10.0.1.5/24"; "-"; "tpl"];
                           ["-"; "bad"; "N/A"; "CORRUPT"; "N/A"; "N/A"; "N/A"; "N/A"; "-"]]))
         ∧ length hdr = row_width (Demo.lister "all" true false)
     else Flat [["7"; "web"; "on"; "up"; "jail"; "11.2-RELEASE-p4";
                 "vnet0|10.0.0.5/24,vnet1|10.0.1.5/24"; "-"; "tpl"];
                ["-"; "bad"; "N/A"; "CORRUPT"; "N/A"; "N/A"; "N/A"; "N/A"; "-"]]
          = Flat (data_rows
                    (Flat [["7"; "web"; "on"; "up"; "jail"; "11.2-RELEASE-p4";
                            "vnet0|10.0.0.5/24,vnet1|10.0.1.5/24"; "-"; "tpl"];
                           ["-"; "bad"; "N/A"; "CORRUPT"; "N/A"; "N/A"; "N/A"; "N/A"; "-"]]))).
Proof.
  apply (X5_rows_have_the_width_of_the_view (Demo.lister "all" true false) (Demo.host 0)
           [Demo.web; Demo.bad] [Exec ["jls"; "-j"; "ioc-web"]]).
  vm_compute. reflexivity.
Defined.

(** X6. In every row of [list_all] the state is "up", "down" or
    "CORRUPT", and the jid is "-" unless the state is "up". *)
Theorem X6_state_and_jid self h jails t l :
  list_all self h jails = (t, Ok l) →
  Forall (λ row, ∃ jid state,
            row !! 0%nat = Some jid ∧ row !! state_column self = Some state ∧
            (state = "up" ∨ state = "down" ∨ state = "CORRUPT") ∧
            (state ≠ "up" → jid = "-"))
         (data_rows l).
Proof.
  intros H. apply Forall_forall. intros row Hrow.
  destruct (list_all_rows_from_runs _ _ _ _ _ H row Hrow) as (jail & st & t' & st' & _ & Hrun).
  apply list_all_jail_inv in Hrun
    as (conf & corrupt & uuid & ip4 & ip6 & boot & jt & rel & state & jid & tpl & sip & fip
        & t1 & t2 & _ & _ & _ & _ & _ & _ & _ & _ & Hst & _ & _ & _ & Hrow').
  exists jid, state.
  assert (Hr : row !! 0%nat = Some jid ∧ row !! state_column self = Some state).
  { unfold state_column. destruct (plugin self); cbn [andb orb] in *.
    - by destruct Hrow' as (_ & portal & _ & ->).
    - rewrite andb_false_r in Hrow'. subst row. by destruct (full self). }
  destruct Hr as [Hr0 Hr1]. split; [done |]. split; [done |].
  destruct corrupt.
  - destruct Hst as (_ & -> & -> & _). split; [by auto | done].
  - destruct Hst as (b & Hjid & _ & ->). apply list_get_jid_inv in Hjid as [_ Hjid].
    destruct (checkoutput h _) as [out|e].
    + destruct Hjid as [-> _]. split; [by auto | done].
    + destruct Hjid as (_ & -> & ->). split; [by auto | done].
Qed.

Lemma X6_state_and_jid_witness :
  Forall (λ row, ∃ jid state,
            row !! 0%nat = Some jid ∧
            row !! state_column (Demo.lister "all" false false) = Some state ∧
            (state = "up" ∨ state = "down" ∨ state = "CORRUPT") ∧
            (state ≠ "up" → jid = "-"))
         (data_rows (Flat [["7"; "web"; "up"; "11.2-RELEASE"; "10.0.0.5,10.0.1.5"];
                           ["-"; "bad"; "CORRUPT"; "N/A"; "N/A"]])).
Proof.
  apply (X6_state_and_jid (Demo.lister "all" false false) (Demo.host 0)
           [Demo.web; Demo.bad] [Exec ["jls"; "-j"; "ioc-web"]]).
  vm_compute. reflexivity.
Defined.

(** The full IPv4 form that the DHCP branches leave. *)
Lemma dhcp_forms_full_form h conf st uuid s f t sip fip :
  dhcp_forms h conf st uuid s f = (t, Ok (sip, fip)) →
  fip = f ∨ fip = "DHCP (not running)" ∨ fip = "DHCP (running -- address requires root)"
  ∨ (∃ str_e, fip = "DHCP - Network Issue:" +:+ str_e)
  ∨ (∃ interface addr, fip = interface +:+ "|" +:+ addr).
Proof.
  intros H. pose proof H as H'. unfold dhcp_forms in H'.
  apply bind_inv in H' as (t1 & dhcp & t2 & Hd & _ & _). inv_getitem Hd.
  destruct (String.eqb_spec dhcp "on") as [->|Hne].
  - apply (dhcp_forms_on_inv _ _ _ _ _ _ _ _ _ Hd) in H as (b & _ & Hb).
    destruct b; [destruct (geteuid h =? 0) |].
    + destruct Hb as (interfaces & _ & _ & Hq). cbv zeta in Hq.
      destruct (check_output h _) as [out|e].
      * destruct Hq as (line & addr & _ & _ & _ & ->). do 4 right. by eexists _, _.
      * destruct Hq as (str_e & _ & _ & ->). do 3 right. left. by eexists.
    + destruct Hb as (_ & _ & ->). by auto.
    + destruct Hb as (_ & _ & ->). by auto.
  - rewrite (dhcp_forms_static _ _ _ _ _ _ _ Hd Hne) in H. injection H as _ _ <-. by left.
Qed.

Lemma none_to_dash_not_none s : none_to_dash s ≠ "none".
Proof.
  unfold none_to_dash. destruct (String.eqb_spec s "none"); [done | done].
Qed.

(** X7. In the full and plugin views the IP4 and IP6 columns never read
    "none": a configuration without address is shown as "-". *)
Theorem X7_full_view_never_shows_none self h jails t l :
  (plugin self || full self)%bool = true →
  list_all self h jails = (t, Ok l) →
  Forall (λ row, row !! 6%nat ≠ Some "none" ∧ row !! 7%nat ≠ Some "none") (data_rows l).
Proof.
  intros Hfull H. apply Forall_forall. intros row Hrow.
  destruct (list_all_rows_from_runs _ _ _ _ _ H row Hrow) as (jail & st & t' & st' & _ & Hrun).
  apply list_all_jail_inv in Hrun
    as (conf & corrupt & uuid & ip4 & ip6 & boot & jt & rel & state & jid & tpl & sip & fip
        & t1 & t2 & _ & _ & _ & _ & _ & _ & _ & _ & _ & _ & Hd & _ & Hrow').
  assert (Hr : row !! 6%nat = Some fip ∧ row !! 7%nat = Some (none_to_dash ip6)).
  { destruct (plugin self); cbn [andb orb] in *.
    - by destruct Hrow' as (_ & portal & _ & ->).
    - rewrite andb_false_r in Hrow'. rewrite Hfull in Hrow'. by subst row. }
  destruct Hr as [-> ->]. split.
  - intros [= ->].
    apply dhcp_forms_full_form in Hd
      as [Hf | [Hf | [Hf | [[str_e Hf] | (interface & addr & Hf)]]]]; try done.
    + symmetry in Hf. by apply none_to_dash_not_none in Hf.
    + apply (f_equal (PyStr.mem "|")) in Hf. rewrite !mem_app in Hf. cbn in Hf.
      by rewrite orb_true_r in Hf.
  - intros [= Hn]. by apply none_to_dash_not_none in Hn.
Qed.

Lemma X7_full_view_never_shows_none_witness :
  Forall (λ row, row !! 6%nat ≠ Some "none" ∧ row !! 7%nat ≠ Some "none")
         (data_rows (Flat [["7"; "9F1E2C3A-1111-2222-3333-444455556666"; "on"; "up"; "pluginv2";
                            "11-STABLE-SD"; "epair0b|10.0.0.77"; "-"; "-"]])).
Proof.
  apply (X7_full_view_never_shows_none (Demo.lister "all" true false) (Demo.host 0) [Demo.dh]
           [Exec ["jls"; "-j"; "ioc-9F1E2C3A-1111-2222-3333-444455556666"];
            Exec ["jexec"; "ioc-9F1E2C3A-1111-2222-3333-444455556666"; "ifconfig"; "epair0b";
                  "inet"]]).
  - reflexivity.
  - vm_compute. reflexivity.
Defined.

(* ===================================================================== *)
(** ** Further properties: names and addresses *)
(* ===================================================================== *)

Lemma mapM_ip4_item_none (items : list string) :
  Exists (λ item, PyStr.mem "|" item = false) items → mapM ip4_item items = None.
Proof.
  induction 1 as [item items Hitem | item items _ IH].
  - cbn [mapM]. by rewrite (ip4_item_no_bar _ Hitem).
  - cbn [mapM]. rewrite IH. by destruct (ip4_item item).
Qed.

(** X9. When one of the comma-separated entries of [ip4_addr] has no "|",
    the short IPv4 form is the whole raw value, also for the entries that
    have one ("-" when the raw value is "none"). *)
Theorem X9_short_ip4_all_or_nothing (raw : string) :
  Exists (λ item, PyStr.mem "|" item = false) (PyStr.split "," raw) →
  short_ip4_of raw = none_to_dash raw.
Proof.
  intros H. unfold short_ip4_of, none_to_dash. by rewrite (mapM_ip4_item_none _ H).
Qed.

Lemma X9_short_ip4_all_or_nothing_witness :
  short_ip4_of "vnet0|10.0.0.5/24,10.0.1.5/24" = none_to_dash "vnet0|10.0.0.5/24,10.0.1.5/24".
Proof.
  apply (X9_short_ip4_all_or_nothing "vnet0|10.0.0.5/24,10.0.1.5/24").
  apply Exists_cons_tl, Exists_cons_hd. reflexivity.
Defined.

Lemma length_replace_from (old : string) skip s :
  (String.length (PyStr.replace_from old "" skip s) <= String.length s)%nat.
Proof.
  revert skip. induction s as [|a s IH]; intros skip; [done |].
  cbn [PyStr.replace_from]. destruct skip as [|k].
  - destruct (PyStr.startswith old (String a s)).
    + rewrite app_nil. specialize (IH (Nat.pred (String.length old))). simpl. lia.
    + specialize (IH 0%nat). simpl. lia.
  - specialize (IH k). simpl. lia.
Qed.

Lemma length_replace_delete (old s : string) :
  old ≠ "" → (String.length (PyStr.replace old "" s) <= String.length s)%nat.
Proof. destruct old; [done |]. intros _. apply length_replace_from. Qed.

Lemma length_lstrip chars s : (String.length (PyStr.lstrip chars s) <= String.length s)%nat.
Proof.
  induction s as [|a s IH]; [done |]. cbn [PyStr.lstrip].
  destruct (PyStr.mem a chars); simpl; lia.
Qed.

Lemma length_rstrip chars s : (String.length (PyStr.rstrip chars s) <= String.length s)%nat.
Proof.
  induction s as [|a s IH]; [done |]. cbn [PyStr.rstrip].
  destruct (PyStr.rstrip chars s); [destruct (PyStr.mem a chars) |]; simpl in *; lia.
Qed.

(** X10. A name of fewer than 32 characters is never read as a UUID: it
    is shown whole in every view. *)
Theorem X10_short_names_shown_whole (full : bool) (s : string) :
  (String.length s < 32)%nat → short_uuid full s = s.
Proof.
  intros Hlen. unfold short_uuid. destruct full; [done |].
  unfold PyLib.uuid4_str.
  set (hex := PyStr.replace "-" "" _).
  assert (Hhex : (String.length hex <= String.length s)%nat).
  { unfold hex, PyStr.strip.
    etrans; [apply length_replace_delete; done |].
    etrans; [apply length_rstrip |]. etrans; [apply length_lstrip |].
    etrans; [apply length_replace_delete; done |]. by apply length_replace_delete. }
  destruct (Nat.eqb_spec (String.length hex) 32) as [He|]; [lia | done].
Qed.

Lemma X10_short_names_shown_whole_witness : short_uuid false "deadbeef-cafe" = "deadbeef-cafe".
Proof. apply (X10_short_names_shown_whole false "deadbeef-cafe"). vm_compute. lia. Defined.

Lemma map_dots_no_dot s :
  PyStr.mem "." (PyStr.map (λ c, if Ascii.eqb c "." then "_"%char else c) s) = false.
Proof.
  induction s as [|a s IH]; [done |]. cbn [PyStr.map PyStr.mem]. rewrite IH, orb_false_r.
  destruct (Ascii.eqb_spec a ".") as [->|Hne]; [done |].
  by apply Ascii.eqb_neq, not_eq_sym.
Qed.

Lemma map_dots_idem s :
  PyStr.map (λ c, if Ascii.eqb c "." then "_"%char else c)
            (PyStr.map (λ c, if Ascii.eqb c "." then "_"%char else c) s)
  = PyStr.map (λ c, if Ascii.eqb c "." then "_"%char else c) s.
Proof.
  induction s as [|a s IH]; [done |]. cbn [PyStr.map]. rewrite IH.
  destruct (Ascii.eqb a ".") eqn:E; [reflexivity | by rewrite E].
Qed.

(** X11. The name under which a jail is looked up in the kernel has no
    ".", and a jail whose name has dots is looked up under the same name
    as the jail named with "_" in their place: [list_get_jid] gives both
    the same answer. *)
Theorem X11_dots_and_underscores_collide h (uuid : string) :
  PyStr.mem "." (jail_name uuid) = false
  ∧ list_get_jid h (PyStr.replace "." "_" uuid) = list_get_jid h uuid.
Proof.
  split.
  - by rewrite jail_name_dots, mem_app, map_dots_no_dot.
  - unfold list_get_jid. by rewrite !jail_name_dots, replace_char, map_dots_idem.
Qed.

Lemma first_split_prefix sep (a b : string) :
  PyStr.mem sep a = false →
  first (PyStr.split sep (a +:+ b)) = a +:+ first (PyStr.split sep b).
Proof.
  induction a as [|x a IH]; intros Ha; [done |].
  cbn [PyStr.mem] in Ha. apply orb_false_elim in Ha as [Hx Ha]. specialize (IH Ha).
  rewrite !app_cons. cbn [PyStr.split]. rewrite Ascii.eqb_sym, Hx.
  pose proof (split_not_nil sep (a +:+ b)) as Hne.
  destruct (PyStr.split sep (a +:+ b)) as [|f fs]; [done |].
  cbn in IH. cbn. by rewrite IH.
Qed.

(** X12. The interface asked for the DHCP address is the first name of
    the first pair of [interfaces]; "vnet0", and no other name, is turned
    into "epair0b". *)
Theorem X12_only_vnet0_is_renamed (nic rest : string) :
  PyStr.mem ":" nic = false → PyStr.mem "," nic = false →
  dhcp_interface (nic +:+ ":" +:+ rest) = if String.eqb nic "vnet0" then "epair0b" else nic.
Proof.
  intros Hc Hm. unfold dhcp_interface.
  rewrite (first_split_prefix "," nic _ Hm).
  change (":" +:+ rest) with (String ":" rest).
  assert (Hfirst : ∃ r, first (PyStr.split "," (String ":" rest)) = String ":" r).
  { cbn [PyStr.split]. change (Ascii.eqb ":" ",") with false. cbv iota.
    pose proof (split_not_nil "," rest). destruct (PyStr.split "," rest); [done |]. by eexists. }
  destruct Hfirst as [r ->].
  rewrite split_app, (split_no_sep _ _ Hc). cbn [app first head default from_option id].
  destruct (String.eqb_spec nic "vnet0") as [->|]; done.
Qed.

Lemma X12_only_vnet0_is_renamed_witness :
  dhcp_interface ("vnet1" +:+ ":" +:+ "bridge1,vnet0:bridge0")
  = if String.eqb "vnet1" "vnet0" then "epair0b" else "vnet1".
Proof. apply (X12_only_vnet0_is_renamed "vnet1" "bridge1,vnet0:bridge0"); reflexivity. Defined.

(** X13. The address put in the portal of a plugin is "DHCP" whenever the
    full IPv4 form contains "DHCP", and else the address of the first
    entry only, whatever follows it. *)
Theorem X13_portal_uses_first_address (e : ip4_entry) (tail : string) :
  ip4_entry_wf e →
  PyStr.contains "DHCP" (ip4_entry_text e +:+ tail) = false →
  portal_ip (ip4_entry_text e +:+ tail) = ip4_entry_address e
  ∧ ∀ full_ip4, PyStr.contains "DHCP" full_ip4 = true → portal_ip full_ip4 = "DHCP".
Proof.
  intros Hwf Hd. split.
  - unfold portal_ip. rewrite Hd. cbn [negb].
    destruct e as [[iface addr] prefix]. unfold ip4_entry_wf, ip4_entry_text, ip4_entry_address in *.
    cbn [fst snd] in *. destruct Hwf as (_ & Hi & _ & _ & Ha & _).
    replace ((iface +:+ "|" +:+ addr +:+ "/" +:+ prefix) +:+ tail)
      with (iface +:+ String "|" (addr +:+ String "/" (prefix +:+ tail)))
      by (by rewrite !app_assoc_s).
    rewrite (split1_app _ _ _ Hi). cbn [length Nat.eqb negb lookup list_lookup default from_option id].
    by rewrite (split1_app _ _ _ Ha).
  - intros full_ip4 Hc. unfold portal_ip. by rewrite Hc.
Qed.

Lemma X13_portal_uses_first_address_witness :
  portal_ip (ip4_entry_text ("vnet0", "10.0.0.5", "24") +:+ ",vnet1|10.0.1.5/24")
    = ip4_entry_address ("vnet0", "10.0.0.5", "24")
  ∧ ∀ full_ip4, PyStr.contains "DHCP" full_ip4 = true → portal_ip full_ip4 = "DHCP".
Proof.
  apply (X13_portal_uses_first_address ("vnet0", "10.0.0.5", "24") ",vnet1|10.0.1.5/24").
  - repeat split.
  - reflexivity.
Defined.

(* ===================================================================== *)
(** ** Further properties: [list_datasets] *)
(* ===================================================================== *)

Lemma trace_list_all_quick_listing self h jails :
  Forall is_logged (list_all_quick self h jails).1.
Proof.
  unfold list_all_quick. apply trace_bind; [apply trace_quick_loop |].
  intros rows. by destruct (negb (header self)).
Qed.

(** The dict built from the datasets holds, for a name, the mount point of
    the last dataset of that name. *)
Lemma index_datasets_lookup (ds : list Dataset) :
  ∀ (m : gmap string string) k,
    index_datasets m ds !! k
    = match last (filter (λ d, final (PyStr.rsplit1 "/" (name d)) = k) ds) with
      | Some d => Some (mountpoint d)
      | None => m !! k
      end.
Proof.
  induction ds as [|d ds IH]; intros m k; [done |].
  unfold index_datasets in *. cbn [fold_left]. rewrite IH.
  rewrite filter_cons. destruct (decide (final (PyStr.rsplit1 "/" (name d)) = k)) as [Hk|Hk].
  - destruct (filter _ ds) as [|d' ds'] eqn:E.
    + cbn. by rewrite Hk, lookup_insert_eq.
    + rewrite last_cons_cons. destruct (last (d' :: ds')) eqn:E'; [done |].
      by apply last_None in E'.
  - destruct (last (filter _ ds)); [done |]. by rewrite lookup_insert_ne.
Qed.

Lemma index_datasets_app m ds ts :
  index_datasets (index_datasets m ds) ts = index_datasets m (ds ++ ts).
Proof. unfold index_datasets. by rewrite fold_left_app. Qed.

(** X14. For the list type "uuid", [list_datasets] returns a dict from
    the last segment of the name of every jail and template to a mount
    point, without starting a process: under a name it holds the mount
    point of the last dataset of that name, the templates coming after
    the jails (so a template hides a jail of the same name), and nothing
    under any other name. *)
Theorem X14_uuid_index_last_wins self h z js ts :
  list_type self = "uuid" →
  children z (pool z +:+ "/iocage/jails") = Ok js →
  children z (pool z +:+ "/iocage/templates") = Ok ts →
  ∃ m, list_datasets self h z = ([], Ok (Index m)) ∧
    ∀ k, m !! k = mountpoint <$>
                  last (filter (λ d, final (PyStr.rsplit1 "/" (name d)) = k) (js ++ ts)).
Proof.
  intros Ht Hjs Hts. exists (index_datasets ∅ (js ++ ts)). split.
  - unfold list_datasets, lift. rewrite Ht.
    change (String.eqb "uuid" "base") with false.
    change (String.eqb "uuid" "template") with false.
    change (String.eqb "uuid" "all") with false.
    change (String.eqb "uuid" "basejail") with false.
    change (String.eqb "uuid" "uuid") with true. cbv iota. cbn [orb].
    rewrite Hjs, bind_nil. rewrite Hts, bind_nil. by rewrite index_datasets_app.
  - intros k. rewrite index_datasets_lookup.
    destruct (last _); [done |]. by rewrite lookup_empty.
Qed.

Lemma X14_uuid_index_last_wins_witness :
  ∃ m, list_datasets (Demo.lister "uuid" false false) (Demo.host 0) DemoStore.store
         = ([], Ok (Index m)) ∧
    ∀ k, m !! k = mountpoint <$>
                  last (filter (λ d, final (PyStr.rsplit1 "/" (name d)) = k)
                               ([Demo.web; Demo.dh] ++ [DemoStore.tpl])).
Proof.
  apply (X14_uuid_index_last_wins (Demo.lister "uuid" false false) (Demo.host 0) DemoStore.store
           [Demo.web; Demo.dh] [DemoStore.tpl]); reflexivity.
Defined.

Lemma list_all_loop_with_quick self h q full jails :
  ∀ status acc, list_all_loop (with_quick self q) h full status acc jails
                = list_all_loop self h full status acc jails.
Proof.
  induction jails as [|jail jails IH]; intros status acc; [done |].
  cbn [list_all_loop].
  change (list_all_jail (with_quick self q) h full status jail)
    with (list_all_jail self h full status jail).
  destruct (list_all_jail self h full status jail) as [t [[st row]|e]]; [|done].
  rewrite !bind_ok. by rewrite IH.
Qed.

Lemma list_all_with_quick self h q jails :
  list_all (with_quick self q) h jails = list_all self h jails.
Proof.
  unfold list_all. cbn [with_quick plugin full header sort].
  by rewrite list_all_loop_with_quick.
Qed.

(** X15. Where [list_datasets] sends a list type. For the list types
    "uuid" and "base" it starts no process and logs nothing of its own.
    With [quick] set and a list type other than "template" all it does to
    the outside is to log. The list type "template" does not honour
    [quick]: it gets the listing of [list_all] whether the flag is set or
    not. *)
Theorem X15_list_datasets_dispatch self h z :
  (list_type self = "uuid" ∨ list_type self = "base" → (list_datasets self h z).1 = [])
  ∧ (quick self = true → list_type self ≠ "template" →
     Forall is_logged (list_datasets self h z).1)
  ∧ (list_type self = "template" →
     ∀ q, list_datasets (with_quick self q) h z = list_datasets self h z).
Proof.
  unfold list_datasets. repeat split.
  - intros Ht. unfold lift.
    destruct Ht as [Ht | Ht]; rewrite Ht.
    + change (String.eqb "uuid" "base") with false.
      change (String.eqb "uuid" "template") with false.
      change (String.eqb "uuid" "all") with false.
      change (String.eqb "uuid" "basejail") with false.
      change (String.eqb "uuid" "uuid") with true. cbv iota. cbn [orb].
      destruct (children z (pool z +:+ "/iocage/jails")); [|done]. rewrite bind_nil.
      by destruct (children z (pool z +:+ "/iocage/templates")).
    + change (String.eqb "base" "base") with true.
      change (String.eqb "base" "all") with false.
      change (String.eqb "base" "basejail") with false.
      change (String.eqb "base" "uuid") with false. cbv iota. cbn [orb].
      by destruct (children z (pool z +:+ "/iocage/releases")).
  - intros Hq Hne. apply trace_bind; [done |]. intros ds. rewrite Hq.
    destruct (_ || _)%bool.
    { apply trace_bind; [apply trace_list_all_quick_listing | done]. }
    destruct (String.eqb (list_type self) "uuid"); [by apply trace_bind |].
    destruct (String.eqb (list_type self) "base"); [done |].
    destruct (String.eqb_spec (list_type self) "template"); [done | done].
  - intros Ht q. cbn [with_quick list_type quick]. rewrite Ht.
    change (String.eqb "template" "base") with false.
    change (String.eqb "template" "template") with true.
    change (String.eqb "template" "all") with false.
    change (String.eqb "template" "basejail") with false.
    change (String.eqb "template" "uuid") with false. cbv iota. cbn [orb].
    destruct (lift (children z (pool z +:+ "/iocage/templates"))) as [t [ds|e]]; [|done].
    rewrite !bind_ok. by rewrite list_all_with_quick.
Qed.

(* ===================================================================== *)
(** ** Further properties: when a jail is dropped *)
(* ===================================================================== *)

(** X16. The two filters of [list_all] act at different points. The
    basejail-only view drops a jail as soon as its configuration is
    loaded, before any process is started. The plugin view drops a jail
    that is not a plugin only at the end: the jail has been looked up in
    the kernel first. *)
Theorem X16_when_a_jail_is_dropped self h status jail conf jt :
  host_tame h →
  json_get_value_all h (mountpoint jail) = Ok conf →
  conf !! "type" = Some jt → jt ≠ "plugin" → jt ≠ "pluginv2" →
  (basejail_only self = true → get conf "basejail" "no" ≠ "yes" →
   ∀ full, list_all_jail self h full status jail = ([], Ok (status, None)))
  ∧ (plugin self = true →
     basejail_only self = false ∨ get conf "basejail" "no" = "yes" →
     ∃ uuid t st', conf !! "host_hostuuid" = Some uuid ∧
       list_all_jail self h true status jail
         = (Exec ["jls"; "-j"; jail_name uuid] :: t, Ok (st', None))).
Proof.
  intros Ht Hload Hjt Hp Hp2. split.
  - intros Hb Hn full. unfold list_all_jail.
    rewrite (load_conf_loaded _ _ _ Hload), bind_nil, Hb.
    apply String.eqb_neq in Hn. by rewrite Hn.
  - intros Hpl Hkeep.
    destruct (list_all_jail_total self h true status jail Ht) as (t & [st' row] & Hrun & _).
    destruct row as [row|].
    + apply list_all_jail_inv in Hrun
        as (conf' & corrupt & uuid & ip4 & ip6 & boot & jt' & rel & state & jid & tpl & sip & fip
            & t1 & t2 & Hl & _ & _ & _ & _ & _ & Hjt' & _ & _ & _ & _ & _ & Hrow).
      rewrite (load_conf_loaded _ _ _ Hload) in Hl. injection Hl as <- <-.
      rewrite Hpl in Hrow. cbn [andb] in Hrow. destruct Hrow as ([Hx | Hx] & _); congruence.
    + pose proof Hrun as Hrun'.
      apply list_all_jail_dropped_inv in Hrun'
        as (conf' & corrupt & Hl & [(Hb & Hn & _) | (_ & uuid & jt' & jid & t1 & t2 & Hu & _ & Hst & -> & _)]).
      * rewrite (load_conf_loaded _ _ _ Hload) in Hl. injection Hl as <- <-.
        destruct Hkeep; congruence.
      * rewrite (load_conf_loaded _ _ _ Hload) in Hl. injection Hl as <- <-.
        destruct Hst as (b & Hjid). pose proof (list_get_jid_inv _ _ _ _ _ Hjid) as [-> _].
        exists uuid, t2, st'. by split.
Qed.

Lemma X16_when_a_jail_is_dropped_witness :
  (basejail_only (Demo.lister "all" false true) = true →
   get Demo.conf_web "basejail" "no" ≠ "yes" →
   ∀ full, list_all_jail (Demo.lister "all" false true) (Demo.host 0) full None Demo.web
           = ([], Ok (None, None)))
  ∧ (plugin (Demo.lister "all" false true) = true →
     basejail_only (Demo.lister "all" false true) = false
     ∨ get Demo.conf_web "basejail" "no" = "yes" →
     ∃ uuid t st', Demo.conf_web !! "host_hostuuid" = Some uuid ∧
       list_all_jail (Demo.lister "all" false true) (Demo.host 0) true None Demo.web
         = (Exec ["jls"; "-j"; jail_name uuid] :: t, Ok (st', None))).
Proof.
  apply (X16_when_a_jail_is_dropped (Demo.lister "all" false true) (Demo.host 0) None Demo.web
           Demo.conf_web "jail").
  - apply demo_host_tame.
  - reflexivity.
  - reflexivity.
  - discriminate.
  - discriminate.
Defined.

(** ** The template column hides releases *)

Lemma lower_app (a b : string) : PyStr.lower (a +:+ b) = PyStr.lower a +:+ PyStr.lower b.
Proof.
  unfold PyStr.lower. induction a as [|c a IH].
  - by rewrite app_nil.
  - rewrite app_cons. cbn [PyStr.map]. by rewrite app_cons, IH.
Qed.

Lemma startswith_contains sub s : PyStr.startswith sub s = true → PyStr.contains sub s = true.
Proof. destruct s; cbn [PyStr.contains]; intros H; [done | by rewrite H]. Qed.

Lemma contains_app sub (a b : string) : PyStr.contains sub (a +:+ sub +:+ b) = true.
Proof.
  induction a as [|c a IH].
  - rewrite app_nil. apply startswith_contains, startswith_refl_app.
  - rewrite app_cons. cbn [PyStr.contains]. rewrite IH. by rewrite orb_true_r.
Qed.

(** X17. The template column shows "-" for every origin whose last
    segment has the word release or stable anywhere in it, in any mixture
    of upper and lower case: a template whose own name holds one of the
    two words is hidden like a release. *)
Theorem X17_template_hidden_by_word (p w q : string) :
  PyStr.lower w = "release" ∨ PyStr.lower w = "stable" →
  hide_release (p +:+ w +:+ q) = "-".
Proof.
  intros Hw. unfold hide_release. rewrite !lower_app.
  destruct Hw as [-> | ->]; rewrite contains_app; [done|].
  by rewrite orb_true_r.
Qed.

Lemma X17_template_hidden_by_word_witness :
  hide_release ("web-" +:+ "Stable" +:+ "-2") = "-".
Proof.
  apply (X17_template_hidden_by_word "web-" "Stable" "-2"). right. reflexivity.
Defined.

(** ** The local [status] of the loop of [list_all] *)

Lemma same_refl r : same_but_status r r.
Proof. split; [done|]. by destruct r as [t [[st row]|e]]. Qed.

Lemma same_bind {A} (m : M A) f g :
  (∀ a, same_but_status (f a) (g a)) → same_but_status (m ≫= f) (m ≫= g).
Proof.
  intros H. destruct m as [t [a|e]].
  - rewrite !bind_ok. destruct (H a) as [Ht Hr]. split; [cbn; by rewrite Ht | exact Hr].
  - rewrite !bind_raise. by split.
Qed.

Lemma getitem_missing conf k : conf !! k = None → getitem conf k = ([], Raise KeyError).
Proof. unfold getitem. by intros ->. Qed.

Lemma dhcp_forms_placeholder h (d : gmap string string) name st1 st2 u s f :
  let conf := <["release" := "N/A"]> (<["host_hostuuid" := name]> ((λ _, "N/A") <$> d)) in
  dhcp_forms h conf st1 u s f = dhcp_forms h conf st2 u s f.
Proof.
  intros conf. unfold dhcp_forms.
  destruct (conf !! "dhcp") as [v|] eqn:E.
  - destruct (corrupt_conf_values d name "dhcp" v E) as [[? _] | ->]; [done|].
    by rewrite (getitem_ok _ _ _ E), !bind_nil.
  - by rewrite (getitem_missing _ _ E), !bind_raise.
Qed.

(** X18. What the body of the loop of [list_all] does for a jail, the
    events and the row or the exception, does not depend on the [status]
    that the jails before it left in the local variable: a jail with a
    corrupt configuration does not assign it, and its placeholder
    configuration never has [dhcp = on], the one place that reads it. *)
Theorem X18_status_of_earlier_jails_unseen self h full st1 st2 jail :
  same_but_status (list_all_jail self h full st1 jail) (list_all_jail self h full st2 jail).
Proof.
  unfold list_all_jail.
  destruct (load_conf h jail) as [t [[conf corrupt]|e]] eqn:Hload;
    [| rewrite !bind_raise; by split].
  apply load_conf_inv in Hload as [-> Hc]. rewrite !bind_nil.
  destruct (basejail_only self && _)%bool; [by split|].
  do 6 (apply same_bind; intros ?).
  destruct (release_forms _) as [full_release short_release].
  destruct corrupt.
  - destruct Hc as [[? _] | (_ & e & def_props & _ & _ & ->)]; [done|].
    rewrite !mret_bind.
    do 2 (apply same_bind; intros ?).
    rewrite (dhcp_forms_placeholder h def_props _ st1 st2).
    apply same_bind. intros [short_ip4 full_ip4].
    destruct (full && plugin self)%bool.
    + destruct (negb _ && negb _)%bool; [by split|].
      apply same_bind. intros ?. by split.
    + destruct full; by split.
  - apply same_refl.
Qed.

(** ** The short form of a release *)

Lemma rstrip_all_in chars t : all_in chars t = true → PyStr.rstrip chars t = "".
Proof.
  induction t as [|a t IH]; [done |]. cbn [all_in PyStr.rstrip].
  intros [Ha Ht]%andb_true_iff. by rewrite (IH Ht), Ha.
Qed.

Lemma rstrip_keep chars (stem : string) c t :
  PyStr.mem c chars = false → all_in chars t = true →
  PyStr.rstrip chars (stem +:+ String c t) = stem +:+ String c "".
Proof.
  intros Hc Ht. induction stem as [|a stem IH].
  - rewrite !app_nil. cbn [PyStr.rstrip]. by rewrite (rstrip_all_in _ _ Ht), Hc.
  - rewrite !app_cons. cbn [PyStr.rstrip]. rewrite IH.
    destruct stem; [by rewrite app_nil | by rewrite app_cons].
Qed.

(** X19. Where the two forms of a release are plain. For a release
    without "HBSD" the full form is the release, and the short form is its
    first two "-"-separated segments joined by "-" (the whole release when
    it has at most two). For a release with "HBSD" whose full form ends
    with "-HBSD" after a character other than "-", "H", "B", "S" and "D",
    the short form is the full form without that "-HBSD". *)
Theorem X19_release_short_form (raw : string) :
  (PyStr.contains "HBSD" raw = false →
     (release_forms raw).1 = raw ∧
     ∀ a b rest, PyStr.mem "-" a = false → PyStr.mem "-" b = false →
       (raw = a → (release_forms raw).2 = a) ∧
       (raw = a +:+ "-" +:+ b → (release_forms raw).2 = a +:+ "-" +:+ b) ∧
       (raw = a +:+ "-" +:+ b +:+ "-" +:+ rest → (release_forms raw).2 = a +:+ "-" +:+ b))
  ∧ (PyStr.contains "HBSD" raw = true →
     ∀ stem c, (release_forms raw).1 = stem +:+ String c "-HBSD" →
       PyStr.mem c "-HBSD" = false →
       (release_forms raw).2 = stem +:+ String c "").
Proof.
  unfold release_forms. split; intros ->; cbn [fst snd].
  - split; [done |]. intros a b rest Ha Hb. repeat split; intros ->.
    + by apply two_segments_one.
    + by apply two_segments_two.
    + by apply two_segments_more.
  - intros stem c -> Hc. by apply rstrip_keep.
Qed.
